(** * Labour management backend: attendance, leave and salary controllers

    A shallow embedding of the request handlers of
    [src/controllers/attendance.controller.js],
    [src/controllers/leave.controller.js] and
    [src/controllers/salary.controller.js], together with the three
    Mongoose schemas they write through.

    Conventions of the embedding.
    - A collection is the list of its documents, in insertion order.
    - A handler is a function from the request and the collections it
      touches to the [Outcome] it produces and the collections afterwards.
    - Request values are [JsVal]: [undefined], [null] or a string.  The
      handlers test them with JavaScript truthiness, which is [truthy].
      A string is the sequence of its code units, each below 256.
    - A [Date] is its time value in milliseconds, an integer; the host's
      date parser is the section variable [Date_parse] ([None] is the
      invalid date).  JavaScript numbers are integers of [Z], which
      they are below 2^53; the statements on pagination keep to inputs
      within that range.
    - A stored identifier is its hexadecimal form in lower case; a
      request value is cast to it ([canonical]) before it is stored or
      compared, so two spellings of one identifier are the same
      identifier.
    - The model layer follows the schema files: a document is validated
      against its schema when it is created or saved ([required],
      [enum], casts), a path the schema does not declare is neither
      stored nor sent, and no collection has a uniqueness constraint of
      its own.
    - [populate] of a path whose [ref] is a registered model ("User")
      only decorates the answer and is left out.  The schemas' refs
      "labourer" and "project" name no registered model (the models are
      "Labourer" and "Project"): populating such a path fails with a
      MissingSchemaError as soon as a document to populate carries a
      value on it.
    - [mongoose.Types.ObjectId] is a class: calling it without [new]
      raises a TypeError. *)

From Stdlib Require Import ZArith List String Ascii Bool Lia DecimalString.
From Stdlib Require Import DecimalNat Permutation Sorted.
Import ListNotations.

Local Open Scope string_scope.
Local Open Scope Z_scope.
Local Open Scope list_scope.

(* ================================================================== *)
(** ** JavaScript values as the handlers see them *)

Module Js.

Inductive JsVal : Type :=
| JUndefined
| JNull
| JStr (s : string).

(** [if (v)] / [!v] / [a || b] on these values. *)
Definition truthy (v : JsVal) : bool :=
  match v with
  | JStr s => negb (String.eqb s "")
  | _ => false
  end.

(** [`${v}`] inside a template literal. *)
Definition toString (v : option string) : string :=
  match v with
  | Some s => s
  | None => "undefined"
  end.

(** [list.includes(s)] on an array of strings. *)
Definition includes (l : list string) (s : string) : bool :=
  existsb (String.eqb s) l.

(** [allowed.includes(v)] where [v] may be any request value. *)
Definition includesVal (l : list string) (v : JsVal) : bool :=
  match v with
  | JStr s => includes l s
  | _ => false
  end.

(** The white space that [trim] and [parseInt] strip, among the code
    units below 256: TAB, LF, VT, FF, CR, space and the no-break space. *)
Definition isWhite (c : ascii) : bool :=
  let n := nat_of_ascii c in
  (Nat.eqb n 32 || (Nat.leb 9 n && Nat.leb n 13) || Nat.eqb n 160)%bool.

Fixpoint skipWhite (s : string) : string :=
  match s with
  | String c r => if isWhite c then skipWhite r else s
  | EmptyString => s
  end.

Definition digitVal (c : ascii) : option Z :=
  let n := nat_of_ascii c in
  if (Nat.leb 48 n && Nat.leb n 57)%bool
  then Some (Z.of_nat (n - 48)) else None.

(** The longest prefix of decimal digits, read in base ten; [acc] is
    the value read so far ([None]: no digit yet). *)
Fixpoint digits (s : string) (acc : option Z) : option Z :=
  match s with
  | String c r =>
      match digitVal c with
      | Some d =>
          digits r (Some (10 * match acc with Some a => a | None => 0 end + d))
      | None => acc
      end
  | EmptyString => acc
  end.

(** [parseInt(s, 10)]: leading white space, an optional sign, then the
    longest run of digits; [None] stands for [NaN]. *)
Definition parseInt (s : string) : option Z :=
  match skipWhite s with
  | String "-"%char r => option_map Z.opp (digits r None)
  | String "+"%char r => digits r None
  | t => digits t None
  end.

(** [Math.ceil(a / b)] for a non-negative [a] and a positive [b]. *)
Definition ceilDiv (a b : Z) : Z := (a + b - 1) / b.

End Js.
Export Js.

(* ================================================================== *)
(** ** What the handlers produce *)

(** [new ApiError(statusCode, message)], handed to [next]. *)
Record ApiError : Type := mkApiError {
  statusCode : Z;
  message : string
}.

(** Errors raised by the model layer; the handlers do not catch them
    (except [bulkAddAttendance]), so [catchAsyncHandler] forwards them. *)
Inductive Exception : Type :=
| CastError (path : string)
| ValidationError (msg : string)
| TypeError (msg : string)
| MissingSchemaError.

Inductive Outcome (B : Type) : Type :=
| Sent (code : Z) (body : B)        (* res.status(code).json(body) *)
| Refused (e : ApiError)            (* return next(new ApiError(..)) *)
| Thrown (e : Exception).           (* rejected promise *)

Arguments Sent {B} code body.
Arguments Refused {B} e.
Arguments Thrown {B} e.

Definition refuse {B} (code : Z) (msg : string) : Outcome B :=
  Refused (mkApiError code msg).

(* ================================================================== *)
(** ** Identifiers *)

Definition ObjectId : Type := string.

Definition isHexChar (c : ascii) : bool :=
  let n := nat_of_ascii c in
  ((Nat.leb 48 n && Nat.leb n 57)
   || (Nat.leb 65 n && Nat.leb n 70)
   || (Nat.leb 97 n && Nat.leb n 102))%bool.

Fixpoint allHex (s : string) : bool :=
  match s with
  | EmptyString => true
  | String c r => (isHexChar c && allHex r)%bool
  end.

(** [mongoose.Types.ObjectId.isValid] on a string: twelve characters, or
    twenty-four hexadecimal ones. *)
Definition isValidString (s : string) : bool :=
  (Nat.eqb (String.length s) 12
   || (Nat.eqb (String.length s) 24 && allHex s))%bool.

Definition ObjectId_isValid (v : JsVal) : bool :=
  match v with
  | JStr s => isValidString s
  | _ => false
  end.

(** The identifier a valid string denotes, in the form
    [toHexString] gives it: the string itself in lower case when it has
    twenty-four hexadecimal characters, the codes of its twelve
    characters in hexadecimal otherwise. *)
Definition lowerCase (c : ascii) : ascii :=
  let n := nat_of_ascii c in
  if (Nat.leb 65 n && Nat.leb n 70)%bool then ascii_of_nat (n + 32) else c.

Definition hexDigit (n : nat) : ascii :=
  if Nat.ltb n 10 then ascii_of_nat (48 + n) else ascii_of_nat (87 + n).

Fixpoint lowerHex (s : string) : string :=
  match s with
  | EmptyString => EmptyString
  | String c r => String (lowerCase c) (lowerHex r)
  end.

Fixpoint hexOfBytes (s : string) : string :=
  match s with
  | EmptyString => EmptyString
  | String c r =>
      let n := nat_of_ascii c in
      String (hexDigit (Nat.div n 16)) (String (hexDigit (Nat.modulo n 16)) (hexOfBytes r))
  end.

Definition canonical (s : string) : ObjectId :=
  if (Nat.eqb (String.length s) 24 && allHex s)%bool
  then lowerHex s else hexOfBytes s.

(** The identifier of a request value that passed [isValid]. *)
Definition oidVal (v : JsVal) : option ObjectId :=
  match v with
  | JStr s => Some (canonical s)
  | _ => None
  end.

(** Mongoose's cast of a value assigned to an [ObjectId] path:
    [undefined]/[null] stay empty, a valid string becomes its
    identifier, anything else is a cast error ([None]). *)
Definition castObjectId (v : JsVal) : option (option ObjectId) :=
  match v with
  | JUndefined | JNull => Some None
  | JStr s => if isValidString s then Some (Some (canonical s)) else None
  end.

(** [.populate(path)] on a path whose [ref] names no registered model:
    it fails when one of the documents to populate has a value there. *)
Definition unregisteredRef {D} (path : D -> option ObjectId) (docs : list D) : bool :=
  existsb (fun d => match path d with Some _ => true | None => false end) docs.

Definition oid_eqb (a b : option ObjectId) : bool :=
  match a, b with
  | Some x, Some y => String.eqb x y
  | None, None => true
  | _, _ => false
  end.

Definition date_eqb (a b : option Z) : bool :=
  match a, b with
  | Some x, Some y => Z.eqb x y
  | None, None => true
  | _, _ => false
  end.

Definition str_eqb (a b : option string) : bool :=
  match a, b with
  | Some x, Some y => String.eqb x y
  | None, None => true
  | _, _ => false
  end.

(** [{ field: { $gte: d } }] and [{ field: { $lte: d } }]: a missing
    field matches neither. *)
Definition mongo_gte (field : option Z) (d : Z) : bool :=
  match field with
  | Some v => Z.leb d v
  | None => false
  end.

Definition mongo_lte (field : option Z) (d : Z) : bool :=
  match field with
  | Some v => Z.leb v d
  | None => false
  end.

(** [{ field: { $gte: lo, $lte: hi } }] with either bound optional. *)
Definition inRange (lo hi : option Z) (field : option Z) : bool :=
  (match lo with Some d => mongo_gte field d | None => true end
   && match hi with Some d => mongo_lte field d | None => true end)%bool.

(** [$group: { _id: "$key", count: { $sum: 1 } }]: one group per distinct
    key, in order of first appearance. *)
Section Group.
Context {K : Type} (eqb : K -> K -> bool).

Fixpoint bump (k : K) (acc : list (K * Z)) : list (K * Z) :=
  match acc with
  | [] => [(k, 1)]
  | (k', c) :: r =>
      if eqb k k' then (k', c + 1) :: r else (k', c) :: bump k r
  end.

Definition groupCount (keys : list K) : list (K * Z) :=
  fold_left (fun acc k => bump k acc) keys [].
End Group.

(** [.skip(skip).limit(limit)] on a sorted result. *)
Definition page_of {A} (skip limit : Z) (l : list A) : list A :=
  firstn (Z.to_nat limit) (skipn (Z.to_nat skip) l).

(** [.sort(..)]: insertion sort, [before a b] when [a] may precede [b]. *)
Section Sort.
Context {A : Type} (before : A -> A -> bool).

Fixpoint insertSorted (a : A) (l : list A) : list A :=
  match l with
  | [] => [a]
  | b :: r => if before a b then a :: l else b :: insertSorted a r
  end.

Definition sortBy (l : list A) : list A :=
  fold_right insertSorted [] l.
End Sort.

(** Descending order on optional dates, a missing date last. *)
Definition date_geb (a b : option Z) : bool :=
  match a, b with
  | Some x, Some y => Z.leb y x
  | Some _, None => true
  | None, Some _ => false
  | None, None => true
  end.

(* ================================================================== *)
(** ** The schemas *)

(** [models/attendance.model.js] *)
Module Attendance.

Record t : Type := mk {
  _id : ObjectId;
  labourerId : option ObjectId;
  projectId : option ObjectId;
  date : option Z;
  shift : option string;
  status : option string;
  markedBy : option ObjectId
}.

Definition shifts : list string := ["morning"; "evening"; "night"].
Definition statuses : list string := ["present"; "absent"; "half-day"].

(** A required string path with an [enum]. *)
Definition requiredEnum (allowed : list string) (v : option string) : bool :=
  match v with
  | Some s => includes allowed s
  | None => false
  end.

(** Document validation as the schema declares it: [shift] and
    [status] are required and enumerated, the rest is optional. *)
Definition valid (a : t) : bool :=
  (requiredEnum shifts (shift a) && requiredEnum statuses (status a))%bool.

(** The uniqueness key of the controllers. *)
Definition key (a : t) : option ObjectId * option ObjectId * option Z * option string :=
  (labourerId a, projectId a, date a, shift a).

Definition hasKey (l p : option ObjectId) (d : option Z) (s : option string)
           (a : t) : bool :=
  (oid_eqb (labourerId a) l && oid_eqb (projectId a) p
   && date_eqb (date a) d && str_eqb (shift a) s)%bool.

Definition findById (id : ObjectId) (db : list t) : option t :=
  find (fun a => String.eqb (_id a) id) db.

(** [doc.save()] of a loaded document: the stored document with the
    same [_id] is replaced. *)
Definition replace (a : t) (db : list t) : list t :=
  map (fun b => if String.eqb (_id b) (_id a) then a else b) db.

End Attendance.

(** [models/leave.model.js] *)
Module Leave.

Record t : Type := mk {
  _id : ObjectId;
  labourerId : option ObjectId;
  fromDate : option Z;
  toDate : option Z;
  reason : string;
  status : option string;
  appliedOn : option Z;
  reviewedBy : option ObjectId
}.

Definition statuses : list string := ["pending"; "approved"; "rejected"].

(** [reason] is required; [status] is enumerated but not required. *)
Definition valid (l : t) : bool :=
  (negb (String.eqb (reason l) "")
   && match status l with
      | Some s => includes statuses s
      | None => true
      end)%bool.

Definition findById (id : ObjectId) (db : list t) : option t :=
  find (fun l => String.eqb (_id l) id) db.

Definition replace (l : t) (db : list t) : list t :=
  map (fun b => if String.eqb (_id b) (_id l) then l else b) db.

(** [l.status = v; l.reviewedBy = by_] *)
Definition reviewed (v : string) (by_ : option ObjectId) (l : t) : t :=
  mk (_id l) (labourerId l) (fromDate l) (toDate l) (reason l)
     (Some v) (appliedOn l) by_.

(** [findByIdAndDelete]: the first document with that [_id] goes. *)
Fixpoint deleteById (id : ObjectId) (db : list t) : list t :=
  match db with
  | [] => []
  | l :: r => if String.eqb (_id l) id then r else l :: deleteById id r
  end.

End Leave.

(** [models/salary.model.js].  The schema declares no [paymentDate]
    path: under Mongoose's strict mode a value assigned to it lives on
    the in-memory object only and is not stored. *)
Module Salary.

Record t : Type := mk {
  _id : ObjectId;
  labourerId : option ObjectId;
  startPeriod : option Z;
  endPeriod : option Z;
  totalDaysPresent : Z;
  dailyWage : Z;
  totalSalary : Z;
  status : option string;
  payslipUrl : option string
}.

Definition statuses : list string := ["pending"; "paid"].

(** A required [String] path: Mongoose's required validator rejects a
    missing value and the empty string alike. *)
Definition requiredString (v : option string) : bool :=
  match v with
  | Some s => negb (String.eqb s "")
  | None => false
  end.

(** [status] is required and enumerated, [payslipUrl] is required; the
    three numbers are required and always present in this record. *)
Definition valid (s : t) : bool :=
  (match status s with
   | Some v => includes statuses v
   | None => false
   end
   && requiredString (payslipUrl s))%bool.

Definition findById (id : ObjectId) (db : list t) : option t :=
  find (fun s => String.eqb (_id s) id) db.

Definition replace (s : t) (db : list t) : list t :=
  map (fun b => if String.eqb (_id b) (_id s) then s else b) db.

Definition setStatus (v : string) (s : t) : t :=
  mk (_id s) (labourerId s) (startPeriod s) (endPeriod s)
     (totalDaysPresent s) (dailyWage s) (totalSalary s)
     (Some v) (payslipUrl s).

End Salary.

(** [Model.insertMany(docs)] with the default options: every document is
    validated first and one invalid document rejects the whole call
    before anything is written; otherwise all are stored and returned.
    [valid] is the schema of the model. *)
Definition insertMany {D : Type} (valid : D -> bool) (docs : list D) (db : list D)
  : option (list D) * list D :=
  if forallb valid docs then (Some docs, db ++ docs)
  else (None, db).

(* ================================================================== *)
(** ** Request shapes *)

(** The body of the attendance writes ([markAttendance],
    [updateAttendance], one entry of [bulkAddAttendance]). *)
Module AttendanceReq.
Record t : Type := mk {
  labourerId : JsVal;
  projectId : JsVal;
  date : JsVal;
  shift : JsVal;
  status : JsVal;
  markedBy : JsVal
}.
(** [rec || {}] for a missing entry. *)
Definition empty : t :=
  mk JUndefined JUndefined JUndefined JUndefined JUndefined JUndefined.
End AttendanceReq.

(** The query string of [getAttendanceByLabourer]. *)
Module AttendanceQuery.
Record t : Type := mk {
  projectId : JsVal;
  status : JsVal;
  shift : JsVal;
  markedBy : JsVal;
  startDate : JsVal;
  endDate : JsVal;
  page : JsVal;
  limit : JsVal
}.
End AttendanceQuery.

(** The query string of [listLeaveRequests]. *)
Module LeaveQuery.
Record t : Type := mk {
  labourerId : JsVal;
  status : JsVal;
  fromDate : JsVal;
  toDate : JsVal;
  reviewedBy : JsVal;
  page : JsVal;
  limit : JsVal
}.
End LeaveQuery.

(** The query string of [listSalaryRecords]. *)
Module SalaryQuery.
Record t : Type := mk {
  labourerId : JsVal;
  status : JsVal;
  startPeriod : JsVal;
  endPeriod : JsVal;
  paymentDate : JsVal;
  page : JsVal;
  limit : JsVal
}.
End SalaryQuery.

(** [dailyWage] of the generation request, as [typeof] sees it. *)
Inductive WageVal : Type :=
| WUndefined
| WNumber (n : Z)
| WOther.

Module GenerateReq.
Record t : Type := mk {
  startPeriod : JsVal;
  endPeriod : JsVal;
  dailyWage : WageVal
}.
End GenerateReq.

(* ================================================================== *)
(** ** Response shapes *)

Record Meta : Type := mkMeta {
  total : Z;
  totalPages : Z;
  currentPage : Z;
  pageSize : Z
}.

Record Page (D : Type) : Type := mkPage {
  meta : Meta;
  records : list D
}.
Arguments mkPage {D} meta records.
Arguments meta {D} p.
Arguments records {D} p.

Record Summary : Type := mkSummary {
  present : Z;
  absent : Z;
  halfDay : Z;
  totalRecords : Z
}.

(** One element of [failedRecords]: the entry as received for a
    validation failure, the prepared record for a write failure. *)
Record Prepared : Type := mkPrepared {
  p_labourerId : JsVal;
  p_projectId : JsVal;
  p_date : option Z;
  p_shift : JsVal;
  p_status : JsVal;
  p_markedBy : JsVal
}.

Inductive FailedPayload : Type :=
| Received (entry : option AttendanceReq.t)
| Built (rec : option Prepared).

Record Failure : Type := mkFailure {
  idx : nat;
  error : string;
  record : FailedPayload
}.

Record BulkReport : Type := mkBulkReport {
  insertedCount : Z;
  failedCount : Z;
  failedRecords : list Failure
}.

Record Generated : Type := mkGenerated {
  g_message : string;
  generatedSalaries : list Salary.t
}.

(* ================================================================== *)
(** ** The controllers *)

Definition strVal (v : JsVal) : option string :=
  match v with
  | JStr s => Some s
  | _ => None
  end.

(** [Object.assign(doc, updates)] on one path: an absent update keeps the
    stored value, any other value goes through the path's cast. *)
Definition assignOid (old : option ObjectId) (v : JsVal) : option (option ObjectId) :=
  match v with
  | JUndefined => Some old
  | _ => castObjectId v
  end.

Definition assignStr (old : option string) (v : JsVal) : option string :=
  match v with
  | JUndefined => old
  | JNull => None
  | JStr s => Some s
  end.

(** [parseInt(v, 10) > 0 ? parseInt(v, 10) : dflt], after the
    destructuring default [v = dflt]. *)
Definition pageParam (dflt : Z) (v : JsVal) : Z :=
  let parsed :=
    match v with
    | JUndefined => Some dflt
    | JNull => None
    | JStr s => parseInt s
    end in
  match parsed with
  | Some n => if 0 <? n then n else dflt
  | None => dflt
  end.

(** [countDocuments(filters)], then
    [find(filters).skip(skip).limit(limit).sort(..)], then the [meta]
    block of the response. *)
Definition paginate {D} (before : D -> D -> bool) (matches : D -> bool)
           (page limit : Z) (db : list D) : Page D :=
  let skip := (page - 1) * limit in
  let total := Z.of_nat (List.length (filter matches db)) in
  let records := page_of skip limit (sortBy before (filter matches db)) in
  mkPage (mkMeta total (ceilDiv total limit) page (Z.of_nat (List.length records)))
         records.

Definition decimal (n : nat) : string :=
  DecimalString.NilZero.string_of_uint (Nat.to_uint n).

Section Controllers.

(** [new Date(text).getTime()], [None] for [NaN]. *)
Variable Date_parse : string -> option Z.

(** [new Date(v)] for a request value. *)
Definition Date_of (v : JsVal) : option Z :=
  match v with
  | JStr s => Date_parse s
  | JNull => Some 0
  | JUndefined => None
  end.

Definition isNaN (d : option Z) : bool :=
  match d with
  | Some _ => false
  | None => true
  end.

(** Mongoose's cast of a value assigned to a [Date] path: [null] and
    the empty string give no date, an unparseable string is a cast
    error. *)
Definition castDate (v : JsVal) : option (option Z) :=
  match v with
  | JUndefined | JNull => Some None
  | JStr s =>
      if String.eqb s "" then Some None
      else match Date_parse s with
           | Some t => Some (Some t)
           | None => None
           end
  end.

Definition assignDate (old : option Z) (v : JsVal) : option (option Z) :=
  match v with
  | JUndefined => Some old
  | _ => castDate v
  end.

(* ---------------------------------------------------------------- *)
(** *** attendance.controller.js *)

Definition markAttendance (newId : ObjectId) (body : AttendanceReq.t)
           (db : list Attendance.t) : Outcome Attendance.t * list Attendance.t :=
  let labourerId := AttendanceReq.labourerId body in
  let projectId := AttendanceReq.projectId body in
  let date := AttendanceReq.date body in
  let shift := AttendanceReq.shift body in
  let status := AttendanceReq.status body in
  let markedBy := AttendanceReq.markedBy body in
  if (negb (truthy labourerId) || negb (truthy projectId) || negb (truthy date)
      || negb (truthy shift) || negb (truthy status))%bool
  then (refuse 400 "All fields (labourerId, projectId, date, shift, status) are required", db)
  else if negb (ObjectId_isValid labourerId)
  then (refuse 400 "Invalid labourerId", db)
  else if negb (ObjectId_isValid projectId)
  then (refuse 400 "Invalid projectId", db)
  else if (truthy markedBy && negb (ObjectId_isValid markedBy))%bool
  then (refuse 400 "Invalid markedBy user ID", db)
  else
    match Date_of date with
    | None => (Thrown (CastError "date"), db)
    | Some d =>
        if existsb (Attendance.hasKey (oidVal labourerId) (oidVal projectId)
                                      (Some d) (strVal shift)) db
        then (refuse 409 "Attendance already marked for this labourer, project, date, and shift", db)
        else
          match castObjectId markedBy with
          | None => (Thrown (ValidationError "Attendance validation failed"), db)
          | Some by_ =>
              let attendance :=
                Attendance.mk newId (oidVal labourerId) (oidVal projectId)
                              (Some d) (strVal shift) (strVal status) by_ in
              if Attendance.valid attendance
              then (Sent 201 attendance, db ++ [attendance])
              else (Thrown (ValidationError "Attendance validation failed"), db)
          end
    end.

(** [Object.assign(attendance, updates)]; [None] when a cast fails. *)
Definition assignAttendance (a : Attendance.t) (updates : AttendanceReq.t)
  : option Attendance.t :=
  match assignOid (Attendance.labourerId a) (AttendanceReq.labourerId updates),
        assignOid (Attendance.projectId a) (AttendanceReq.projectId updates),
        assignDate (Attendance.date a) (AttendanceReq.date updates),
        assignOid (Attendance.markedBy a) (AttendanceReq.markedBy updates)
  with
  | Some l, Some p, Some d, Some m =>
      Some (Attendance.mk (Attendance._id a) l p d
              (assignStr (Attendance.shift a) (AttendanceReq.shift updates))
              (assignStr (Attendance.status a) (AttendanceReq.status updates))
              m)
  | _, _, _, _ => None
  end.

Definition updateAttendance (attendanceId : string) (updates : AttendanceReq.t)
           (db : list Attendance.t) : Outcome Attendance.t * list Attendance.t :=
  let labourerId := AttendanceReq.labourerId updates in
  let projectId := AttendanceReq.projectId updates in
  let date := AttendanceReq.date updates in
  let shift := AttendanceReq.shift updates in
  let status := AttendanceReq.status updates in
  let markedBy := AttendanceReq.markedBy updates in
  if negb (isValidString attendanceId)
  then (refuse 400 "Invalid attendance ID", db)
  else if (truthy labourerId && negb (ObjectId_isValid labourerId))%bool
  then (refuse 400 "Invalid labourerId", db)
  else if (truthy projectId && negb (ObjectId_isValid projectId))%bool
  then (refuse 400 "Invalid projectId", db)
  else if (truthy markedBy && negb (ObjectId_isValid markedBy))%bool
  then (refuse 400 "Invalid markedBy user ID", db)
  else if (truthy shift && negb (includesVal Attendance.shifts shift))%bool
  then (refuse 400 "Shift must be one of: morning, evening, night", db)
  else if (truthy status && negb (includesVal Attendance.statuses status))%bool
  then (refuse 400 "Status must be one of: present, absent, half-day", db)
  else if (truthy date && isNaN (Date_of date))%bool
  then (refuse 400 "Invalid date format", db)
  else
    match Attendance.findById (canonical attendanceId) db with
    | None => (refuse 404 "Attendance record not found", db)
    | Some attendance =>
        let labourerIdToCheck :=
          if truthy labourerId then oidVal labourerId
          else Attendance.labourerId attendance in
        let projectIdToCheck :=
          if truthy projectId then oidVal projectId
          else Attendance.projectId attendance in
        let dateToCheck :=
          if truthy date then Date_of date else Attendance.date attendance in
        let shiftToCheck :=
          if truthy shift then strVal shift else Attendance.shift attendance in
        if ((truthy labourerId || truthy projectId || truthy date || truthy shift)
            && existsb (fun a =>
                          negb (String.eqb (Attendance._id a) (canonical attendanceId))
                          && Attendance.hasKey labourerIdToCheck projectIdToCheck
                                               dateToCheck shiftToCheck a) db)%bool
        then (refuse 409 "Another attendance record exists for this labourer, project, date, and shift", db)
        else
          match assignAttendance attendance updates with
          | None => (Thrown (ValidationError "Attendance validation failed"), db)
          | Some updated =>
              if Attendance.valid updated
              then (Sent 200 updated, Attendance.replace updated db)
              else (Thrown (ValidationError "Attendance validation failed"), db)
          end
    end.

(** The optional filter of [getAttendanceByLabourer] on one
    identifier path: applied when the value is a valid identifier,
    left out otherwise. *)
Definition optionalOid (v : JsVal) (field : option ObjectId) : bool :=
  if (truthy v && ObjectId_isValid v)%bool
  then oid_eqb field (oidVal v) else true.

Definition optionalEnum (allowed : list string) (v : JsVal)
           (field : option string) : bool :=
  if (truthy v && includesVal allowed v)%bool
  then str_eqb field (strVal v) else true.

(** [filters.date] of the attendance lists: absent ([Some None]),
    a range, or the empty object [{}] when both supplied bounds are
    unusable, which the query cast rejects ([None]). *)
Definition attendanceDateFilter (startDate endDate : JsVal)
  : option (option (option Z * option Z)) :=
  if (truthy startDate || truthy endDate)%bool
  then
    let lo := if truthy startDate then Date_of startDate else None in
    let hi := if truthy endDate then Date_of endDate else None in
    match lo, hi with
    | None, None => None
    | _, _ => Some (Some (lo, hi))
    end
  else Some None.

(** The filters of [getAttendanceByLabourer] once the date range is
    known. *)
Definition labourerFilters (labourerId : string) (query : AttendanceQuery.t)
           (range : option (option Z * option Z)) (a : Attendance.t) : bool :=
  (oid_eqb (Attendance.labourerId a) (Some (canonical labourerId))
   && optionalOid (AttendanceQuery.projectId query) (Attendance.projectId a)
   && optionalEnum Attendance.statuses (AttendanceQuery.status query) (Attendance.status a)
   && optionalEnum Attendance.shifts (AttendanceQuery.shift query) (Attendance.shift a)
   && optionalOid (AttendanceQuery.markedBy query) (Attendance.markedBy a)
   && match range with
      | Some (lo, hi) => inRange lo hi (Attendance.date a)
      | None => true
      end)%bool.

Definition getAttendanceByLabourer (labourerId : string)
           (query : AttendanceQuery.t) (db : list Attendance.t)
  : Outcome (Page Attendance.t) :=
  if negb (isValidString labourerId)
  then refuse 400 "Invalid labourer ID"
  else
    let page := pageParam 1 (AttendanceQuery.page query) in
    let limit := pageParam 20 (AttendanceQuery.limit query) in
    match attendanceDateFilter (AttendanceQuery.startDate query)
                               (AttendanceQuery.endDate query) with
    | None => Thrown (CastError "date")
    | Some range =>
        let found :=
          paginate (fun a b => date_geb (Attendance.date a) (Attendance.date b))
                   (labourerFilters labourerId query range) page limit db in
        if unregisteredRef Attendance.projectId (records found)
        then Thrown MissingSchemaError
        else Sent 200 found
    end.

(** The [dateFilter] of the two summary handlers: each supplied bound
    must parse. *)
Definition summaryDateFilter (startDate endDate : JsVal)
  : ApiError + (option Z * option Z) :=
  let lo := if truthy startDate then Date_of startDate else None in
  let hi := if truthy endDate then Date_of endDate else None in
  if (truthy startDate && isNaN lo)%bool
  then inl (mkApiError 400 "Invalid startDate")
  else if (truthy endDate && isNaN hi)%bool
  then inl (mkApiError 400 "Invalid endDate")
  else inr (lo, hi).

(** The [forEach] over the groups, starting from all-zero counters. *)
Definition tally (acc : Z * Z * Z) (g : option string * Z) : Z * Z * Z :=
  let '(p, a, h) := acc in
  let '(k, count) := g in
  if str_eqb k (Some "present") then (count, a, h)
  else if str_eqb k (Some "absent") then (p, count, h)
  else if str_eqb k (Some "half-day") then (p, a, count)
  else (p, a, h).

Definition summarise (groups : list (option string * Z)) : Summary :=
  let '(p, a, h) := fold_left tally groups (0, 0, 0) in
  mkSummary p a h (fold_left (fun sum cur => sum + snd cur) groups 0).

(** Steps 4 to 6 of the two summaries, for the match condition step 3
    is meant to build: match on the owner and the optional date range,
    group by status, fill the counters. *)
Definition attendanceSummary (owner : Attendance.t -> option ObjectId)
           (id : ObjectId) (lo hi : option Z) (db : list Attendance.t) : Summary :=
  let matched :=
    filter (fun a => oid_eqb (owner a) (Some id)
                     && inRange lo hi (Attendance.date a))%bool db in
  summarise (groupCount str_eqb (map Attendance.status matched)).

(** [mongoose.Types.ObjectId(id)], the class called as a function. *)
Definition ObjectId_call {B} (id : string) : Outcome B :=
  Thrown (TypeError "Class constructor ObjectId cannot be invoked without 'new'").

(** Steps 1 to 3, shared by the labourer and the project summary: the
    identifier and the dates are checked, then the match condition is
    built with [mongoose.Types.ObjectId(id)], which raises; the
    aggregation of steps 4 to 6 is not reached. *)
Definition summaryRequest (invalid : string) (id : string)
           (startDate endDate : JsVal) : Outcome Summary :=
  if negb (isValidString id)
  then refuse 400 invalid
  else match summaryDateFilter startDate endDate with
       | inl e => Refused e
       | inr _ => ObjectId_call id
       end.

Definition getLabourerAttendanceSummary (labourerId : string)
           (startDate endDate : JsVal) (db : list Attendance.t) : Outcome Summary :=
  summaryRequest "Invalid labourer ID" labourerId startDate endDate.

Definition getProjectAttendanceSummary (projectId : string)
           (startDate endDate : JsVal) (db : list Attendance.t) : Outcome Summary :=
  summaryRequest "Invalid project ID" projectId startDate endDate.

(* ---------------------------------------------------------------- *)
(** *** bulkAddAttendance *)

(** The checks of one entry, in source order; each failing check
    overwrites [error], so the last one is reported.  [None]: the
    entry is valid. *)
Definition entryError (rec : AttendanceReq.t) : option string :=
  let labourerId := AttendanceReq.labourerId rec in
  let projectId := AttendanceReq.projectId rec in
  let date := AttendanceReq.date rec in
  let shift := AttendanceReq.shift rec in
  let status := AttendanceReq.status rec in
  let markedBy := AttendanceReq.markedBy rec in
  let e0 : option string := None in
  let e1 := if (negb (truthy labourerId) || negb (ObjectId_isValid labourerId))%bool
            then Some "Missing/invalid labourerId" else e0 in
  let e2 := if (negb (truthy projectId) || negb (ObjectId_isValid projectId))%bool
            then Some "Missing/invalid projectId" else e1 in
  let e3 := if (negb (truthy date) || isNaN (Date_of date))%bool
            then Some "Missing/invalid date" else e2 in
  let e4 := if (negb (truthy shift) || negb (includesVal Attendance.shifts shift))%bool
            then Some "Missing/invalid shift" else e3 in
  let e5 := if (negb (truthy status) || negb (includesVal Attendance.statuses status))%bool
            then Some "Missing/invalid status" else e4 in
  if (truthy markedBy && negb (ObjectId_isValid markedBy))%bool
  then Some "Invalid markedBy" else e5.

Definition prepare (rec : AttendanceReq.t) : Prepared :=
  mkPrepared (AttendanceReq.labourerId rec) (AttendanceReq.projectId rec)
             (Date_of (AttendanceReq.date rec)) (AttendanceReq.shift rec)
             (AttendanceReq.status rec) (AttendanceReq.markedBy rec).

(** [rec || {}] *)
Definition orEmpty (entry : option AttendanceReq.t) : AttendanceReq.t :=
  match entry with
  | Some r => r
  | None => AttendanceReq.empty
  end.

(** The [forEach] of step 2 from position [i] on: the valid records
    and the validation failures, both in input order. *)
Fixpoint validateAll (i : nat) (entries : list (option AttendanceReq.t))
  : list Prepared * list Failure :=
  match entries with
  | [] => ([], [])
  | entry :: rest =>
      let '(validRecords, errors) := validateAll (S i) rest in
      let rec := orEmpty entry in
      match entryError rec with
      | None => (prepare rec :: validRecords, errors)
      | Some e => (validRecords, mkFailure i e (Received entry) :: errors)
      end
  end.

Record WriteError : Type := mkWriteError {
  index : nat;
  errmsg : string
}.

(** What a rejected [insertMany] carries: the driver's [writeErrors]
    and its [result], or any other error with its message.  The
    driver's result counts the writes and lists their identifiers; it
    has no [insertedDocs] property (Mongoose puts the inserted
    documents on the error itself). *)
Inductive InsertError : Type :=
| BulkWriteError (writeErrors : list WriteError)
| OtherError (msg : string).

(** The entry pushed to [failed] for one write error. *)
Definition toFailure (validRecords : list Prepared) (we : WriteError) : Failure :=
  mkFailure (index we) (errmsg we) (Built (nth_error validRecords (index we))).

Definition Inserter : Type :=
  list Prepared -> list Attendance.t
  -> (list Attendance.t + InsertError) * list Attendance.t.

Definition bulkAddAttendanceWith (insert : Inserter)
           (attendanceRecords : option (list (option AttendanceReq.t)))
           (db : list Attendance.t) : Outcome BulkReport * list Attendance.t :=
  match attendanceRecords with
  | None => (refuse 400 "attendanceRecords must be a non-empty array", db)
  | Some [] => (refuse 400 "attendanceRecords must be a non-empty array", db)
  | Some entries =>
      let '(validRecords, errors) := validateAll 0 entries in
      match validRecords with
      | [] =>
          (refuse 400 ("No valid attendance records to add. "
                       ++ decimal (List.length errors)
                       ++ " failed validation.")%string, db)
      | _ =>
          match insert validRecords db with
          | (inl inserted, db') =>
              (Sent 201 (mkBulkReport (Z.of_nat (List.length inserted))
                                      (Z.of_nat (List.length errors)) errors), db')
          | (inr (BulkWriteError writeErrors), db') =>
              let failed := errors ++ map (toFailure validRecords) writeErrors in
              (* [inserted.concat(err.result.insertedDocs || [])] *)
              let inserted : list Attendance.t := [] ++ [] in
              (Sent 201 (mkBulkReport (Z.of_nat (List.length inserted))
                                      (Z.of_nat (List.length failed)) failed), db')
          | (inr (OtherError msg), db') =>
              (refuse 500 ("Bulk insert failed: " ++ msg)%string, db')
          end
      end
  end.

(** [Attendance.insertMany(docs, { ordered: false })].  Documents that
    fail the schema are left out without an error; the others are
    written one by one and a refused write does not stop the rest.
    The store's own refusals (constraints declared outside the schema
    file) are [writeError]. *)
Section UnorderedInsert.
Variable writeError : list Attendance.t -> Attendance.t -> option string.
Variable newIds : nat -> ObjectId.

Definition castPrepared (id : ObjectId) (p : Prepared) : option Attendance.t :=
  match castObjectId (p_labourerId p), castObjectId (p_projectId p),
        p_date p, castObjectId (p_markedBy p) with
  | Some l, Some pr, Some d, Some m =>
      let a := Attendance.mk id l pr (Some d) (strVal (p_shift p))
                             (strVal (p_status p)) m in
      if Attendance.valid a then Some a else None
  | _, _, _, _ => None
  end.

Fixpoint buildDocs (i : nat) (recs : list Prepared) : list Attendance.t :=
  match recs with
  | [] => []
  | r :: rest =>
      match castPrepared (newIds i) r with
      | Some a => a :: buildDocs (S i) rest
      | None => buildDocs (S i) rest
      end
  end.

(** The store afterwards, the documents written, the writes refused. *)
Fixpoint writeAll (i : nat) (docs : list Attendance.t) (db : list Attendance.t)
  : list Attendance.t * list Attendance.t * list WriteError :=
  match docs with
  | [] => (db, [], [])
  | d :: rest =>
      match writeError db d with
      | Some msg =>
          let '(db', written, errs) := writeAll (S i) rest db in
          (db', written, mkWriteError i msg :: errs)
      | None =>
          let '(db', written, errs) := writeAll (S i) rest (db ++ [d]) in
          (db', d :: written, errs)
      end
  end.

Definition insertManyUnordered : Inserter :=
  fun recs db =>
    let docs := buildDocs 0 recs in
    let '(db', written, errs) := writeAll 0 docs db in
    match errs with
    | [] => (inl docs, db')
    | _ => (inr (BulkWriteError errs), db')
    end.

Definition bulkAddAttendance := bulkAddAttendanceWith insertManyUnordered.
End UnorderedInsert.

(* ---------------------------------------------------------------- *)
(** *** leave.controller.js *)

(** [approveLeave] and [rejectLeave] differ in the verb of the error
    message and in the status they set. *)
Definition reviewLeave (verb newStatus : string) (leaveId : string)
           (reviewedBy : JsVal) (db : list Leave.t)
  : Outcome Leave.t * list Leave.t :=
  if negb (isValidString leaveId)
  then (refuse 400 "Invalid leave request ID", db)
  else if (negb (truthy reviewedBy) || negb (ObjectId_isValid reviewedBy))%bool
  then (refuse 400 "Invalid reviewedBy user ID", db)
  else
    match Leave.findById (canonical leaveId) db with
    | None => (refuse 404 "Leave request not found", db)
    | Some leaveRequest =>
        if negb (str_eqb (Leave.status leaveRequest) (Some "pending"))
        then (refuse 400 ("Cannot " ++ verb ++ " a leave request with status '"
                          ++ toString (Leave.status leaveRequest) ++ "'")%string, db)
        else
          let updated := Leave.reviewed newStatus (oidVal reviewedBy) leaveRequest in
          if Leave.valid updated
          then (Sent 200 updated, Leave.replace updated db)
          else (Thrown (ValidationError "Leave validation failed"), db)
    end.

Definition approveLeave := reviewLeave "approve" "approved".
Definition rejectLeave := reviewLeave "reject" "rejected".

Definition cancelLeaveRequest (leaveId : string) (db : list Leave.t)
  : Outcome string * list Leave.t :=
  if negb (isValidString leaveId)
  then (refuse 400 "Invalid leave request ID", db)
  else
    match Leave.findById (canonical leaveId) db with
    | None => (refuse 404 "Leave request not found", db)
    | Some leaveRequest =>
        if negb (str_eqb (Leave.status leaveRequest) (Some "pending"))
        then (refuse 400 ("Cannot cancel a leave request with status '"
                          ++ toString (Leave.status leaveRequest) ++ "'")%string, db)
        else (Sent 200 "Leave request cancelled successfully",
              Leave.deleteById (canonical leaveId) db)
    end.

(** A supplied bound that parses, as in
    [if (v && !isNaN(new Date(v))) push(.. new Date(v) ..)]. *)
Definition usableDate (v : JsVal) : option Z :=
  if truthy v then Date_of v else None.

(** The [$and] of the period filters: [{ end: { $gte: lo } }] and
    [{ start: { $lte: hi } }], each present when its bound is usable. *)
Definition overlaps (lo hi : option Z) (start_ end_ : option Z) : bool :=
  (match lo with Some d => mongo_gte end_ d | None => true end
   && match hi with Some d => mongo_lte start_ d | None => true end)%bool.

Definition leaveFilters (query : LeaveQuery.t) (l : Leave.t) : bool :=
  (optionalOid (LeaveQuery.labourerId query) (Leave.labourerId l)
   && optionalEnum Leave.statuses (LeaveQuery.status query) (Leave.status l)
   && overlaps (usableDate (LeaveQuery.fromDate query))
               (usableDate (LeaveQuery.toDate query))
               (Leave.fromDate l) (Leave.toDate l)
   && optionalOid (LeaveQuery.reviewedBy query) (Leave.reviewedBy l))%bool.

Definition listLeaveRequests (query : LeaveQuery.t) (db : list Leave.t)
  : Outcome (Page Leave.t) :=
  let page := pageParam 1 (LeaveQuery.page query) in
  let limit := pageParam 20 (LeaveQuery.limit query) in
  let found :=
    paginate (fun a b => date_geb (Leave.fromDate a) (Leave.fromDate b))
             (leaveFilters query) page limit db in
  if unregisteredRef Leave.labourerId (records found)
  then Thrown MissingSchemaError
  else Sent 200 found.

(* ---------------------------------------------------------------- *)
(** *** salary.controller.js *)

(** The filters of [listSalaryRecords] once [status] has passed its
    check.  No stored document has a [paymentDate] path, so a usable
    [paymentDate] criterion matches none. *)
Definition salaryFilters (query : SalaryQuery.t) (s : Salary.t) : bool :=
  (optionalOid (SalaryQuery.labourerId query) (Salary.labourerId s)
   && (if truthy (SalaryQuery.status query)
       then str_eqb (Salary.status s) (strVal (SalaryQuery.status query))
       else true)
   && overlaps (usableDate (SalaryQuery.startPeriod query))
               (usableDate (SalaryQuery.endPeriod query))
               (Salary.startPeriod s) (Salary.endPeriod s)
   && match usableDate (SalaryQuery.paymentDate query) with
      | Some _ => false
      | None => true
      end)%bool.

(** [sort({ startPeriod: -1, endPeriod: -1 })] *)
Definition latestPeriodFirst (a b : Salary.t) : bool :=
  if date_eqb (Salary.startPeriod a) (Salary.startPeriod b)
  then date_geb (Salary.endPeriod a) (Salary.endPeriod b)
  else date_geb (Salary.startPeriod a) (Salary.startPeriod b).

Definition listSalaryRecords (query : SalaryQuery.t) (db : list Salary.t)
  : Outcome (Page Salary.t) :=
  let page := pageParam 1 (SalaryQuery.page query) in
  let limit := pageParam 20 (SalaryQuery.limit query) in
  if (truthy (SalaryQuery.status query)
      && negb (includesVal Salary.statuses (SalaryQuery.status query)))%bool
  then refuse 400 "Status must be 'pending' or 'paid'"
  else
    let found := paginate latestPeriodFirst (salaryFilters query) page limit db in
    if unregisteredRef Salary.labourerId (records found)
    then Thrown MissingSchemaError
    else Sent 200 found.

(** [salary.paymentDate = payDate] on a document whose schema has no
    such path: the value is kept out of the document, which is saved
    and sent without it. *)
Definition setPaymentDate (payDate : Z) (s : Salary.t) : Salary.t := s.

Definition markSalaryAsPaid (now : Z) (salaryId : string) (paymentDate : JsVal)
           (db : list Salary.t) : Outcome Salary.t * list Salary.t :=
  if negb (isValidString salaryId)
  then (refuse 400 "Invalid salary record ID", db)
  else if (truthy paymentDate && isNaN (Date_of paymentDate))%bool
  then (refuse 400 "Invalid paymentDate", db)
  else
    let payDate :=
      match usableDate paymentDate with
      | Some d => d
      | None => now
      end in
    match Salary.findById (canonical salaryId) db with
    | None => (refuse 404 "Salary record not found", db)
    | Some salary =>
        let paid := setPaymentDate payDate (Salary.setStatus "paid" salary) in
        if Salary.valid paid
        then (Sent 200 paid, Salary.replace paid db)
        else (Thrown (ValidationError "Salary validation failed"), db)
    end.

(** Step 1 of the generation: the [$match] on date and status, then
    the [$group] by labourer. *)
Definition attendanceAggregation (start_ end_ : Z) (attendance : list Attendance.t)
  : list (option ObjectId * Z) :=
  groupCount oid_eqb
    (map Attendance.labourerId
         (filter (fun a => inRange (Some start_) (Some end_) (Attendance.date a)
                           && str_eqb (Attendance.status a) (Some "present"))%bool
                 attendance)).

(** Step 2: the labourers that already have a salary for exactly this
    period. *)
Definition existingLabourerIds (labourerIds : list (option ObjectId))
           (start_ end_ : Z) (salaries : list Salary.t) : list (option ObjectId) :=
  map Salary.labourerId
      (filter (fun s => existsb (oid_eqb (Salary.labourerId s)) labourerIds
                        && date_eqb (Salary.startPeriod s) (Some start_)
                        && date_eqb (Salary.endPeriod s) (Some end_))%bool
              salaries).

(** Step 3: the [.map] building one record per remaining group; the
    [i]-th record built receives the identifier [newIds i]. *)
Fixpoint synthesize (newIds : nat -> ObjectId) (i : nat) (start_ end_ dailyWage : Z)
         (groups : list (option ObjectId * Z)) : list Salary.t :=
  match groups with
  | [] => []
  | (labourer, days) :: rest =>
      Salary.mk (newIds i) labourer (Some start_) (Some end_)
                days dailyWage (days * dailyWage) (Some "pending") (Some "")
      :: synthesize newIds (S i) start_ end_ dailyWage rest
  end.

Definition salaryRecordsToCreate (newIds : nat -> ObjectId)
           (start_ end_ dailyWage : Z)
           (attendance : list Attendance.t) (salaries : list Salary.t)
  : list Salary.t :=
  let groups := attendanceAggregation start_ end_ attendance in
  let existing := existingLabourerIds (map fst groups) start_ end_ salaries in
  synthesize newIds 0 start_ end_ dailyWage
             (filter (fun rec => negb (existsb (oid_eqb (fst rec)) existing)) groups).

(** [generateSalaryForPeriod], with the schema of the [Salary] model
    as a parameter. *)
Definition generateSalaryWith (schema : Salary.t -> bool)
           (newIds : nat -> ObjectId) (body : GenerateReq.t)
           (attendance : list Attendance.t) (salaries : list Salary.t)
  : Outcome Generated * list Salary.t :=
  let startPeriod := GenerateReq.startPeriod body in
  let endPeriod := GenerateReq.endPeriod body in
  match GenerateReq.dailyWage body with
  | WUndefined =>
      (refuse 400 "startPeriod, endPeriod, and dailyWage are required", salaries)
  | wage =>
      if (negb (truthy startPeriod) || negb (truthy endPeriod))%bool
      then (refuse 400 "startPeriod, endPeriod, and dailyWage are required", salaries)
      else
        match Date_of startPeriod, Date_of endPeriod with
        | Some start_, Some end_ =>
            if end_ <? start_
            then (refuse 400 "startPeriod cannot be after endPeriod", salaries)
            else
              match wage with
              | WNumber dailyWage =>
                  if dailyWage <? 0
                  then (refuse 400 "dailyWage must be a positive number", salaries)
                  else
                    let groups := attendanceAggregation start_ end_ attendance in
                    match groups with
                    | [] =>
                        (Sent 200 (mkGenerated
                           "No attendance records found for the given period to generate salary."
                           []), salaries)
                    | _ =>
                        if existsb (fun rec => oid_eqb (fst rec) None) groups
                        then (Thrown (TypeError "Cannot read properties of null"), salaries)
                        else
                          let toCreate :=
                            salaryRecordsToCreate newIds start_ end_ dailyWage
                                                  attendance salaries in
                          match toCreate with
                          | [] =>
                              (Sent 200 (mkGenerated
                                 "Salary records for this period already generated for all labourers."
                                 []), salaries)
                          | _ =>
                              match insertMany schema toCreate salaries with
                              | (Some createdSalaries, salaries') =>
                                  (Sent 201 (mkGenerated
                                     ("Generated salary records for "
                                      ++ decimal (List.length createdSalaries)
                                      ++ " labourers")%string
                                     createdSalaries), salaries')
                              | (None, salaries') =>
                                  (Thrown (ValidationError "Salary validation failed"),
                                   salaries')
                              end
                          end
                    end
              | _ => (refuse 400 "dailyWage must be a positive number", salaries)
              end
        | _, _ =>
            (refuse 400 "Invalid startPeriod or endPeriod date format", salaries)
        end
  end.

Definition generateSalaryForPeriod := generateSalaryWith Salary.valid.

End Controllers.

(* ================================================================== *)
(** ** The other handlers of the three controllers *)

(** [findByIdAndDelete(id)]: the first document with that [_id] goes. *)
Fixpoint deleteFirst {D} (idOf : D -> ObjectId) (id : ObjectId) (db : list D) : list D :=
  match db with
  | [] => []
  | d :: r => if String.eqb (idOf d) id then r else d :: deleteFirst idOf id r
  end.

(** [s.trim()] on the white space of [isWhite]. *)
Fixpoint trimEnd (s : string) : string :=
  match s with
  | EmptyString => EmptyString
  | String c r =>
      match trimEnd r with
      | EmptyString => if isWhite c then EmptyString else String c EmptyString
      | t => String c t
      end
  end.

Definition trim (s : string) : string := trimEnd (skipWhite s).

(** A numeric field of a JSON body: absent, [null] or a number. *)
Inductive NumVal : Type :=
| NUndefined
| NNull
| NNumber (n : Z).

(** [v < 0] on such a field ([undefined] and [null] are not below 0). *)
Definition negative (v : NumVal) : bool :=
  match v with
  | NNumber n => n <? 0
  | _ => false
  end.

Module LeaveReq.
Record t : Type := mk {
  labourerId : JsVal;
  fromDate : JsVal;
  toDate : JsVal;
  reason : JsVal
}.
End LeaveReq.

(** The query string of [getLeaveStatusByLabourer]. *)
Module LeaveHistoryQuery.
Record t : Type := mk {
  status : JsVal;
  fromDate : JsVal;
  toDate : JsVal;
  page : JsVal;
  limit : JsVal
}.
End LeaveHistoryQuery.

(** The query string of [getAttendanceByProject]. *)
Module ProjectQuery.
Record t : Type := mk {
  labourerId : JsVal;
  status : JsVal;
  shift : JsVal;
  markedBy : JsVal;
  startDate : JsVal;
  endDate : JsVal;
  page : JsVal;
  limit : JsVal
}.
End ProjectQuery.

(** The query string of [getAttendanceByDate]. *)
Module DateQuery.
Record t : Type := mk {
  date : JsVal;
  labourerId : JsVal;
  projectId : JsVal;
  status : JsVal;
  shift : JsVal;
  markedBy : JsVal;
  page : JsVal;
  limit : JsVal
}.
End DateQuery.

(** The body of [createSalaryRecord]. *)
Module SalaryReq.
Record t : Type := mk {
  labourerId : JsVal;
  startPeriod : JsVal;
  endPeriod : JsVal;
  totalDaysPresent : NumVal;
  dailyWage : NumVal;
  totalSalary : NumVal;
  status : JsVal;
  payslipUrl : JsVal;
  paymentDate : JsVal
}.
End SalaryReq.

(** The query string of [viewSalaryPayslipDetailsForLabourer]. *)
Module PayslipQuery.
Record t : Type := mk {
  startPeriod : JsVal;
  endPeriod : JsVal;
  status : JsVal;
  page : JsVal;
  limit : JsVal
}.
End PayslipQuery.

(** The [summary] of the two salary aggregations. *)
Record SalaryTotals : Type := mkSalaryTotals {
  totalPaid : Z;
  totalPending : Z;
  recordsCount : Z;
  daysPresent : Z
}.

(** [parseInt(v, 10)] then [if (isNaN(n) || n < 1) n = dflt], the
    pagination code of [getAttendanceByProject]. *)
Definition pageOrDefault (dflt : Z) (v : JsVal) : Z :=
  let n :=
    match v with
    | JUndefined => Some dflt
    | JNull => None
    | JStr s => parseInt s
    end in
  match n with
  | None => dflt
  | Some k => if k <? 1 then dflt else k
  end.

(** A strict optional identifier filter: [None] when the value is
    supplied and not an identifier. *)
Definition strictOid (v : JsVal) : option (option ObjectId -> bool) :=
  if truthy v
  then if ObjectId_isValid v
       then Some (fun field => oid_eqb field (oidVal v))
       else None
  else Some (fun _ => true).

Definition strictEnum (allowed : list string) (v : JsVal)
  : option (option string -> bool) :=
  if truthy v
  then if includesVal allowed v
       then Some (fun field => str_eqb field (strVal v))
       else None
  else Some (fun _ => true).

(** [$group: { _id: null, .. }] of the salary summaries: no group for
    no document, else the four sums. *)
Definition paidAmount (s : Salary.t) : Z :=
  if str_eqb (Salary.status s) (Some "paid") then Salary.totalSalary s else 0.

Definition pendingAmount (s : Salary.t) : Z :=
  if str_eqb (Salary.status s) (Some "pending") then Salary.totalSalary s else 0.

Definition sumOf {D} (f : D -> Z) (l : list D) : Z :=
  fold_left (fun acc d => acc + f d) l 0.

Definition salaryGroup (matched : list Salary.t) : list SalaryTotals :=
  match matched with
  | [] => []
  | _ => [mkSalaryTotals (sumOf paidAmount matched) (sumOf pendingAmount matched)
                         (Z.of_nat (List.length matched))
                         (sumOf Salary.totalDaysPresent matched)]
  end.

(** [aggregationResult[0] || { totalPaid: 0, .. }] *)
Definition firstOrZero (groups : list SalaryTotals) : SalaryTotals :=
  match groups with
  | g :: _ => g
  | [] => mkSalaryTotals 0 0 0 0
  end.

Section MoreControllers.

Variable Date_parse : string -> option Z.

(* ---------------------------------------------------------------- *)
(** *** attendance.controller.js *)

Definition deleteAttendance (attendanceId : string) (db : list Attendance.t)
  : Outcome string * list Attendance.t :=
  if negb (isValidString attendanceId)
  then (refuse 400 "Invalid attendance ID", db)
  else
    match Attendance.findById (canonical attendanceId) db with
    | None => (refuse 404 "Attendance record not found", db)
    | Some _ =>
        (Sent 200 "Attendance record deleted successfully",
         deleteFirst Attendance._id (canonical attendanceId) db)
    end.

Definition getAttendanceById (attendanceId : string) (db : list Attendance.t)
  : Outcome Attendance.t :=
  if negb (isValidString attendanceId)
  then refuse 400 "Invalid attendance ID"
  else
    match Attendance.findById (canonical attendanceId) db with
    | None => refuse 404 "Attendance record not found"
    | Some attendance =>
        if (unregisteredRef Attendance.labourerId [attendance]
            || unregisteredRef Attendance.projectId [attendance])%bool
        then Thrown MissingSchemaError
        else Sent 200 attendance
    end.

(** The filters of [getAttendanceByProject] once the date range is
    known. *)
Definition projectFilters (projectId : string) (query : ProjectQuery.t)
           (range : option (option Z * option Z)) (a : Attendance.t) : bool :=
  (oid_eqb (Attendance.projectId a) (Some (canonical projectId))
   && optionalOid (ProjectQuery.labourerId query) (Attendance.labourerId a)
   && optionalEnum Attendance.statuses (ProjectQuery.status query) (Attendance.status a)
   && optionalEnum Attendance.shifts (ProjectQuery.shift query) (Attendance.shift a)
   && optionalOid (ProjectQuery.markedBy query) (Attendance.markedBy a)
   && match range with
      | Some (lo, hi) => inRange lo hi (Attendance.date a)
      | None => true
      end)%bool.

Definition getAttendanceByProject (projectId : string) (query : ProjectQuery.t)
           (db : list Attendance.t) : Outcome (Page Attendance.t) :=
  if negb (isValidString projectId)
  then refuse 400 "Invalid project ID"
  else
    let page := pageOrDefault 1 (ProjectQuery.page query) in
    let limit := pageOrDefault 20 (ProjectQuery.limit query) in
    match attendanceDateFilter Date_parse (ProjectQuery.startDate query)
                               (ProjectQuery.endDate query) with
    | None => Thrown (CastError "date")
    | Some range =>
        let found :=
          paginate (fun a b => date_geb (Attendance.date a) (Attendance.date b))
                   (projectFilters projectId query range) page limit db in
        if unregisteredRef Attendance.labourerId (records found)
        then Thrown MissingSchemaError
        else Sent 200 found
    end.

Section ByDate.
(** [d.setHours(0, 0, 0, 0)] and [d.setHours(23, 59, 59, 999)] on a copy
    of the date, in the server's time zone. *)
Variable startOfDay : Z -> Z.
Variable endOfDay : Z -> Z.

(** The filters of [getAttendanceByDate] for the day of [t], each
    optional filter being one that passed its check. *)
Definition dayFilters (t : Z)
           (byLabourer byProject byMarker : option ObjectId -> bool)
           (byStatus byShift : option string -> bool) (a : Attendance.t) : bool :=
  (inRange (Some (startOfDay t)) (Some (endOfDay t)) (Attendance.date a)
   && byLabourer (Attendance.labourerId a)
   && byProject (Attendance.projectId a)
   && byStatus (Attendance.status a)
   && byShift (Attendance.shift a)
   && byMarker (Attendance.markedBy a))%bool.

Definition getAttendanceByDate (query : DateQuery.t) (db : list Attendance.t)
  : Outcome (Page Attendance.t) :=
  if negb (truthy (DateQuery.date query))
  then refuse 400 "Date query parameter is required"
  else
    match Date_of Date_parse (DateQuery.date query) with
    | None => refuse 400 "Invalid date format"
    | Some t =>
        let page := pageParam 1 (DateQuery.page query) in
        let limit := pageParam 20 (DateQuery.limit query) in
        match strictOid (DateQuery.labourerId query) with
        | None => refuse 400 "Invalid labourerId"
        | Some byLabourer =>
            match strictOid (DateQuery.projectId query) with
            | None => refuse 400 "Invalid projectId"
            | Some byProject =>
                match strictEnum Attendance.statuses (DateQuery.status query) with
                | None => refuse 400 "Status must be one of: present, absent, half-day"
                | Some byStatus =>
                    match strictEnum Attendance.shifts (DateQuery.shift query) with
                    | None => refuse 400 "Shift must be one of: morning, evening, night"
                    | Some byShift =>
                        match strictOid (DateQuery.markedBy query) with
                        | None => refuse 400 "Invalid markedBy user ID"
                        | Some byMarker =>
                            let found :=
                              paginate
                                (fun a b => date_geb (Attendance.date a) (Attendance.date b))
                                (dayFilters t byLabourer byProject byMarker
                                            byStatus byShift)
                                page limit db in
                            if (unregisteredRef Attendance.labourerId (records found)
                                || unregisteredRef Attendance.projectId (records found))%bool
                            then Thrown MissingSchemaError
                            else Sent 200 found
                        end
                    end
                end
            end
        end
    end.
End ByDate.

(* ---------------------------------------------------------------- *)
(** *** leave.controller.js *)

Definition applyForLeave (newId : ObjectId) (now : Z) (body : LeaveReq.t)
           (db : list Leave.t) : Outcome Leave.t * list Leave.t :=
  let labourerId := LeaveReq.labourerId body in
  let fromDate := LeaveReq.fromDate body in
  let toDate := LeaveReq.toDate body in
  let reason := LeaveReq.reason body in
  if (negb (truthy labourerId) || negb (truthy fromDate)
      || negb (truthy toDate) || negb (truthy reason))%bool
  then (refuse 400 "labourerId, fromDate, toDate, and reason are required", db)
  else if negb (ObjectId_isValid labourerId)
  then (refuse 400 "Invalid labourerId", db)
  else
    match Date_of Date_parse fromDate, Date_of Date_parse toDate, reason with
    | Some from, Some to, JStr text =>
        if to <? from
        then (refuse 400 "toDate cannot be before fromDate", db)
        else if String.eqb (trim text) ""
        then (refuse 400 "Reason must be a non-empty string", db)
        else if Nat.ltb 500 (String.length text)
        then (refuse 400 "Reason must be at most 500 characters", db)
        else
          let leaveRequest :=
            Leave.mk newId (oidVal labourerId) (Some from) (Some to) (trim text)
                     (Some "pending") (Some now) None in
          if Leave.valid leaveRequest
          then (Sent 201 leaveRequest, db ++ [leaveRequest])
          else (Thrown (ValidationError "Leave validation failed"), db)
    | Some _, Some _, _ => (refuse 400 "Reason must be a non-empty string", db)
    | _, _, _ => (refuse 400 "Invalid fromDate or toDate", db)
    end.

Definition leaveHistoryFilters (labourerId : string) (query : LeaveHistoryQuery.t)
           (l : Leave.t) : bool :=
  (oid_eqb (Leave.labourerId l) (Some (canonical labourerId))
   && (if truthy (LeaveHistoryQuery.status query)
       then str_eqb (Leave.status l) (strVal (LeaveHistoryQuery.status query))
       else true)
   && overlaps (usableDate Date_parse (LeaveHistoryQuery.fromDate query))
               (usableDate Date_parse (LeaveHistoryQuery.toDate query))
               (Leave.fromDate l) (Leave.toDate l))%bool.

Definition getLeaveStatusByLabourer (labourerId : string)
           (query : LeaveHistoryQuery.t) (db : list Leave.t)
  : Outcome (Page Leave.t) :=
  if negb (isValidString labourerId)
  then refuse 400 "Invalid labourer ID"
  else if (truthy (LeaveHistoryQuery.status query)
           && negb (includesVal Leave.statuses (LeaveHistoryQuery.status query)))%bool
  then refuse 400 "Invalid status filter"
  else
    let page := pageParam 1 (LeaveHistoryQuery.page query) in
    let limit := pageParam 20 (LeaveHistoryQuery.limit query) in
    Sent 200 (paginate (fun a b => date_geb (Leave.fromDate a) (Leave.fromDate b))
                       (leaveHistoryFilters labourerId query) page limit db).

(* ---------------------------------------------------------------- *)
(** *** salary.controller.js *)

Definition createSalaryRecord (newId : ObjectId) (body : SalaryReq.t)
           (db : list Salary.t) : Outcome Salary.t * list Salary.t :=
  let labourerId := SalaryReq.labourerId body in
  let startPeriod := SalaryReq.startPeriod body in
  let endPeriod := SalaryReq.endPeriod body in
  let status := SalaryReq.status body in
  let payslipUrl := SalaryReq.payslipUrl body in
  let paymentDate := SalaryReq.paymentDate body in
  match SalaryReq.totalDaysPresent body, SalaryReq.dailyWage body,
        SalaryReq.totalSalary body with
  | NUndefined, _, _ | _, NUndefined, _ | _, _, NUndefined =>
      (refuse 400 "All required salary fields must be provided", db)
  | totalDaysPresent, dailyWage, totalSalary =>
      if (negb (truthy labourerId) || negb (truthy startPeriod)
          || negb (truthy endPeriod) || negb (truthy status)
          || negb (truthy payslipUrl))%bool
      then (refuse 400 "All required salary fields must be provided", db)
      else if negb (ObjectId_isValid labourerId)
      then (refuse 400 "Invalid labourerId", db)
      else
        match Date_of Date_parse startPeriod, Date_of Date_parse endPeriod with
        | Some start_, Some end_ =>
            if end_ <? start_
            then (refuse 400 "startPeriod cannot be after endPeriod", db)
            else if (truthy paymentDate && isNaN (Date_of Date_parse paymentDate))%bool
            then (refuse 400 "Invalid paymentDate", db)
            else if negb (includesVal Salary.statuses status)
            then (refuse 400 "Status must be 'pending' or 'paid'", db)
            else if (negative totalDaysPresent || negative dailyWage
                     || negative totalSalary)%bool
            then (refuse 400 "Totals and wage must not be negative", db)
            else
              match totalDaysPresent, dailyWage, totalSalary with
              | NNumber days, NNumber wage, NNumber total =>
                  let salary :=
                    Salary.mk newId (oidVal labourerId) (Some start_) (Some end_)
                              days wage total (strVal status) (strVal payslipUrl) in
                  if Salary.valid salary
                  then (Sent 201 salary, db ++ [salary])
                  else (Thrown (ValidationError "Salary validation failed"), db)
              | _, _, _ => (Thrown (ValidationError "Salary validation failed"), db)
              end
        | _, _ => (refuse 400 "Invalid startPeriod or endPeriod", db)
        end
  end.

Definition getSalaryRecordById (salaryId : string) (db : list Salary.t)
  : Outcome Salary.t :=
  if negb (isValidString salaryId)
  then refuse 400 "Invalid salary record ID"
  else
    match Salary.findById (canonical salaryId) db with
    | None => refuse 404 "Salary record not found"
    | Some salary =>
        if unregisteredRef Salary.labourerId [salary]
        then Thrown MissingSchemaError
        else Sent 200 salary
    end.

Definition deleteSalaryRecord (salaryId : string) (db : list Salary.t)
  : Outcome string * list Salary.t :=
  if negb (isValidString salaryId)
  then (refuse 400 "Invalid salary record ID", db)
  else
    match Salary.findById (canonical salaryId) db with
    | None => (refuse 404 "Salary record not found", db)
    | Some _ =>
        (Sent 200 "Salary record deleted successfully",
         deleteFirst Salary._id (canonical salaryId) db)
    end.

Definition setPayslipUrl (url : string) (s : Salary.t) : Salary.t :=
  Salary.mk (Salary._id s) (Salary.labourerId s) (Salary.startPeriod s)
            (Salary.endPeriod s) (Salary.totalDaysPresent s) (Salary.dailyWage s)
            (Salary.totalSalary s) (Salary.status s) (Some url).

Definition generatePayslipUrl (salaryId : string) (payslipUrl : JsVal)
           (db : list Salary.t) : Outcome Salary.t * list Salary.t :=
  if negb (isValidString salaryId)
  then (refuse 400 "Invalid salary record ID", db)
  else
    match payslipUrl with
    | JStr url =>
        if String.eqb url ""
        then (refuse 400 "payslipUrl must be a non-empty string", db)
        else
          match Salary.findById (canonical salaryId) db with
          | None => (refuse 404 "Salary record not found", db)
          | Some salary =>
              let updated := setPayslipUrl url salary in
              if Salary.valid updated
              then (Sent 200 updated, Salary.replace updated db)
              else (Thrown (ValidationError "Salary validation failed"), db)
          end
    | _ => (refuse 400 "payslipUrl must be a non-empty string", db)
    end.

(** [res.redirect(url)] answers 302 with the location. *)
Definition downloadPayslip (salaryId : string) (db : list Salary.t) : Outcome string :=
  if negb (isValidString salaryId)
  then refuse 400 "Invalid salary record ID"
  else
    match Salary.findById (canonical salaryId) db with
    | None => refuse 404 "Salary record not found"
    | Some salary =>
        match Salary.payslipUrl salary with
        | Some url =>
            if String.eqb url ""
            then refuse 404 "Payslip URL not set for this salary record"
            else Sent 302 url
        | None => refuse 404 "Payslip URL not set for this salary record"
        end
    end.

(** The [dateFilter] of the salary summaries: each supplied bound must
    parse. *)
Definition periodBounds (startPeriod endPeriod : JsVal)
  : ApiError + (option Z * option Z) :=
  let lo := if truthy startPeriod then Date_of Date_parse startPeriod else None in
  let hi := if truthy endPeriod then Date_of Date_parse endPeriod else None in
  if (truthy startPeriod && isNaN lo)%bool
  then inl (mkApiError 400 "Invalid startPeriod")
  else if (truthy endPeriod && isNaN hi)%bool
  then inl (mkApiError 400 "Invalid endPeriod")
  else inr (lo, hi).

(** Steps 1 to 3 of [salarySummaryByLabourer]: after the checks the
    match condition is built with [mongoose.Types.ObjectId(labourerId)],
    which raises; the aggregation is not reached. *)
Definition salarySummaryByLabourer (labourerId : string)
           (startPeriod endPeriod : JsVal) (db : list Salary.t)
  : Outcome SalaryTotals :=
  if negb (isValidString labourerId)
  then refuse 400 "Invalid labourer ID"
  else
    match periodBounds startPeriod endPeriod with
    | inl e => Refused e
    | inr _ => ObjectId_call labourerId
    end.

(** The [$match] of [salarySummaryByPeriod]: the periods overlapping the
    bounds. *)
Definition periodSalaries (lo hi : option Z) (db : list Salary.t) : list Salary.t :=
  filter (fun s => overlaps lo hi (Salary.startPeriod s) (Salary.endPeriod s)) db.

Definition salarySummaryByPeriod (startPeriod endPeriod : JsVal)
           (db : list Salary.t) : Outcome SalaryTotals :=
  match periodBounds startPeriod endPeriod with
  | inl e => Refused e
  | inr (lo, hi) => Sent 200 (firstOrZero (salaryGroup (periodSalaries lo hi db)))
  end.

Definition payslipFilters (labourerId : string) (query : PayslipQuery.t)
           (s : Salary.t) : bool :=
  (oid_eqb (Salary.labourerId s) (Some (canonical labourerId))
   && (if truthy (PayslipQuery.status query)
       then str_eqb (Salary.status s) (strVal (PayslipQuery.status query))
       else true)
   && overlaps (usableDate Date_parse (PayslipQuery.startPeriod query))
               (usableDate Date_parse (PayslipQuery.endPeriod query))
               (Salary.startPeriod s) (Salary.endPeriod s))%bool.

Definition viewSalaryPayslipDetailsForLabourer (labourerId : string)
           (query : PayslipQuery.t) (db : list Salary.t)
  : Outcome (Page Salary.t) :=
  if negb (isValidString labourerId)
  then refuse 400 "Invalid labourer ID"
  else if (truthy (PayslipQuery.status query)
           && negb (includesVal Salary.statuses (PayslipQuery.status query)))%bool
  then refuse 400 "Status must be 'pending' or 'paid'"
  else
    let page := pageParam 1 (PayslipQuery.page query) in
    let limit := pageParam 20 (PayslipQuery.limit query) in
    let found :=
      paginate latestPeriodFirst (payslipFilters labourerId query) page limit db in
    if unregisteredRef Salary.labourerId (records found)
    then Thrown MissingSchemaError
    else Sent 200 found.

(** [Object.assign(doc, updates)] on a required [Number] path: [null]
    empties the path, which the schema refuses ([None]). *)
Definition assignNum (old : Z) (v : NumVal) : option Z :=
  match v with
  | NUndefined => Some old
  | NNull => None
  | NNumber n => Some n
  end.

(** [Object.assign(salary, updates)]; [None] when a cast fails or a
    required number is emptied.  [paymentDate] is no path of the
    schema and is not stored. *)
Definition assignSalary (s : Salary.t) (updates : SalaryReq.t) : option Salary.t :=
  match assignOid (Salary.labourerId s) (SalaryReq.labourerId updates),
        assignDate Date_parse (Salary.startPeriod s) (SalaryReq.startPeriod updates),
        assignDate Date_parse (Salary.endPeriod s) (SalaryReq.endPeriod updates),
        assignNum (Salary.totalDaysPresent s) (SalaryReq.totalDaysPresent updates),
        assignNum (Salary.dailyWage s) (SalaryReq.dailyWage updates),
        assignNum (Salary.totalSalary s) (SalaryReq.totalSalary updates)
  with
  | Some l, Some start_, Some end_, Some days, Some wage, Some total =>
      Some (Salary.mk (Salary._id s) l start_ end_ days wage total
              (assignStr (Salary.status s) (SalaryReq.status updates))
              (assignStr (Salary.payslipUrl s) (SalaryReq.payslipUrl updates)))
  | _, _, _, _, _, _ => None
  end.

(** [new Date(a) > new Date(b)], false when either is [NaN]. *)
Definition laterThan (a b : option Z) : bool :=
  match a, b with
  | Some x, Some y => y <? x
  | _, _ => false
  end.

Definition updateSalaryRecord (salaryId : string) (updates : SalaryReq.t)
           (db : list Salary.t) : Outcome Salary.t * list Salary.t :=
  let labourerId := SalaryReq.labourerId updates in
  let startPeriod := SalaryReq.startPeriod updates in
  let endPeriod := SalaryReq.endPeriod updates in
  let status := SalaryReq.status updates in
  let paymentDate := SalaryReq.paymentDate updates in
  if negb (isValidString salaryId)
  then (refuse 400 "Invalid salary record ID", db)
  else if (truthy labourerId && negb (ObjectId_isValid labourerId))%bool
  then (refuse 400 "Invalid labourerId", db)
  else if (truthy startPeriod && isNaN (Date_of Date_parse startPeriod))%bool
  then (refuse 400 "Invalid startPeriod", db)
  else if (truthy endPeriod && isNaN (Date_of Date_parse endPeriod))%bool
  then (refuse 400 "Invalid endPeriod", db)
  else if (truthy startPeriod && truthy endPeriod
           && laterThan (Date_of Date_parse startPeriod)
                        (Date_of Date_parse endPeriod))%bool
  then (refuse 400 "startPeriod cannot be after endPeriod", db)
  else if (truthy paymentDate && isNaN (Date_of Date_parse paymentDate))%bool
  then (refuse 400 "Invalid paymentDate", db)
  else if negative (SalaryReq.totalDaysPresent updates)
  then (refuse 400 "totalDaysPresent cannot be negative", db)
  else if negative (SalaryReq.dailyWage updates)
  then (refuse 400 "dailyWage cannot be negative", db)
  else if negative (SalaryReq.totalSalary updates)
  then (refuse 400 "totalSalary cannot be negative", db)
  else if (truthy status && negb (includesVal Salary.statuses status))%bool
  then (refuse 400 "Status must be 'pending' or 'paid'", db)
  else
    match Salary.findById (canonical salaryId) db with
    | None => (refuse 404 "Salary record not found", db)
    | Some salary =>
        match assignSalary salary updates with
        | None => (Thrown (ValidationError "Salary validation failed"), db)
        | Some updated =>
            if Salary.valid updated
            then (Sent 200 updated, Salary.replace updated db)
            else (Thrown (ValidationError "Salary validation failed"), db)
        end
    end.

End MoreControllers.

(* ================================================================== *)
(** ** Record updates used to state the properties *)

Definition withSalaryLabourer (v : JsVal) (q : SalaryQuery.t) : SalaryQuery.t :=
  SalaryQuery.mk v (SalaryQuery.status q) (SalaryQuery.startPeriod q)
                 (SalaryQuery.endPeriod q) (SalaryQuery.paymentDate q)
                 (SalaryQuery.page q) (SalaryQuery.limit q).

Definition withStartPeriod (v : JsVal) (q : SalaryQuery.t) : SalaryQuery.t :=
  SalaryQuery.mk (SalaryQuery.labourerId q) (SalaryQuery.status q) v
                 (SalaryQuery.endPeriod q) (SalaryQuery.paymentDate q)
                 (SalaryQuery.page q) (SalaryQuery.limit q).

Definition withEndPeriod (v : JsVal) (q : SalaryQuery.t) : SalaryQuery.t :=
  SalaryQuery.mk (SalaryQuery.labourerId q) (SalaryQuery.status q)
                 (SalaryQuery.startPeriod q) v (SalaryQuery.paymentDate q)
                 (SalaryQuery.page q) (SalaryQuery.limit q).

Definition withProject (v : JsVal) (q : AttendanceQuery.t) : AttendanceQuery.t :=
  AttendanceQuery.mk v (AttendanceQuery.status q) (AttendanceQuery.shift q)
                     (AttendanceQuery.markedBy q) (AttendanceQuery.startDate q)
                     (AttendanceQuery.endDate q) (AttendanceQuery.page q)
                     (AttendanceQuery.limit q).

Definition withMarkedBy (v : JsVal) (q : AttendanceQuery.t) : AttendanceQuery.t :=
  AttendanceQuery.mk (AttendanceQuery.projectId q) (AttendanceQuery.status q)
                     (AttendanceQuery.shift q) v (AttendanceQuery.startDate q)
                     (AttendanceQuery.endDate q) (AttendanceQuery.page q)
                     (AttendanceQuery.limit q).



(** The number of documents of [db] satisfying [p]. *)
Definition countIf {D} (p : D -> bool) (db : list D) : Z :=
  Z.of_nat (List.length (filter p db)).

(** The count recorded for key [k] in a list of groups, 0 when the key
    has no group. *)
Definition countOf {K} (eqb : K -> K -> bool) (k : K) (groups : list (K * Z)) : Z :=
  match find (fun g => eqb k (fst g)) groups with
  | Some g => snd g
  | None => 0
  end.

(** The same with [d] for a key without a group. *)
Definition countOr {K} (eqb : K -> K -> bool) (k : K) (d : Z)
           (groups : list (K * Z)) : Z :=
  match find (fun g => eqb k (fst g)) groups with
  | Some g => snd g
  | None => d
  end.

(** A text that does not start a number: empty, or starting with a
    character that is no digit, no sign and no white space. *)
Definition notNumeric (s : string) : Prop :=
  match s with
  | EmptyString => True
  | String c _ =>
      ((nat_of_ascii c < 48)%nat \/ (57 < nat_of_ascii c)%nat)
      /\ c <> "-"%char /\ c <> "+"%char /\ isWhite c = false
  end.

(** A text of at most seven characters. *)
Definition shortText (v : JsVal) : Prop :=
  match v with
  | JStr s => (String.length s <= 7)%nat
  | _ => True
  end.

(** Inputs on which the numbers JavaScript computes with are the
    integers used here: a page and a limit of at most seven characters
    and fewer than 2^26 documents. *)
Definition exactRange (pageV limitV : JsVal) (documents : nat) : Prop :=
  shortText pageV /\ shortText limitV /\ Z.of_nat documents < 2 ^ 26.

(** What the [meta] block promises about a page cut from [found], the
    sorted matching documents. *)
Definition PageContract {D} (page limit : Z) (found : list D) (p : Page D) : Prop :=
  records p = firstn (Z.to_nat limit) (skipn (Z.to_nat ((page - 1) * limit)) found)
  /\ total (meta p) = Z.of_nat (List.length found)
  /\ (totalPages (meta p) - 1) * limit < total (meta p) <= totalPages (meta p) * limit
  /\ currentPage (meta p) = page
  /\ pageSize (meta p) = Z.of_nat (List.length (records p))
  /\ pageSize (meta p) <= limit.

Definition hasStatus (v : string) (a : Attendance.t) : bool :=
  str_eqb (Attendance.status a) (Some v).

(** A summary that reports the documents [matched]: one counter per
    status and their total. *)
Definition SummaryOf (matched : list Attendance.t) (s : Summary) : Prop :=
  present s = countIf (hasStatus "present") matched
  /\ absent s = countIf (hasStatus "absent") matched
  /\ halfDay s = countIf (hasStatus "half-day") matched
  /\ totalRecords s = present s + absent s + halfDay s
  /\ totalRecords s = Z.of_nat (List.length matched).

(** The [$match] stage of the two summaries. *)
Definition summaryMatch (owner : Attendance.t -> option ObjectId) (id : ObjectId)
           (lo hi : option Z) (db : list Attendance.t) : list Attendance.t :=
  filter (fun a => oid_eqb (owner a) (Some id)
                   && inRange lo hi (Attendance.date a))%bool db.

(** How one pagination input is read, with its default [dflt]: always
    at least 1; the default when absent, [null], no number, zero or
    negative; the number written otherwise. *)
Definition ReadsAs (dflt : Z) (v : JsVal) (n : Z) : Prop :=
  1 <= n
  /\ (v = JUndefined \/ v = JNull -> n = dflt)
  /\ (forall s, v = JStr s -> notNumeric s -> n = dflt)
  /\ (forall k, v = JStr (decimal k) ->
                n = if Nat.eqb k 0 then dflt else Z.of_nat k)
  /\ (forall k, v = JStr ("-" ++ decimal k)%string -> n = dflt).

Definition PagingInputs (pageV limitV : JsVal) : Prop :=
  ReadsAs 1 pageV (pageParam 1 pageV) /\ ReadsAs 20 limitV (pageParam 20 limitV).

(** A generation request that passes the input checks: a period
    [start_ <= end_] and a wage [dailyWage >= 0]. *)
Definition validGeneration (parse : string -> option Z) (body : GenerateReq.t)
           (start_ end_ dailyWage : Z) : Prop :=
  truthy (GenerateReq.startPeriod body) = true
  /\ truthy (GenerateReq.endPeriod body) = true
  /\ Date_of parse (GenerateReq.startPeriod body) = Some start_
  /\ Date_of parse (GenerateReq.endPeriod body) = Some end_
  /\ start_ <= end_
  /\ GenerateReq.dailyWage body = WNumber dailyWage
  /\ 0 <= dailyWage.

(** The present days of [labourer] within the period. *)
Definition presentDays (start_ end_ : Z) (labourer : ObjectId)
           (attendance : list Attendance.t) : Z :=
  countIf (fun a => inRange (Some start_) (Some end_) (Attendance.date a)
                    && str_eqb (Attendance.status a) (Some "present")
                    && oid_eqb (Attendance.labourerId a) (Some labourer))%bool
          attendance.

(** A salary of [labourer] for exactly the period. *)
Definition salaryFor (start_ end_ : Z) (labourer : ObjectId) (s : Salary.t) : bool :=
  (oid_eqb (Salary.labourerId s) (Some labourer)
   && date_eqb (Salary.startPeriod s) (Some start_)
   && date_eqb (Salary.endPeriod s) (Some end_))%bool.

(** No present record of the period lacks its labourer. *)
Definition labourersKnown (start_ end_ : Z) (attendance : list Attendance.t) : Prop :=
  existsb (fun rec => oid_eqb (fst rec) None)
          (attendanceAggregation start_ end_ attendance) = false.

(* ------------------------------------------------------------------ *)
(** *** Sample data *)

(** A date parser for the examples: four calendar days, as the host
    reads them (midnight UTC), and nothing else. *)
Definition isoDates (text : string) : option Z :=
  if String.eqb text "2024-03-01" then Some 1709251200000
  else if String.eqb text "2024-03-02" then Some 1709337600000
  else if String.eqb text "2024-03-03" then Some 1709424000000
  else if String.eqb text "2024-03-31" then Some 1711843200000
  else None.

Definition labourerA : ObjectId := "65f000000000000000000101".
Definition labourerB : ObjectId := "65f000000000000000000102".
Definition projectP : ObjectId := "65f000000000000000000201".
Definition managerM : ObjectId := "65f000000000000000000301".

(** The identifiers handed out by the store in the examples. *)
Definition sampleIds (i : nat) : ObjectId :=
  match i with
  | O => "65f000000000000000000001"
  | S O => "65f000000000000000000002"
  | S (S O) => "65f000000000000000000003"
  | S (S (S O)) => "65f000000000000000000004"
  | _ => "65f000000000000000000005"
  end.

Definition attended (id labourer : ObjectId) (day : Z) (status : string)
  : Attendance.t :=
  Attendance.mk id (Some labourer) (Some projectP) (Some day)
                (Some "morning") (Some status) None.

(** Labourer A: present on three days of March 2024; labourer B:
    present on one, absent on another. *)
Definition marchAttendance : list Attendance.t :=
  [ attended (sampleIds 0) labourerA 1709251200000 "present";
    attended (sampleIds 1) labourerA 1709337600000 "present";
    attended (sampleIds 2) labourerA 1709424000000 "present";
    attended (sampleIds 3) labourerB 1709251200000 "present";
    attended (sampleIds 4) labourerB 1709337600000 "absent" ].

Definition marchRequest : GenerateReq.t :=
  GenerateReq.mk (JStr "2024-03-01") (JStr "2024-03-31") (WNumber 100).

(** Two present, one absent and one half-day record of labourer A. *)
Definition mixedAttendance : list Attendance.t :=
  [ attended (sampleIds 0) labourerA 1709251200000 "present";
    attended (sampleIds 1) labourerA 1709337600000 "absent";
    attended (sampleIds 2) labourerA 1709424000000 "half-day";
    attended (sampleIds 3) labourerA 1711843200000 "present" ].

Definition salaryOf (id labourer : ObjectId) (status : string) : Salary.t :=
  Salary.mk id (Some labourer) (Some 1709251200000) (Some 1711843200000)
            3 100 300 (Some status) (Some "https://files.example/payslip.pdf").

Definition twoSalaries : list Salary.t :=
  [ salaryOf (sampleIds 0) labourerA "pending";
    salaryOf (sampleIds 1) labourerB "paid" ].

Definition leaveOf (id : ObjectId) (status : string) : Leave.t :=
  Leave.mk id (Some labourerA) (Some 1709251200000) (Some 1709424000000)
           "family function" (Some status) (Some 1709000000000) None.

Definition entryOf (day shift : string) : option AttendanceReq.t :=
  Some (AttendanceReq.mk (JStr labourerA) (JStr projectP) (JStr day)
                         (JStr shift) (JStr "present") JUndefined).

(** Five entries, the third with a shift outside the enumeration. *)
Definition fiveEntries : list (option AttendanceReq.t) :=
  [ entryOf "2024-03-01" "morning";
    entryOf "2024-03-01" "evening";
    entryOf "2024-03-02" "afternoon";
    entryOf "2024-03-02" "night";
    entryOf "2024-03-03" "morning" ].

(** A store that refuses nothing. *)
Definition acceptAll (db : list Attendance.t) (a : Attendance.t) : option string :=
  None.

(** A store with a unique index on the key of the controllers. *)
Definition uniqueKey (db : list Attendance.t) (a : Attendance.t) : option string :=
  if existsb (Attendance.hasKey (Attendance.labourerId a) (Attendance.projectId a)
                                (Attendance.date a) (Attendance.shift a)) db
  then Some "E11000 duplicate key error"
  else None.

(** An entry that names who marked it. *)
Definition entryMarkedBy (day shift markedBy : string) : option AttendanceReq.t :=
  Some (AttendanceReq.mk (JStr labourerA) (JStr projectP) (JStr day)
                         (JStr shift) (JStr "present") (JStr markedBy)).

Definition attendedShift (id : ObjectId) (day : Z) (shift : string) : Attendance.t :=
  Attendance.mk id (Some labourerA) (Some projectP) (Some day)
                (Some shift) (Some "present") None.

Definition marchStart : Z := 1709251200000.
Definition marchEnd : Z := 1711843200000.

(** What the generation builds for March at a wage of 100. *)
Definition marchSalaries : list Salary.t :=
  [ Salary.mk (sampleIds 0) (Some labourerA) (Some marchStart) (Some marchEnd)
              3 100 300 (Some "pending") (Some "");
    Salary.mk (sampleIds 1) (Some labourerB) (Some marchStart) (Some marchEnd)
              1 100 100 (Some "pending") (Some "") ].

(** A schema that accepts every record but labourer A's. *)
Definition refusesA (s : Salary.t) : bool :=
  negb (oid_eqb (Salary.labourerId s) (Some labourerA)).

Definition markBody (day : string) : AttendanceReq.t :=
  AttendanceReq.mk (JStr labourerA) (JStr projectP) (JStr day)
                   (JStr "morning") (JStr "present") JUndefined.

(** An update whose only content is [date: null]. *)
Definition clearDate : AttendanceReq.t :=
  AttendanceReq.mk JUndefined JUndefined JNull JUndefined JUndefined JUndefined.

Definition undated (id : ObjectId) : Attendance.t :=
  Attendance.mk id (Some labourerA) (Some projectP) None
                (Some "morning") (Some "present") None.

(** Labourer A on the morning shift of two different days. *)
Definition twoDays : list Attendance.t :=
  [ attended (sampleIds 0) labourerA 1709251200000 "present";
    attended (sampleIds 1) labourerA 1709337600000 "present" ].

(** The invalid filter values of the examples. *)
Definition badIdQuery : SalaryQuery.t :=
  SalaryQuery.mk (JStr "xyz") JUndefined JUndefined JUndefined JUndefined
                 JUndefined JUndefined.

Definition badDateQuery : SalaryQuery.t :=
  SalaryQuery.mk JUndefined JUndefined (JStr "not-a-date") JUndefined
                 JUndefined JUndefined JUndefined.

(** Salaries whose labourer is not set, for the months of March and of
    February 2024. *)
Definition unassignedSalary (id : ObjectId) (start_ end_ : Z) (status : string)
  : Salary.t :=
  Salary.mk id None (Some start_) (Some end_) 3 100 300 (Some status)
            (Some "https://files.example/payslip.pdf").

Definition unassignedSalaries : list Salary.t :=
  [ unassignedSalary (sampleIds 0) 1706745600000 1709164800000 "pending";
    unassignedSalary (sampleIds 1) 1709251200000 1711843200000 "paid" ].

(** Leave requests whose labourer is not set. *)
Definition unassignedLeave (id : ObjectId) (from : Z) (status : string) : Leave.t :=
  Leave.mk id None (Some from) (Some 1709424000000)
           "family function" (Some status) (Some 1709000000000) None.

Definition unassignedLeaves : list Leave.t :=
  [ unassignedLeave (sampleIds 0) 1709251200000 "pending";
    unassignedLeave (sampleIds 1) 1709337600000 "approved" ].

(** Records of labourer A whose project is not set. *)
Definition offProject (id : ObjectId) (day : Z) (status : string) : Attendance.t :=
  Attendance.mk id (Some labourerA) None (Some day) (Some "morning") (Some status) None.

Definition offProjectAttendance : list Attendance.t :=
  [ offProject (sampleIds 0) 1709251200000 "present";
    offProject (sampleIds 1) 1709337600000 "absent" ].

Definition plainQuery : SalaryQuery.t :=
  SalaryQuery.mk JUndefined JUndefined JUndefined JUndefined JUndefined
                 (JStr "abc") (JStr "-5").

(** The second page at one record a page. *)
Definition secondPage : SalaryQuery.t :=
  SalaryQuery.mk JUndefined JUndefined JUndefined JUndefined JUndefined
                 (JStr "2") (JStr "1").

Definition plainLeaveQuery : LeaveQuery.t :=
  LeaveQuery.mk JUndefined JUndefined JUndefined JUndefined JUndefined
                (JStr "2") (JStr "1").

Definition plainAttendanceQuery : AttendanceQuery.t :=
  AttendanceQuery.mk JUndefined JUndefined JUndefined JUndefined
                     JUndefined JUndefined JUndefined JUndefined.

(** What a list handler owes for its page [p]: the records come from the
    collection and satisfy the filters, in the order of [before]; the
    total counts every match; and a first page large enough holds them
    all. *)
Definition ListContract {D} (before : D -> D -> bool) (matches : D -> bool)
           (pageV limitV : JsVal) (db : list D) (p : Page D) : Prop :=
  StronglySorted (fun a b => before a b = true) (records p)
  /\ (forall d, In d (records p) -> In d db /\ matches d = true)
  /\ total (meta p) = countIf matches db
  /\ (pageParam 1 pageV = 1 -> total (meta p) <= pageParam 20 limitV ->
      Permutation (records p) (filter matches db)).

(** Two salaries for the same labourer and period. *)
Definition sameTriple (a b : Salary.t) : Prop :=
  Salary.labourerId a = Salary.labourerId b
  /\ Salary.startPeriod a = Salary.startPeriod b
  /\ Salary.endPeriod a = Salary.endPeriod b.

(** The totals of the salaries [matched]. *)
Definition TotalsOf (matched : list Salary.t) (t : SalaryTotals) : Prop :=
  totalPaid t = sumOf paidAmount matched
  /\ totalPending t = sumOf pendingAmount matched
  /\ recordsCount t = Z.of_nat (List.length matched)
  /\ daysPresent t = sumOf Salary.totalDaysPresent matched.

(** A salary body with every field in order. *)
Definition sampleSalaryBody : SalaryReq.t :=
  SalaryReq.mk (JStr labourerA) (JStr "2024-03-01") (JStr "2024-03-31")
               (NNumber 3) (NNumber 100) (NNumber 300)
               (JStr "pending") (JStr "https://files.example/a.pdf") JUndefined.

Definition sampleLeaveBody : LeaveReq.t :=
  LeaveReq.mk (JStr labourerA) (JStr "2024-03-01") (JStr "2024-03-03")
              (JStr "  family function ").

(** Local midnight and the last millisecond of the day, for a server
    on UTC. *)
Definition utcStartOfDay (t : Z) : Z := t - t mod 86400000.
Definition utcEndOfDay (t : Z) : Z := t - t mod 86400000 + 86399999.

Definition latestDateFirst (a b : Attendance.t) : bool :=
  date_geb (Attendance.date a) (Attendance.date b).

Definition latestLeaveFirst (a b : Leave.t) : bool :=
  date_geb (Leave.fromDate a) (Leave.fromDate b).

(** A filter value that is supplied and not acceptable. *)
Definition badOid (v : JsVal) : Prop :=
  truthy v = true /\ ObjectId_isValid v = false.

Definition badEnum (allowed : list string) (v : JsVal) : Prop :=
  truthy v = true /\ includesVal allowed v = false.

(** A supplied filter value is the one the record carries. *)
Definition carries {V} (v : JsVal) (field : option V) (expected : option V) : Prop :=
  truthy v = true -> field = expected.

(** An update that carries a new [endPeriod] and nothing else. *)
Definition onlyEndPeriod (text : string) : SalaryReq.t :=
  SalaryReq.mk JUndefined JUndefined (JStr text) NUndefined NUndefined NUndefined
               JUndefined JUndefined JUndefined.

(** The same salary under another identifier. *)
Definition withSalaryId (id : ObjectId) (s : Salary.t) : Salary.t :=
  Salary.mk id (Salary.labourerId s) (Salary.startPeriod s) (Salary.endPeriod s)
            (Salary.totalDaysPresent s) (Salary.dailyWage s) (Salary.totalSalary s)
            (Salary.status s) (Salary.payslipUrl s).

(** A supplied bound that does not parse. *)
Definition badBound (parse : string -> option Z) (v : JsVal) : Prop :=
  truthy v = true /\ Date_of parse v = None.

(** A stored attendance with every field that the bulk validation asks
    for: well-formed identifiers, a date, and a shift and a status of
    their enumerations. *)
Definition complete (a : Attendance.t) : Prop :=
  Attendance.valid a = true
  /\ (exists l, Attendance.labourerId a = Some l /\ isValidString l = true)
  /\ (exists p, Attendance.projectId a = Some p /\ isValidString p = true)
  /\ (exists d, Attendance.date a = Some d)
  /\ (forall m, Attendance.markedBy a = Some m -> isValidString m = true).

(** The number of entries received. *)
Definition received (attendanceRecords : option (list (option AttendanceReq.t))) : nat :=
  match attendanceRecords with
  | Some entries => List.length entries
  | None => 0%nat
  end.

(** Further sample data. *)
Definition payslipView : PayslipQuery.t :=
  PayslipQuery.mk JUndefined JUndefined JUndefined JUndefined JUndefined.

Definition twoLeaves : list Leave.t :=
  [ leaveOf (sampleIds 0) "pending"; leaveOf (sampleIds 1) "approved" ].

Definition approvedHistory : LeaveHistoryQuery.t :=
  LeaveHistoryQuery.mk (JStr "approved") JUndefined JUndefined JUndefined JUndefined.

Definition plainProjectQuery : ProjectQuery.t :=
  ProjectQuery.mk JUndefined JUndefined JUndefined JUndefined
                  JUndefined JUndefined JUndefined JUndefined.

(** The present records of the first of March. *)
Definition presentOnFirst : DateQuery.t :=
  DateQuery.mk (JStr "2024-03-01") JUndefined JUndefined (JStr "present")
               JUndefined JUndefined JUndefined JUndefined.

(** The same day, with a labourer filter that is no identifier. *)
Definition badLabourerOnFirst : DateQuery.t :=
  DateQuery.mk (JStr "2024-03-01") (JStr "xyz") JUndefined JUndefined
               JUndefined JUndefined JUndefined JUndefined.

Definition oneDay : list Attendance.t :=
  [ attended (sampleIds 0) labourerA 1709251200000 "present" ].

(** An update that moves a record to the second of March. *)
Definition moveToSecond : AttendanceReq.t :=
  AttendanceReq.mk JUndefined JUndefined (JStr "2024-03-02") JUndefined
                   JUndefined JUndefined.

(** An update that raises the daily wage to 120. *)
Definition newWage : SalaryReq.t :=
  SalaryReq.mk JUndefined JUndefined JUndefined NUndefined (NNumber 120) NUndefined
               JUndefined JUndefined JUndefined.

(** A pending request without a labourer next to an approved one of
    labourer A. *)
Definition mixedLeaves : list Leave.t :=
  [ unassignedLeave (sampleIds 0) 1709251200000 "pending";
    leaveOf (sampleIds 1) "approved" ].

Definition pendingLeaveQuery : LeaveQuery.t :=
  LeaveQuery.mk JUndefined (JStr "pending") JUndefined JUndefined JUndefined
                JUndefined JUndefined.

(** A record of labourer A without a project next to a record of
    project P without a labourer. *)
Definition mixedRefs : list Attendance.t :=
  [ offProject (sampleIds 0) 1709251200000 "present";
    Attendance.mk (sampleIds 1) None (Some projectP) (Some 1709337600000)
                  (Some "morning") (Some "absent") None ].

(** Records with neither a labourer nor a project. *)
Definition unreferenced (id : ObjectId) (day : Z) (status : string) : Attendance.t :=
  Attendance.mk id None None (Some day) (Some "morning") (Some status) None.

Definition unreferencedAttendance : list Attendance.t :=
  [ unreferenced (sampleIds 0) 1709251200000 "present";
    unreferenced (sampleIds 1) 1709251200000 "absent";
    unreferenced (sampleIds 2) 1709337600000 "present" ].

(** A salary whose period starts on the third of March. *)
Definition lateSalary : Salary.t :=
  Salary.mk (sampleIds 0) (Some labourerA) (Some 1709424000000) (Some 1711843200000)
            3 100 300 (Some "pending") (Some "https://files.example/payslip.pdf").

(** What a review leaves in a leave request: the new status and the
    reviewer, every other field as it was. *)
Definition Reviewed (newStatus : string) (reviewer : ObjectId)
           (old updated : Leave.t) : Prop :=
  Leave.status updated = Some newStatus
  /\ Leave.reviewedBy updated = Some reviewer
  /\ Leave._id updated = Leave._id old
  /\ Leave.labourerId updated = Leave.labourerId old
  /\ Leave.fromDate updated = Leave.fromDate old
  /\ Leave.toDate updated = Leave.toDate old
  /\ Leave.reason updated = Leave.reason old
  /\ Leave.appliedOn updated = Leave.appliedOn old.

(** The collection [db'] is [db] with the document [updated] in the
    place of the one it identifies, and nothing else touched. *)
Definition SavedOver {D} (idOf : D -> ObjectId) (updated : D) (db db' : list D) : Prop :=
  List.length db' = List.length db
  /\ forall k d, nth_error db k = Some d ->
       nth_error db' k = Some (if String.eqb (idOf d) (idOf updated) then updated else d).

Fixpoint allWhite (s : string) : bool :=
  match s with
  | EmptyString => true
  | String c r => (isWhite c && allWhite r)%bool
  end.

(** [core] is [text] without its leading and trailing white space:
    what was cut is white space, and [core] neither starts nor ends
    with white space. *)
Definition TrimOf (text core : string) : Prop :=
  (exists pre post,
      text = (pre ++ core ++ post)%string
      /\ allWhite pre = true /\ allWhite post = true)
  /\ (forall c r, core = String c r -> isWhite c = false)
  /\ (forall r c, core = (r ++ String c EmptyString)%string -> isWhite c = false).

(** At most one document per fully present key. *)
Definition uniqueKeys (db : list Attendance.t) : Prop :=
  forall l p d s,
    (List.length (filter (Attendance.hasKey (Some l) (Some p) (Some d) (Some s)) db) <= 1)%nat.

(* ================================================================== *)
(** ** Identifiers as stored *)

Lemma lowerCase_hex c : isHexChar c = true -> isHexChar (lowerCase c) = true.
Proof.
destruct c as [[|] [|] [|] [|] [|] [|] [|] [|]]; vm_compute; auto.
Qed.

Lemma hexDigit_hex c :
  isHexChar (hexDigit (Nat.div (nat_of_ascii c) 16)) = true
  /\ isHexChar (hexDigit (Nat.modulo (nat_of_ascii c) 16)) = true.
Proof.
destruct c as [[|] [|] [|] [|] [|] [|] [|] [|]]; vm_compute; auto.
Qed.

Lemma lowerHex_length s : String.length (lowerHex s) = String.length s.
Proof.
induction s as [|c r IH]; simpl; auto.
Qed.

Lemma lowerHex_allHex s : allHex s = true -> allHex (lowerHex s) = true.
Proof.
induction s as [|c r IH]; simpl; [auto|].
intros H. apply andb_true_iff in H. destruct H as [Hc Hr].
rewrite (lowerCase_hex c Hc), (IH Hr). reflexivity.
Qed.

Lemma hexOfBytes_length s :
  String.length (hexOfBytes s) = (2 * String.length s)%nat.
Proof.
induction s as [|c r IH]; [reflexivity|].
cbn [hexOfBytes String.length]. rewrite IH. lia.
Qed.

Lemma hexOfBytes_allHex s : allHex (hexOfBytes s) = true.
Proof.
induction s as [|c r IH]; [reflexivity|].
cbn [hexOfBytes allHex]. destruct (hexDigit_hex c) as [-> ->]. exact IH.
Qed.

(** The identifier of a valid string has twenty-four hexadecimal
    characters. *)
Lemma canonical_hex s :
  isValidString s = true ->
  String.length (canonical s) = 24%nat /\ allHex (canonical s) = true.
Proof.
unfold isValidString, canonical. intros H.
destruct (Nat.eqb (String.length s) 24 && allHex s)%bool eqn:E.
- apply andb_true_iff in E. destruct E as [E1 E2]. apply Nat.eqb_eq in E1.
  rewrite lowerHex_length, (lowerHex_allHex s E2). auto.
- rewrite orb_false_r in H. apply Nat.eqb_eq in H.
  rewrite hexOfBytes_length, H, hexOfBytes_allHex. auto.
Qed.

Lemma canonical_valid s :
  isValidString s = true -> isValidString (canonical s) = true.
Proof.
intros H. destruct (canonical_hex s H) as [Hl Hx].
unfold isValidString. rewrite Hl, Hx. reflexivity.
Qed.

(* ================================================================== *)
(** ** Equality tests *)

Lemma oid_eqb_eq a b : oid_eqb a b = true <-> a = b.
Proof.
  destruct a as [x|], b as [y|]; simpl; try (split; congruence).
  rewrite String.eqb_eq. split; congruence.
Qed.

Lemma str_eqb_eq a b : str_eqb a b = true <-> a = b.
Proof.
  destruct a as [x|], b as [y|]; simpl; try (split; congruence).
  rewrite String.eqb_eq. split; congruence.
Qed.

Lemma date_eqb_eq a b : date_eqb a b = true <-> a = b.
Proof.
  destruct a as [x|], b as [y|]; simpl; try (split; congruence).
  rewrite Z.eqb_eq. split; congruence.
Qed.

Lemma oid_eqb_refl a : oid_eqb a a = true.
Proof. apply oid_eqb_eq; reflexivity. Qed.

Lemma str_eqb_refl a : str_eqb a a = true.
Proof. apply str_eqb_eq; reflexivity. Qed.

Lemma date_eqb_refl a : date_eqb a a = true.
Proof. apply date_eqb_eq; reflexivity. Qed.

Arguments str_eqb : simpl never.
Arguments oid_eqb : simpl never.
Arguments date_eqb : simpl never.

(* ================================================================== *)
(** ** Grouping *)

Section GroupFacts.
Context {K : Type} (eqb : K -> K -> bool).
Hypothesis eqb_eq : forall a b, eqb a b = true <-> a = b.

Lemma eqb_refl' k : eqb k k = true.
Proof. apply eqb_eq; reflexivity. Qed.

Lemma countOf_bump_same k acc :
  countOf eqb k (bump eqb k acc) = countOf eqb k acc + 1.
Proof.
  unfold countOf.
  induction acc as [|[k' c] r IH]; simpl.
  - rewrite eqb_refl'. reflexivity.
  - destruct (eqb k k') eqn:E; simpl; rewrite E; simpl; auto.
Qed.

Lemma countOf_bump_other k k0 acc :
  k0 <> k -> countOf eqb k0 (bump eqb k acc) = countOf eqb k0 acc.
Proof.
  intros Hne. unfold countOf.
  induction acc as [|[k' c] r IH]; simpl.
  - destruct (eqb k0 k) eqn:E; [apply eqb_eq in E; congruence | reflexivity].
  - destruct (eqb k k') eqn:E; simpl.
    + apply eqb_eq in E. subst k'.
      destruct (eqb k0 k) eqn:E0; [apply eqb_eq in E0; congruence | reflexivity].
    + destruct (eqb k0 k'); auto.
Qed.

Lemma bump_keys k acc :
  map fst (bump eqb k acc)
  = if existsb (eqb k) (map fst acc) then map fst acc else map fst acc ++ [k].
Proof.
  induction acc as [|[k' c] r IH]; simpl; auto.
  destruct (eqb k k') eqn:E; simpl; auto.
  rewrite IH. destruct (existsb (eqb k) (map fst r)); reflexivity.
Qed.

Lemma bump_NoDup k acc :
  NoDup (map fst acc) -> NoDup (map fst (bump eqb k acc)).
Proof.
  intros Hnd. rewrite bump_keys.
  destruct (existsb (eqb k) (map fst acc)) eqn:E; auto.
  apply NoDup_app; auto.
  - repeat constructor; intros [].
  - intros x Hx [Hk|[]]. subst x.
    assert (existsb (eqb k) (map fst acc) = true).
    { apply existsb_exists. exists k. split; auto. apply eqb_refl'. }
    congruence.
Qed.

Lemma bump_sum k acc :
  fold_right (fun g s => snd g + s) 0 (bump eqb k acc)
  = fold_right (fun g s => snd g + s) 0 acc + 1.
Proof.
  induction acc as [|[k' c] r IH]; simpl; try lia.
  destruct (eqb k k'); simpl; lia.
Qed.

Lemma bump_positive k acc :
  Forall (fun g => 0 < snd g) acc -> Forall (fun g => 0 < snd g) (bump eqb k acc).
Proof.
  induction 1 as [|[k' c] r Hc Hr IH]; simpl.
  - repeat constructor; simpl; lia.
  - destruct (eqb k k'); constructor; simpl in *; auto; lia.
Qed.

(** The invariant of the fold behind [groupCount]. *)
Lemma groupFold_spec keys : forall acc,
  NoDup (map fst acc) ->
  Forall (fun g => 0 < snd g) acc ->
  let out := fold_left (fun a k => bump eqb k a) keys acc in
  NoDup (map fst out)
  /\ Forall (fun g => 0 < snd g) out
  /\ (forall k, countOf eqb k out = countOf eqb k acc + countIf (eqb k) keys)
  /\ fold_right (fun g s => snd g + s) 0 out
     = fold_right (fun g s => snd g + s) 0 acc + Z.of_nat (List.length keys).
Proof.
  induction keys as [|k0 keys IH]; intros acc Hnd Hpos; simpl.
  - repeat split; auto; intros; unfold countIf; simpl; lia.
  - destruct (IH (bump eqb k0 acc) (bump_NoDup k0 acc Hnd) (bump_positive k0 acc Hpos))
      as (H1 & H2 & H3 & H4).
    repeat split; auto.
    + intros k. rewrite H3. unfold countIf. simpl.
      destruct (eqb k k0) eqn:E.
      * apply eqb_eq in E. subst k0. rewrite countOf_bump_same.
        simpl List.length. lia.
      * rewrite countOf_bump_other; auto.
        intros ->. rewrite eqb_refl' in E. discriminate.
    + rewrite H4, bump_sum. lia.
Qed.

Lemma groupCount_spec keys :
  NoDup (map fst (groupCount eqb keys))
  /\ Forall (fun g => 0 < snd g) (groupCount eqb keys)
  /\ (forall k, countOf eqb k (groupCount eqb keys) = countIf (eqb k) keys)
  /\ fold_right (fun g s => snd g + s) 0 (groupCount eqb keys)
     = Z.of_nat (List.length keys).
Proof.
  destruct (groupFold_spec keys [] (NoDup_nil _) (Forall_nil _)) as (H1 & H2 & H3 & H4).
  repeat split; auto.
Qed.

Lemma countOf_In k c groups :
  NoDup (map fst groups) -> In (k, c) groups -> countOf eqb k groups = c.
Proof.
  unfold countOf.
  induction groups as [|[k' c'] r IH]; simpl; intros Hnd Hin; [tauto|].
  inversion Hnd as [|? ? Hnotin Hnd']; subst.
  destruct Hin as [Heq|Hin].
  - inversion Heq; subst. rewrite eqb_refl'. reflexivity.
  - destruct (eqb k k') eqn:E.
    + apply eqb_eq in E. subst k'. exfalso. apply Hnotin.
      apply in_map_iff. exists (k, c). auto.
    + auto.
Qed.

Lemma countOf_notin k (groups : list (K * Z)) :
  ~ In k (map fst groups) -> find (fun g => eqb k (fst g)) groups = None.
Proof.
  induction groups as [|[k' c'] r IH]; simpl; intros Hn; auto.
  destruct (eqb k k') eqn:E.
  - apply eqb_eq in E. subst. tauto.
  - apply IH. tauto.
Qed.

Lemma countOf_positive_In k groups :
  0 < countOf eqb k groups -> exists c, In (k, c) groups /\ c = countOf eqb k groups.
Proof.
  unfold countOf.
  destruct (find (fun g => eqb k (fst g)) groups) as [[k' c]|] eqn:F; simpl; [|lia].
  intros _. apply find_some in F. destruct F as [Hin E].
  simpl in E. apply eqb_eq in E. subst k'. eauto.
Qed.

End GroupFacts.

(* ================================================================== *)
(** ** Attendance summaries *)

Lemma str_eqb_sym a b : str_eqb a b = str_eqb b a.
Proof.
  destruct a as [x|], b as [y|]; simpl; auto. apply String.eqb_sym.
Qed.

Lemma sum_fold_left (groups : list (option string * Z)) : forall z,
  fold_left (fun sum cur => sum + snd cur) groups z
  = z + fold_right (fun g s => snd g + s) 0 groups.
Proof.
  induction groups as [|g r IH]; intros z; simpl; [lia|].
  rewrite IH. lia.
Qed.

(** With one group per key, the [forEach] leaves in each counter the
    count of its own group, or the initial value when there is none. *)
Lemma tally_fold (groups : list (option string * Z)) : forall p a h,
  NoDup (map fst groups) ->
  fold_left tally groups (p, a, h)
  = (countOr str_eqb (Some "present") p groups,
     countOr str_eqb (Some "absent") a groups,
     countOr str_eqb (Some "half-day") h groups).
Proof.
  induction groups as [|[k c] r IH]; intros p a h Hnd; [reflexivity|].
  inversion Hnd as [|? ? Hnotin Hnd']; subst.
  unfold countOr. simpl.
  rewrite (str_eqb_sym (Some "present") k), (str_eqb_sym (Some "absent") k),
    (str_eqb_sym (Some "half-day") k).
  destruct (str_eqb k (Some "present")) eqn:E1.
  - apply str_eqb_eq in E1. subst k.
    rewrite IH by assumption. unfold countOr.
    rewrite (countOf_notin str_eqb str_eqb_eq (Some "present") r Hnotin).
    reflexivity.
  - destruct (str_eqb k (Some "absent")) eqn:E2.
    + apply str_eqb_eq in E2. subst k.
      rewrite IH by assumption. unfold countOr.
      rewrite (countOf_notin str_eqb str_eqb_eq (Some "absent") r Hnotin).
      reflexivity.
    + destruct (str_eqb k (Some "half-day")) eqn:E3.
      * apply str_eqb_eq in E3. subst k.
        rewrite IH by assumption. unfold countOr.
        rewrite (countOf_notin str_eqb str_eqb_eq (Some "half-day") r Hnotin).
        reflexivity.
      * rewrite IH by assumption. reflexivity.
Qed.

Lemma summarise_groupCount (statuses : list (option string)) :
  let s := summarise (groupCount str_eqb statuses) in
  present s = countIf (str_eqb (Some "present")) statuses
  /\ absent s = countIf (str_eqb (Some "absent")) statuses
  /\ halfDay s = countIf (str_eqb (Some "half-day")) statuses
  /\ totalRecords s = Z.of_nat (List.length statuses).
Proof.
  destruct (groupCount_spec str_eqb str_eqb_eq statuses) as (Hnd & _ & Hcount & Hsum).
  unfold summarise.
  rewrite (tally_fold _ 0 0 0 Hnd). simpl.
  rewrite sum_fold_left, Hsum.
  pose proof (Hcount (Some "present")) as H1.
  pose proof (Hcount (Some "absent")) as H2.
  pose proof (Hcount (Some "half-day")) as H3.
  unfold countOf in H1, H2, H3. unfold countOr.
  repeat split; auto.
Qed.

(** Under the schema every stored status is one of the three. *)
Lemma valid_status_cases a :
  Attendance.valid a = true ->
  Attendance.status a = Some "present"
  \/ Attendance.status a = Some "absent"
  \/ Attendance.status a = Some "half-day".
Proof.
  unfold Attendance.valid, Attendance.requiredEnum. intros H.
  apply andb_true_iff in H. destruct H as [_ H].
  destruct (Attendance.status a) as [s|]; [|discriminate].
  unfold includes, Attendance.statuses in H. simpl in H.
  repeat (apply orb_true_iff in H; destruct H as [H|H]);
    try discriminate; apply String.eqb_eq in H; subst; auto.
Qed.

Lemma three_way_count (db : list Attendance.t) :
  Forall (fun a => Attendance.valid a = true) db ->
  Z.of_nat (List.length db)
  = countIf (hasStatus "present") db + countIf (hasStatus "absent") db
    + countIf (hasStatus "half-day") db.
Proof.
  unfold countIf, hasStatus.
  induction 1 as [|a r Ha Hr IH]; [reflexivity|].
  simpl filter. simpl List.length.
  destruct (valid_status_cases a Ha) as [E|[E|E]]; rewrite E;
    unfold str_eqb in *; cbn -[Z.of_nat Z.add] in *; lia.
Qed.

Lemma countIf_map_status v (db : list Attendance.t) :
  countIf (str_eqb (Some v)) (map Attendance.status db) = countIf (hasStatus v) db.
Proof.
  unfold countIf, hasStatus. f_equal.
  induction db as [|a r IH]; simpl; auto.
  rewrite (str_eqb_sym (Some v)).
  destruct (str_eqb (Attendance.status a) (Some v)); simpl; auto.
Qed.

Lemma Forall_filter_valid {D} (P : D -> Prop) (f : D -> bool) (db : list D) :
  Forall P db -> Forall P (filter f db).
Proof.
  induction 1; simpl; auto. destruct (f x); auto.
Qed.

(** What steps 4 to 6 compute for a match condition: the three
    counters of the matching records and their total. *)
Lemma attendanceSummary_spec owner id lo hi db :
  Forall (fun a => Attendance.valid a = true) db ->
  SummaryOf (summaryMatch owner id lo hi db) (attendanceSummary owner id lo hi db).
Proof.
  intros Hvalid. unfold attendanceSummary.
  fold (summaryMatch owner id lo hi db).
  destruct (summarise_groupCount (map Attendance.status (summaryMatch owner id lo hi db)))
    as (H1 & H2 & H3 & H4).
  rewrite !countIf_map_status in *.
  rewrite length_map in H4.
  unfold SummaryOf. rewrite H1, H2, H3, H4.
  repeat split; auto.
  apply three_way_count. apply Forall_filter_valid. assumption.
Qed.

Lemma summaryDateFilter_cases parse startDate endDate :
  match summaryDateFilter parse startDate endDate with
  | inl e =>
      statusCode e = 400
      /\ (badBound parse startDate \/ badBound parse endDate)
  | inr (lo, hi) =>
      lo = usableDate parse startDate /\ hi = usableDate parse endDate
      /\ ~ badBound parse startDate /\ ~ badBound parse endDate
  end.
Proof.
unfold summaryDateFilter, badBound, usableDate. cbv zeta.
destruct (truthy startDate), (truthy endDate);
  destruct (Date_of parse startDate), (Date_of parse endDate); simpl;
  repeat split; auto; try (intros [? ?]; discriminate).
Qed.

Lemma summaryRequest_cases parse invalid id startDate endDate :
  match summaryRequest parse invalid id startDate endDate with
  | Sent _ _ => False
  | Refused e =>
      statusCode e = 400
      /\ (isValidString id = false
          \/ badBound parse startDate \/ badBound parse endDate)
  | Thrown e =>
      isValidString id = true
      /\ ~ badBound parse startDate /\ ~ badBound parse endDate
      /\ e = TypeError "Class constructor ObjectId cannot be invoked without 'new'"
  end.
Proof.
unfold summaryRequest.
destruct (isValidString id); simpl; [|auto].
pose proof (summaryDateFilter_cases parse startDate endDate) as H.
destruct (summaryDateFilter parse startDate endDate) as [e|[lo hi]].
- destruct H; auto.
- destruct H as (_ & _ & H1 & H2). unfold ObjectId_call. auto.
Qed.

(** X10. Neither attendance summary ever answers with a summary: an
    identifier that is none and a supplied bound that does not parse are
    refused with a 400, and every other request ends in the TypeError of
    [mongoose.Types.ObjectId(id)] called without [new], before the
    aggregation is run. *)
Theorem attendance_summaries_never_answer parse id startDate endDate db :
  match getLabourerAttendanceSummary parse id startDate endDate db with
  | Sent _ _ => False
  | Refused e =>
      statusCode e = 400
      /\ (isValidString id = false
          \/ badBound parse startDate \/ badBound parse endDate)
  | Thrown e =>
      isValidString id = true
      /\ ~ badBound parse startDate /\ ~ badBound parse endDate
      /\ e = TypeError "Class constructor ObjectId cannot be invoked without 'new'"
  end
  /\ match getProjectAttendanceSummary parse id startDate endDate db with
     | Sent _ _ => False
     | Refused e =>
         statusCode e = 400
         /\ (isValidString id = false
             \/ badBound parse startDate \/ badBound parse endDate)
     | Thrown e =>
         isValidString id = true
         /\ ~ badBound parse startDate /\ ~ badBound parse endDate
         /\ e = TypeError "Class constructor ObjectId cannot be invoked without 'new'"
     end.
Proof.
split; apply summaryRequest_cases.
Qed.

(** C7, on the code. For the labourer with two present, one absent and
    one half-day record, the aggregation and the defaults of the
    summary would give present 2, absent 1, halfDay 1 and totalRecords
    4, and zeros for a project without records; but neither handler
    gets there: both end in the TypeError raised when the match
    condition is built. *)
Theorem attendance_summary_is_never_computed :
  getLabourerAttendanceSummary isoDates labourerA JUndefined JUndefined mixedAttendance
  = Thrown (TypeError "Class constructor ObjectId cannot be invoked without 'new'")
  /\ getProjectAttendanceSummary isoDates projectP (JStr "2024-03-01")
                                 (JStr "2024-03-31") mixedAttendance
     = Thrown (TypeError "Class constructor ObjectId cannot be invoked without 'new'")
  /\ getProjectAttendanceSummary isoDates projectP JUndefined JUndefined []
     = Thrown (TypeError "Class constructor ObjectId cannot be invoked without 'new'")
  /\ attendanceSummary Attendance.labourerId labourerA None None mixedAttendance
     = mkSummary 2 1 1 4
  /\ attendanceSummary Attendance.projectId projectP None None []
     = mkSummary 0 0 0 0.
Proof.
repeat split; reflexivity.
Qed.

(* ================================================================== *)
(** ** Pagination *)

Lemma parseInt_examples :
  parseInt "abc" = None /\ parseInt "" = None /\ parseInt "-5" = Some (-5)
  /\ parseInt "0" = Some 0 /\ parseInt " 7" = Some 7 /\ parseInt "12abc" = Some 12
  /\ pageParam 1 (JStr "abc") = 1 /\ pageParam 20 (JStr "0") = 20
  /\ pageParam 1 JUndefined = 1 /\ pageParam 20 (JStr "50") = 50.
Proof.
repeat split; reflexivity.
Qed.

Lemma ceilDiv_spec a b :
  0 <= a -> 1 <= b -> (ceilDiv a b - 1) * b < a <= ceilDiv a b * b.
Proof.
  intros Ha Hb. unfold ceilDiv.
  pose proof (Z.div_mod (a + b - 1) b ltac:(lia)) as Hdm.
  pose proof (Z.mod_pos_bound (a + b - 1) b ltac:(lia)) as Hmod.
  nia.
Qed.

Lemma digits_of_uint (d : Decimal.uint) : forall a,
  0 <= a ->
  digits (NilEmpty.string_of_uint d) (Some a)
  = Some (Z.of_nat (Nat.of_uint_acc d (Z.to_nat a))).
Proof.
induction d; intros a Ha; cbn [NilEmpty.string_of_uint digits Nat.of_uint_acc];
  try (rewrite Z2Nat.id by lia; reflexivity);
  (change (digitVal _) with (Some 0) || change (digitVal _) with (Some 1)
   || change (digitVal _) with (Some 2) || change (digitVal _) with (Some 3)
   || change (digitVal _) with (Some 4) || change (digitVal _) with (Some 5)
   || change (digitVal _) with (Some 6) || change (digitVal _) with (Some 7)
   || change (digitVal _) with (Some 8) || change (digitVal _) with (Some 9));
  cbv iota beta; rewrite IHd by lia; rewrite Nat.tail_mul_spec;
  do 3 f_equal; lia.
Qed.

Lemma digits_start (d : Decimal.uint) :
  d <> Decimal.Nil ->
  digits (NilEmpty.string_of_uint d) None = digits (NilEmpty.string_of_uint d) (Some 0).
Proof.
destruct d; intros H; [congruence| | | | | | | | | |]; reflexivity.
Qed.

Lemma to_uint_not_nil n : Nat.to_uint n <> Decimal.Nil.
Proof.
intros E. pose proof (Unsigned.of_to n) as H.
destruct n; [discriminate E|].
rewrite E in H. discriminate H.
Qed.

Lemma decimal_digits n : digits (decimal n) None = Some (Z.of_nat n).
Proof.
unfold decimal, NilZero.string_of_uint.
pose proof (to_uint_not_nil n) as Hn.
destruct (Nat.to_uint n) eqn:E; try congruence;
  rewrite <- E in *; rewrite digits_start by exact Hn;
  rewrite digits_of_uint by lia; change (Z.to_nat 0) with 0%nat;
  fold (Nat.of_uint (Nat.to_uint n)); rewrite Unsigned.of_to; reflexivity.
Qed.

Lemma decimal_head n :
  exists c r, decimal n = String c r /\ isWhite c = false
              /\ c <> "-"%char /\ c <> "+"%char.
Proof.
unfold decimal, NilZero.string_of_uint.
pose proof (to_uint_not_nil n) as Hn.
destruct (Nat.to_uint n); try congruence;
  cbn [NilEmpty.string_of_uint]; eexists; eexists;
  (split; [reflexivity|]); (split; [reflexivity|]); split; discriminate.
Qed.

Lemma parseInt_decimal n : parseInt (decimal n) = Some (Z.of_nat n).
Proof.
destruct (decimal_head n) as (c & r & E & W & Hm & Hp).
assert (digits (String c r) None = Some (Z.of_nat n)) as Hd
    by (rewrite <- E; apply decimal_digits).
unfold parseInt. rewrite E. cbn [skipWhite]. rewrite W. rewrite <- Hd.
destruct c as [[|] [|] [|] [|] [|] [|] [|] [|]]; try reflexivity; congruence.
Qed.

Lemma parseInt_negative n : parseInt ("-" ++ decimal n) = Some (- Z.of_nat n).
Proof.
unfold parseInt. cbn [append skipWhite]. change (isWhite "-") with false. cbv iota.
rewrite decimal_digits. reflexivity.
Qed.

Lemma parseInt_notNumeric s : notNumeric s -> parseInt s = None.
Proof.
destruct s as [|c r]; [reflexivity|].
intros (Hd & Hm & Hp & W). unfold parseInt. cbn [skipWhite]. rewrite W.
assert (digitVal c = None) as Hv.
{ unfold digitVal. cbv zeta.
  destruct (Nat.leb 48 (nat_of_ascii c)) eqn:E1; [|reflexivity].
  destruct (Nat.leb (nat_of_ascii c) 57) eqn:E2; [|reflexivity].
  apply Nat.leb_le in E1, E2. lia. }
assert (digits (String c r) None = None) as Hz by (cbn [digits]; rewrite Hv; reflexivity).
rewrite <- Hz.
destruct c as [[|] [|] [|] [|] [|] [|] [|] [|]]; try reflexivity; congruence.
Qed.

Lemma readsAs dflt v : 0 < dflt -> ReadsAs dflt v (pageParam dflt v).
Proof.
intros Hd. unfold ReadsAs, pageParam. split; [|split; [|split; [|split]]].
- destruct v as [| |s]; simpl.
  + destruct (0 <? dflt); lia.
  + lia.
  + destruct (parseInt s) as [n|]; [|lia].
    destruct (0 <? n) eqn:E; [apply Z.ltb_lt in E|]; lia.
- intros [-> | ->]; simpl; [destruct (0 <? dflt)|]; reflexivity.
- intros s -> Hs. rewrite (parseInt_notNumeric s Hs). reflexivity.
- intros k ->. rewrite parseInt_decimal.
  destruct k as [|k]; [reflexivity|].
  change (Nat.eqb (S k) 0) with false. cbv iota.
  destruct (0 <? Z.of_nat (S k)) eqn:E; [reflexivity|].
  apply Z.ltb_ge in E. lia.
- intros k ->. rewrite parseInt_negative.
  destruct (0 <? - Z.of_nat k) eqn:E; [|reflexivity].
  apply Z.ltb_lt in E. lia.
Qed.

Lemma pagingInputs pageV limitV : PagingInputs pageV limitV.
Proof.
split; apply readsAs; lia.
Qed.

Lemma insertSorted_length {A} (before : A -> A -> bool) a l :
  List.length (insertSorted before a l) = S (List.length l).
Proof.
  induction l as [|b r IH]; simpl; auto.
  destruct (before a b); simpl; auto.
Qed.

Lemma sortBy_length {A} (before : A -> A -> bool) l :
  List.length (sortBy before l) = List.length l.
Proof.
  induction l as [|a r IH]; simpl; auto.
  rewrite insertSorted_length. auto.
Qed.

Lemma paginate_contract {D} (before : D -> D -> bool) matches page limit db :
  1 <= limit ->
  PageContract page limit (sortBy before (filter matches db))
               (paginate before matches page limit db).
Proof.
  intros Hl. unfold PageContract, paginate, page_of. simpl.
  rewrite sortBy_length.
  repeat split; auto.
  - apply ceilDiv_spec; lia.
  - apply ceilDiv_spec; lia.
  - pose proof (firstn_le_length (Z.to_nat limit)
                  (skipn (Z.to_nat ((page - 1) * limit))
                         (sortBy before (filter matches db)))) as H.
    lia.
Qed.


(* ================================================================== *)
(** ** Period filters *)





(* ================================================================== *)
(** ** Optional filters of the list endpoints *)

Lemma optionalOid_invalid v field :
  ObjectId_isValid v = false -> optionalOid v field = true.
Proof.
  intros H. unfold optionalOid. rewrite H, andb_false_r. reflexivity.
Qed.

Lemma usableDate_unparseable parse v :
  isNaN (Date_of parse v) = true -> usableDate parse v = None.
Proof.
  unfold usableDate, isNaN.
  destruct (truthy v); auto.
  destruct (Date_of parse v); [discriminate | reflexivity].
Qed.

Lemma paginate_ext {D} (before : D -> D -> bool) f g page limit (db : list D) :
  (forall d, f d = g d) ->
  paginate before f page limit db = paginate before g page limit db.
Proof.
  intros H. unfold paginate.
  rewrite (filter_ext f g H). reflexivity.
Qed.

Lemma listSalaryRecords_ext parse q q' db :
  SalaryQuery.status q = SalaryQuery.status q' ->
  SalaryQuery.page q = SalaryQuery.page q' ->
  SalaryQuery.limit q = SalaryQuery.limit q' ->
  (forall s, salaryFilters parse q s = salaryFilters parse q' s) ->
  listSalaryRecords parse q db = listSalaryRecords parse q' db.
Proof.
  intros Hs Hp Hl Hf. unfold listSalaryRecords.
  rewrite Hs, Hp, Hl, (paginate_ext _ _ _ _ _ _ Hf). reflexivity.
Qed.

Lemma getAttendanceByLabourer_ext parse labourerId q q' db :
  AttendanceQuery.startDate q = AttendanceQuery.startDate q' ->
  AttendanceQuery.endDate q = AttendanceQuery.endDate q' ->
  AttendanceQuery.page q = AttendanceQuery.page q' ->
  AttendanceQuery.limit q = AttendanceQuery.limit q' ->
  (forall range a, labourerFilters labourerId q range a
                   = labourerFilters labourerId q' range a) ->
  getAttendanceByLabourer parse labourerId q db
  = getAttendanceByLabourer parse labourerId q' db.
Proof.
  intros Hs He Hp Hl Hf. unfold getAttendanceByLabourer.
  rewrite Hs, He, Hp, Hl.
  destruct (negb (isValidString labourerId)); [reflexivity|].
  destruct (attendanceDateFilter parse (AttendanceQuery.startDate q')
                                 (AttendanceQuery.endDate q')) as [range|];
    [|reflexivity].
  cbv zeta. rewrite (paginate_ext _ _ _ _ _ _ (Hf range)). reflexivity.
Qed.

(** C3, as the code has it. On the list endpoints [listSalaryRecords]
    and [getAttendanceByLabourer] an optional identifier filter that is
    not a valid identifier, and on [listSalaryRecords] a period bound
    that does not parse as a date, does not fail the request: the
    criterion is left out, and the answer is the one of the same request
    without it. *)
Theorem invalid_optional_filter_is_dropped parse (v d : JsVal) :
  ObjectId_isValid v = false ->
  isNaN (Date_of parse d) = true ->
  (forall q db,
      listSalaryRecords parse (withSalaryLabourer v q) db
      = listSalaryRecords parse (withSalaryLabourer JUndefined q) db)
  /\ (forall q db,
         listSalaryRecords parse (withStartPeriod d q) db
         = listSalaryRecords parse (withStartPeriod JUndefined q) db)
  /\ (forall q db,
         listSalaryRecords parse (withEndPeriod d q) db
         = listSalaryRecords parse (withEndPeriod JUndefined q) db)
  /\ (forall labourerId q db,
         getAttendanceByLabourer parse labourerId (withProject v q) db
         = getAttendanceByLabourer parse labourerId (withProject JUndefined q) db)
  /\ (forall labourerId q db,
         getAttendanceByLabourer parse labourerId (withMarkedBy v q) db
         = getAttendanceByLabourer parse labourerId (withMarkedBy JUndefined q) db).
Proof.
  intros Hv Hd.
  pose proof (usableDate_unparseable parse d Hd) as Hu.
  repeat split; intros.
  - apply listSalaryRecords_ext; try reflexivity. intros s.
    unfold salaryFilters, withSalaryLabourer. simpl.
    rewrite (optionalOid_invalid v _ Hv). reflexivity.
  - apply listSalaryRecords_ext; try reflexivity. intros s.
    unfold salaryFilters, withStartPeriod. simpl. rewrite Hu. reflexivity.
  - apply listSalaryRecords_ext; try reflexivity. intros s.
    unfold salaryFilters, withEndPeriod. simpl. rewrite Hu. reflexivity.
  - apply getAttendanceByLabourer_ext; try reflexivity. intros range a.
    unfold labourerFilters, withProject. simpl.
    rewrite (optionalOid_invalid v _ Hv). reflexivity.
  - apply getAttendanceByLabourer_ext; try reflexivity. intros range a.
    unfold labourerFilters, withMarkedBy. simpl.
    rewrite (optionalOid_invalid v _ Hv). reflexivity.
Qed.

(* ================================================================== *)
(** ** Leave lifecycle *)

Lemma reviewed_valid v by_ l :
  includes Leave.statuses v = true ->
  Leave.valid l = true -> Leave.valid (Leave.reviewed v by_ l) = true.
Proof.
  unfold Leave.valid. simpl. intros Hv H.
  apply andb_true_iff in H. destruct H as [H _].
  rewrite H, Hv. reflexivity.
Qed.

Lemma not_pending s :
  s <> Some "pending" -> negb (str_eqb s (Some "pending")) = true.
Proof.
  intros H. destruct (str_eqb s (Some "pending")) eqn:E; auto.
  apply str_eqb_eq in E. contradiction.
Qed.

Lemma Leave_findById_split id db l :
  Leave.findById id db = Some l ->
  exists pre post,
    db = pre ++ l :: post
    /\ Leave._id l = id
    /\ (forall x, In x pre -> Leave._id x <> id)
    /\ Leave.deleteById id db = pre ++ post.
Proof.
  unfold Leave.findById. induction db as [|a r IH]; simpl; [discriminate|].
  destruct (String.eqb (Leave._id a) id) eqn:E.
  - intros H. injection H as ->. apply String.eqb_eq in E.
    exists [], r. simpl. repeat split; auto.
  - intros H. destruct (IH H) as (pre & post & E1 & E2 & E3 & E4).
    exists (a :: pre), post. simpl. rewrite <- E1, E4.
    repeat split; auto.
    intros x [<-|Hin]; [|auto]. apply String.eqb_neq. exact E.
Qed.

Lemma Leave_replace_saved u db : SavedOver Leave._id u db (Leave.replace u db).
Proof.
  unfold SavedOver, Leave.replace. split; [apply length_map|].
  intros k d H. rewrite nth_error_map, H. reflexivity.
Qed.

Lemma reviewLeave_pending verb newStatus leaveId r db l :
  isValidString leaveId = true -> isValidString r = true ->
  includes Leave.statuses newStatus = true ->
  Leave.findById (canonical leaveId) db = Some l ->
  Leave.valid l = true ->
  Leave.status l = Some "pending" ->
  exists updated db',
    reviewLeave verb newStatus leaveId (JStr r) db = (Sent 200 updated, db')
    /\ Reviewed newStatus (canonical r) l updated
    /\ SavedOver Leave._id updated db db'.
Proof.
  intros Hid Hr Hs Hfind Hvalid Hp. unfold reviewLeave.
  assert (truthy (JStr r) = true) as Ht.
  { destruct r; [discriminate | reflexivity]. }
  rewrite Hid, Ht. simpl ObjectId_isValid. rewrite Hr, Hfind. simpl negb. simpl orb.
  cbv iota. rewrite Hp, str_eqb_refl. simpl negb. cbv iota zeta.
  rewrite reviewed_valid by assumption.
  eexists. eexists. split; [reflexivity|].
  split; [|apply Leave_replace_saved].
  unfold Reviewed. simpl. repeat split; reflexivity.
Qed.

(** C9. Approving or rejecting a leave succeeds only on a leave whose
    status is pending: the answer and the stored leave then carry the
    status approved or rejected and the reviewer's identifier, every
    other field and every other leave being as before; on any other
    status the operation fails with an error naming that status and the
    stored leaves are unchanged. Cancelling likewise succeeds only on a
    pending leave, and removes that leave and no other. *)
Theorem leave_transitions_need_pending (leaveId r : string)
        (db : list Leave.t) (l : Leave.t) :
  isValidString leaveId = true ->
  isValidString r = true ->
  Leave.findById (canonical leaveId) db = Some l ->
  Leave.valid l = true ->
  (Leave.status l = Some "pending" ->
     (exists updated db',
        approveLeave leaveId (JStr r) db = (Sent 200 updated, db')
        /\ Reviewed "approved" (canonical r) l updated
        /\ SavedOver Leave._id updated db db')
     /\ (exists updated db',
          rejectLeave leaveId (JStr r) db = (Sent 200 updated, db')
          /\ Reviewed "rejected" (canonical r) l updated
          /\ SavedOver Leave._id updated db db')
     /\ (exists pre post,
          db = pre ++ l :: post
          /\ (forall x, In x pre -> Leave._id x <> canonical leaveId)
          /\ cancelLeaveRequest leaveId db
             = (Sent 200 "Leave request cancelled successfully", pre ++ post)))
  /\ (Leave.status l <> Some "pending" ->
       approveLeave leaveId (JStr r) db
       = (refuse 400 ("Cannot approve a leave request with status '"
                      ++ toString (Leave.status l) ++ "'")%string, db)
       /\ rejectLeave leaveId (JStr r) db
          = (refuse 400 ("Cannot reject a leave request with status '"
                         ++ toString (Leave.status l) ++ "'")%string, db)
       /\ cancelLeaveRequest leaveId db
          = (refuse 400 ("Cannot cancel a leave request with status '"
                         ++ toString (Leave.status l) ++ "'")%string, db)).
Proof.
  intros Hid Hr Hfind Hvalid. split.
  - intros Hp.
    split; [apply reviewLeave_pending; auto|].
    split; [apply reviewLeave_pending; auto|].
    destruct (Leave_findById_split _ _ _ Hfind) as (pre & post & E1 & _ & E3 & E4).
    exists pre, post. split; [exact E1|]. split; [exact E3|].
    unfold cancelLeaveRequest.
    rewrite Hid, Hfind, Hp, str_eqb_refl, E4. reflexivity.
  - intros Hp.
    assert (truthy (JStr r) = true) as Ht.
    { destruct r; [discriminate | reflexivity]. }
    unfold approveLeave, rejectLeave, reviewLeave, cancelLeaveRequest.
    rewrite Hid, Ht. simpl ObjectId_isValid. rewrite Hr, Hfind.
    simpl negb. simpl orb. cbv iota.
    rewrite (not_pending _ Hp). repeat split; reflexivity.
Qed.

(* ================================================================== *)
(** ** Marking a salary as paid *)

Lemma Salary_replace_saved u db : SavedOver Salary._id u db (Salary.replace u db).
Proof.
  unfold SavedOver, Salary.replace. split; [apply length_map|].
  intros k d H. rewrite nth_error_map, H. reflexivity.
Qed.

(** C10, as the code has it. On an existing salary record the
    mark-as-paid operation sets the status to paid whatever the status
    was, an already paid record included, and leaves labourerId,
    startPeriod, endPeriod, totalDaysPresent, dailyWage, totalSalary and
    payslipUrl as they were; the record is answered and saved in its
    place, every other record untouched. The payment date, supplied or
    defaulted, is no part of the answer nor of the stored record: the
    same request without a date, at any time, has the same answer and
    leaves the same collection. *)
Theorem markSalaryAsPaid_drops_payment_date parse (now : Z) (salaryId : string)
        (paymentDate : JsVal) (db : list Salary.t) (s : Salary.t) :
  isValidString salaryId = true ->
  (truthy paymentDate && isNaN (Date_of parse paymentDate))%bool = false ->
  Salary.findById (canonical salaryId) db = Some s ->
  Salary.valid s = true ->
  exists db',
    let paid :=
      Salary.mk (Salary._id s) (Salary.labourerId s) (Salary.startPeriod s)
                (Salary.endPeriod s) (Salary.totalDaysPresent s)
                (Salary.dailyWage s) (Salary.totalSalary s)
                (Some "paid") (Salary.payslipUrl s) in
    markSalaryAsPaid parse now salaryId paymentDate db = (Sent 200 paid, db')
    /\ SavedOver Salary._id paid db db'
    /\ forall now', markSalaryAsPaid parse now' salaryId JUndefined db
                    = (Sent 200 paid, db').
Proof.
  intros Hid Hdate Hfind Hvalid.
  assert (Salary.valid (Salary.setStatus "paid" s) = true) as Hpaid.
  { unfold Salary.valid in *. simpl.
    apply andb_true_iff in Hvalid. destruct Hvalid as [_ H]. exact H. }
  exists (Salary.replace (Salary.setStatus "paid" s) db). cbv zeta.
  unfold markSalaryAsPaid, setPaymentDate.
  rewrite Hid, Hdate, Hfind. simpl negb. simpl andb. cbv iota.
  rewrite Hpaid.
  split; [reflexivity|]. split; [apply Salary_replace_saved|].
  intros now'. reflexivity.
Qed.

(* ================================================================== *)
(** ** Bulk attendance ingestion *)

Lemma validateAll_length parse entries : forall i,
  (List.length (fst (validateAll parse i entries))
   + List.length (snd (validateAll parse i entries)) = List.length entries)%nat.
Proof.
  induction entries as [|entry rest IH]; intros i; simpl; [reflexivity|].
  specialize (IH (S i)).
  destruct (validateAll parse (S i) rest) as [v e]. simpl in IH.
  destruct (entryError parse (orEmpty entry)); simpl; lia.
Qed.

Lemma validateAll_nth parse entries : forall i k entry,
  nth_error entries k = Some entry ->
  match entryError parse (orEmpty entry) with
  | Some e => In (mkFailure (i + k) e (Received entry)) (snd (validateAll parse i entries))
  | None => In (prepare parse (orEmpty entry)) (fst (validateAll parse i entries))
  end.
Proof.
  induction entries as [|entry0 rest IH]; intros i k entry Hk.
  - destruct k; discriminate.
  - simpl. destruct k as [|k]; simpl in Hk.
    + inversion Hk; subst entry0. rewrite Nat.add_0_r.
      destruct (validateAll parse (S i) rest) as [v e].
      destruct (entryError parse (orEmpty entry)); simpl; auto.
    + specialize (IH (S i) k entry Hk).
      replace (i + S k)%nat with (S i + k)%nat by lia.
      destruct (validateAll parse (S i) rest) as [v e]. simpl in IH.
      destruct (entryError parse (orEmpty entry)) as [e1|];
        destruct (entryError parse (orEmpty entry0)); simpl; auto.
Qed.

Lemma writeAll_spec writeError docs : forall i db db' written errs,
  writeAll writeError i docs db = (db', written, errs) ->
  db' = db ++ written
  /\ (List.length written + List.length errs = List.length docs)%nat.
Proof.
  induction docs as [|d rest IH]; intros i db db' written errs H; simpl in H.
  - inversion H; subst. rewrite app_nil_r. auto.
  - destruct (writeError db d) as [msg|].
    + destruct (writeAll writeError (S i) rest db) as [[db1 w1] e1] eqn:E.
      inversion H; subst. destruct (IH _ _ _ _ _ E) as [-> Hl].
      simpl. split; [reflexivity | lia].
    + destruct (writeAll writeError (S i) rest (db ++ [d])) as [[db1 w1] e1] eqn:E.
      inversion H; subst. destruct (IH _ _ _ _ _ E) as [-> Hl].
      simpl. rewrite <- app_assoc. simpl. split; [reflexivity | lia].
Qed.

Lemma writeAll_no_errors writeError docs : forall i db db' written,
  writeAll writeError i docs db = (db', written, []) -> written = docs.
Proof.
  induction docs as [|d rest IH]; intros i db db' written H; simpl in H.
  - inversion H; reflexivity.
  - destruct (writeError db d) as [msg|].
    + destruct (writeAll writeError (S i) rest db) as [[db1 w1] e1]. inversion H.
    + destruct (writeAll writeError (S i) rest (db ++ [d])) as [[db1 w1] e1] eqn:E.
      inversion H; subst. f_equal. eapply IH; eauto.
Qed.

(** C6, on the code. The example of five entries, the third with a shift
    outside the enumeration, is answered as described: four inserted,
    one failed, reported at position 2 with its error. But an entry
    whose markedBy is the empty string passes the validation of the
    handler, is left out by the insert because the model cannot cast
    it, and is neither counted as inserted nor reported as failed; and
    when the store refuses a write, the answer counts no inserted
    document although the accepted ones are stored, the position of the
    failure being the one in the list of valid records. *)
Theorem bulk_ingestion_misreports :
  bulkAddAttendance isoDates acceptAll sampleIds (Some fiveEntries) []
  = (Sent 201 (mkBulkReport 4 1
                 [mkFailure 2 "Missing/invalid shift"
                            (Received (entryOf "2024-03-02" "afternoon"))]),
     [ attendedShift (sampleIds 0) 1709251200000 "morning";
       attendedShift (sampleIds 1) 1709251200000 "evening";
       attendedShift (sampleIds 2) 1709337600000 "night";
       attendedShift (sampleIds 3) 1709424000000 "morning" ])
  /\ bulkAddAttendance isoDates acceptAll sampleIds
       (Some [ entryOf "2024-03-01" "morning";
               entryMarkedBy "2024-03-02" "morning" "" ]) []
     = (Sent 201 (mkBulkReport 1 0 []),
        [ attendedShift (sampleIds 0) 1709251200000 "morning" ])
  /\ bulkAddAttendance isoDates uniqueKey sampleIds
       (Some [ entryOf "2024-03-01" "night";
               entryOf "2024-03-01" "morning";
               entryOf "2024-03-01" "morning" ])
       [ attendedShift (sampleIds 4) 1709251200000 "night" ]
     = (Sent 201 (mkBulkReport 0 2
                    [ mkFailure 0 "E11000 duplicate key error"
                        (Built (Some (mkPrepared (JStr labourerA) (JStr projectP)
                                        (Some 1709251200000) (JStr "night")
                                        (JStr "present") JUndefined)));
                      mkFailure 2 "E11000 duplicate key error"
                        (Built (Some (mkPrepared (JStr labourerA) (JStr projectP)
                                        (Some 1709251200000) (JStr "morning")
                                        (JStr "present") JUndefined))) ]),
        [ attendedShift (sampleIds 4) 1709251200000 "night";
          attendedShift (sampleIds 1) 1709251200000 "morning" ]).
Proof.
  split; [reflexivity|]. split; reflexivity.
Qed.

(* ================================================================== *)
(** ** Salary generation *)

Lemma generateSalaryWith_valid parse schema newIds body attendance salaries
      start_ end_ dailyWage :
  validGeneration parse body start_ end_ dailyWage ->
  generateSalaryWith parse schema newIds body attendance salaries
  = match attendanceAggregation start_ end_ attendance with
    | [] =>
        (Sent 200 (mkGenerated
           "No attendance records found for the given period to generate salary."
           []), salaries)
    | groups =>
        if existsb (fun rec => oid_eqb (fst rec) None) groups
        then (Thrown (TypeError "Cannot read properties of null"), salaries)
        else
          match salaryRecordsToCreate newIds start_ end_ dailyWage attendance salaries with
          | [] =>
              (Sent 200 (mkGenerated
                 "Salary records for this period already generated for all labourers."
                 []), salaries)
          | toCreate =>
              match insertMany schema toCreate salaries with
              | (Some createdSalaries, salaries') =>
                  (Sent 201 (mkGenerated
                     ("Generated salary records for "
                      ++ decimal (List.length createdSalaries)
                      ++ " labourers")%string
                     createdSalaries), salaries')
              | (None, salaries') =>
                  (Thrown (ValidationError "Salary validation failed"), salaries')
              end
          end
    end.
Proof.
  intros (Hs & He & Ds & De & Hle & Hw & Hpos).
  unfold generateSalaryWith. rewrite Hw, Hs, He, Ds, De.
  cbn [negb orb]. cbv zeta.
  assert ((end_ <? start_) = false) as -> by (apply Z.ltb_ge; lia).
  assert ((dailyWage <? 0) = false) as -> by (apply Z.ltb_ge; lia).
  destruct (attendanceAggregation start_ end_ attendance) as [|g gs]; [reflexivity|].
  destruct (existsb (fun rec => oid_eqb (fst rec) None) (g :: gs)); [reflexivity|].
  destruct (salaryRecordsToCreate newIds start_ end_ dailyWage attendance salaries);
    reflexivity.
Qed.

Lemma toCreate_needs_groups newIds start_ end_ dailyWage attendance salaries :
  attendanceAggregation start_ end_ attendance = [] ->
  salaryRecordsToCreate newIds start_ end_ dailyWage attendance salaries = [].
Proof.
  intros H. unfold salaryRecordsToCreate. rewrite H. reflexivity.
Qed.

(** The batch goes through one insert: all records or none. *)
Lemma generateSalaryWith_batch parse (schema : Salary.t -> bool) newIds body
      attendance salaries start_ end_ dailyWage toCreate :
  validGeneration parse body start_ end_ dailyWage ->
  labourersKnown start_ end_ attendance ->
  salaryRecordsToCreate newIds start_ end_ dailyWage attendance salaries = toCreate ->
  toCreate <> [] ->
  (forallb schema toCreate = true ->
     generateSalaryWith parse schema newIds body attendance salaries
     = (Sent 201 (mkGenerated ("Generated salary records for "
                               ++ decimal (List.length toCreate)
                               ++ " labourers")%string toCreate),
        salaries ++ toCreate))
  /\ (forallb schema toCreate = false ->
       generateSalaryWith parse schema newIds body attendance salaries
       = (Thrown (ValidationError "Salary validation failed"), salaries)).
Proof.
  intros Hreq Hknown Hto Hne.
  rewrite (generateSalaryWith_valid _ _ _ _ _ _ _ _ _ Hreq).
  destruct (attendanceAggregation start_ end_ attendance) as [|g gs] eqn:G.
  - rewrite (toCreate_needs_groups _ _ _ _ _ _ G) in Hto. congruence.
  - unfold labourersKnown in Hknown. rewrite G in Hknown. rewrite Hknown, Hto.
    destruct toCreate as [|r rs]; [congruence|].
    unfold insertMany.
    split; intros ->; reflexivity.
Qed.

(** C2, as the code has it. The records synthesized by the salary
    generation go to the store in one batch through one insert call with
    the default options, which is all or nothing: when every record
    passes the model's validation all of them are committed and
    returned; when one does not, none is committed and the whole call
    fails with that error, no failure being reported per record. *)
Theorem salary_batch_is_all_or_nothing parse (schema : Salary.t -> bool) newIds body
        attendance salaries start_ end_ dailyWage toCreate :
  validGeneration parse body start_ end_ dailyWage ->
  labourersKnown start_ end_ attendance ->
  salaryRecordsToCreate newIds start_ end_ dailyWage attendance salaries = toCreate ->
  toCreate <> [] ->
  (forallb schema toCreate = true ->
     generateSalaryWith parse schema newIds body attendance salaries
     = (Sent 201 (mkGenerated ("Generated salary records for "
                               ++ decimal (List.length toCreate)
                               ++ " labourers")%string toCreate),
        salaries ++ toCreate))
  /\ (forallb schema toCreate = false ->
       generateSalaryWith parse schema newIds body attendance salaries
       = (Thrown (ValidationError "Salary validation failed"), salaries)).
Proof.
  exact (generateSalaryWith_batch parse schema newIds body attendance salaries
           start_ end_ dailyWage toCreate).
Qed.

(** Every record the generation synthesizes carries the empty payslip
    URL, which the schema's required validator refuses. *)
Lemma synthesize_invalid newIds start_ end_ dailyWage groups : forall i,
  groups <> [] ->
  forallb Salary.valid (synthesize newIds i start_ end_ dailyWage groups) = false.
Proof.
  destruct groups as [|[k c] rest]; intros i H; [congruence|].
  reflexivity.
Qed.

Lemma synthesize_nil newIds start_ end_ dailyWage groups i :
  synthesize newIds i start_ end_ dailyWage groups = [] -> groups = [].
Proof.
  destruct groups as [|[k c] rest]; simpl; [reflexivity | discriminate].
Qed.

(** Whatever the attendance, a generation that finds records to create
    is refused by the model's own schema and stores nothing. *)
Lemma generation_refused_by_schema parse newIds body attendance salaries
      start_ end_ dailyWage :
  validGeneration parse body start_ end_ dailyWage ->
  labourersKnown start_ end_ attendance ->
  salaryRecordsToCreate newIds start_ end_ dailyWage attendance salaries <> [] ->
  generateSalaryForPeriod parse newIds body attendance salaries
  = (Thrown (ValidationError "Salary validation failed"), salaries).
Proof.
  intros Hreq Hknown Hne.
  unfold generateSalaryForPeriod.
  apply (generateSalaryWith_batch parse Salary.valid newIds body attendance
           salaries start_ end_ dailyWage _ Hreq Hknown eq_refl Hne).
  unfold salaryRecordsToCreate in *.
  apply synthesize_invalid.
  intros E. apply Hne. rewrite E. reflexivity.
Qed.

(* ================================================================== *)
(** ** What the generation builds *)

Lemma oid_eqb_sym a b : oid_eqb a b = oid_eqb b a.
Proof.
destruct a as [x|], b as [y|]; unfold oid_eqb; auto. apply String.eqb_sym.
Qed.

Lemma countIf_map {A B} (f : A -> B) (p : B -> bool) (l : list A) :
  countIf p (map f l) = countIf (fun a => p (f a)) l.
Proof.
unfold countIf. f_equal.
induction l as [|a r IH]; simpl; auto.
destruct (p (f a)); simpl; auto.
Qed.

Lemma countIf_filter {A} (p q : A -> bool) (l : list A) :
  countIf p (filter q l) = countIf (fun a => q a && p a)%bool l.
Proof.
unfold countIf. f_equal.
induction l as [|a r IH]; simpl; auto.
destruct (q a); simpl; auto.
destruct (p a); simpl; auto.
Qed.

Lemma countIf_ext {A} (p q : A -> bool) (l : list A) :
  (forall a, p a = q a) -> countIf p l = countIf q l.
Proof.
intros H. unfold countIf. rewrite (filter_ext p q H). reflexivity.
Qed.

Lemma countIf_absent {A} (p : A -> bool) (k : A) (l : list A) :
  (forall x, p x = true <-> x = k) -> ~ In k l -> countIf p l = 0.
Proof.
intros Hp. unfold countIf.
induction l as [|a r IH]; simpl; intros Hn; [reflexivity|].
destruct (p a) eqn:E.
- apply Hp in E. subst a. tauto.
- apply IH. tauto.
Qed.

Lemma countIf_unique {A} (p : A -> bool) (k : A) (l : list A) :
  (forall x, p x = true <-> x = k) -> NoDup l -> In k l -> countIf p l = 1.
Proof.
intros Hp Hnd. induction Hnd as [|a r Hnotin Hnd IH]; intros Hin; [destruct Hin|].
unfold countIf in *. simpl.
destruct (p a) eqn:E.
- apply Hp in E. subst a. simpl List.length.
  pose proof (countIf_absent p k r Hp Hnotin) as H0. unfold countIf in H0. lia.
- destruct Hin as [->|Hin].
  + assert (p k = true) by (apply Hp; reflexivity). congruence.
  + auto.
Qed.

Lemma aggregation_counts start_ end_ attendance labourer :
  countOf oid_eqb (Some labourer) (attendanceAggregation start_ end_ attendance)
  = presentDays start_ end_ labourer attendance.
Proof.
unfold attendanceAggregation, presentDays.
destruct (groupCount_spec oid_eqb oid_eqb_eq
            (map Attendance.labourerId
                 (filter (fun a => inRange (Some start_) (Some end_) (Attendance.date a)
                                   && str_eqb (Attendance.status a) (Some "present"))%bool
                         attendance))) as (_ & _ & Hcount & _).
rewrite Hcount, countIf_map, countIf_filter.
apply countIf_ext. intros a. rewrite (oid_eqb_sym (Some labourer)). reflexivity.
Qed.

Lemma synthesize_labourers newIds start_ end_ dailyWage groups : forall i,
  map Salary.labourerId (synthesize newIds i start_ end_ dailyWage groups)
  = map fst groups.
Proof.
induction groups as [|[k c] r IH]; intros i; simpl; [reflexivity|].
rewrite IH. reflexivity.
Qed.

Lemma synthesize_In newIds start_ end_ dailyWage groups k c : forall i,
  In (k, c) groups ->
  exists id,
    In (Salary.mk id k (Some start_) (Some end_) c dailyWage (c * dailyWage)
                  (Some "pending") (Some ""))
       (synthesize newIds i start_ end_ dailyWage groups).
Proof.
induction groups as [|[k' c'] r IH]; intros i Hin; [destruct Hin|].
simpl. destruct Hin as [E|Hin].
- inversion E; subst. eexists. left. reflexivity.
- destruct (IH (S i) Hin) as [id Hid]. exists id. right. exact Hid.
Qed.

Lemma synthesize_period newIds start_ end_ dailyWage groups r : forall i,
  In r (synthesize newIds i start_ end_ dailyWage groups) ->
  Salary.startPeriod r = Some start_ /\ Salary.endPeriod r = Some end_
  /\ In (Salary.labourerId r) (map fst groups).
Proof.
induction groups as [|[k c] rest IH]; intros i Hin; [destruct Hin|].
simpl in Hin. destruct Hin as [<-|Hin].
- simpl. auto.
- destruct (IH (S i) Hin) as (H1 & H2 & H3). simpl. auto.
Qed.

Lemma NoDup_fst_filter {K} (f : K * Z -> bool) (l : list (K * Z)) :
  NoDup (map fst l) -> NoDup (map fst (filter f l)).
Proof.
induction l as [|g r IH]; simpl; intros Hnd; [constructor|].
inversion Hnd as [|? ? Hnotin Hnd']; subst.
destruct (f g); simpl; auto.
constructor; auto.
intros Hin. apply Hnotin.
apply in_map_iff in Hin. destruct Hin as (x & Hx & Hin).
apply filter_In in Hin. apply in_map_iff. exists x. tauto.
Qed.

Lemma existing_has_salary labourerIds start_ end_ salaries labourer :
  In (Some labourer) (existingLabourerIds labourerIds start_ end_ salaries) ->
  existsb (salaryFor start_ end_ labourer) salaries = true.
Proof.
unfold existingLabourerIds. intros Hin.
apply in_map_iff in Hin. destruct Hin as (s & Hs & Hin).
apply filter_In in Hin. destruct Hin as [Hin Hc].
apply andb_true_iff in Hc. destruct Hc as [Hc He].
apply andb_true_iff in Hc. destruct Hc as [_ Hst].
apply existsb_exists. exists s. split; [exact Hin|].
unfold salaryFor. rewrite Hs, oid_eqb_refl, Hst, He. reflexivity.
Qed.

Lemma salary_is_existing labourerIds start_ end_ salaries labourer :
  In (Some labourer) labourerIds ->
  existsb (salaryFor start_ end_ labourer) salaries = true ->
  In (Some labourer) (existingLabourerIds labourerIds start_ end_ salaries).
Proof.
unfold existingLabourerIds. intros Hl Hex.
apply existsb_exists in Hex. destruct Hex as (s & Hin & Hc).
unfold salaryFor in Hc.
apply andb_true_iff in Hc. destruct Hc as [Hc He].
apply andb_true_iff in Hc. destruct Hc as [Hid Hst].
apply oid_eqb_eq in Hid.
apply in_map_iff. exists s. split; [exact Hid|].
apply filter_In. split; [exact Hin|].
rewrite Hst, He, !andb_true_r.
apply existsb_exists. exists (Some labourer). split; [exact Hl|].
rewrite Hid. apply oid_eqb_refl.
Qed.

Lemma existsb_oid_In k l : existsb (oid_eqb k) l = true <-> In k l.
Proof.
rewrite existsb_exists. split.
- intros (x & Hin & E). apply oid_eqb_eq in E. subst. exact Hin.
- intros Hin. exists k. split; [exact Hin | apply oid_eqb_refl].
Qed.

(** X25. What [generateSalaryForPeriod] prepares for insertion: a labourer
    with present days in the period and no salary for exactly that
    period gets one record, with the present days counted, the total at
    the daily wage, status pending and an empty payslip URL. *)
Lemma generated_record_content newIds start_ end_ dailyWage attendance salaries labourer :
  0 < presentDays start_ end_ labourer attendance ->
  existsb (salaryFor start_ end_ labourer) salaries = false ->
  let toCreate := salaryRecordsToCreate newIds start_ end_ dailyWage attendance salaries in
  let days := presentDays start_ end_ labourer attendance in
  countIf (fun r => oid_eqb (Salary.labourerId r) (Some labourer)) toCreate = 1
  /\ exists id,
       In (Salary.mk id (Some labourer) (Some start_) (Some end_) days dailyWage
                     (days * dailyWage) (Some "pending") (Some "")) toCreate.
Proof.
intros Hdays Hnone toCreate days.
unfold toCreate, salaryRecordsToCreate.
set (groups := attendanceAggregation start_ end_ attendance).
set (existing := existingLabourerIds (map fst groups) start_ end_ salaries).
set (kept := filter (fun rec => negb (existsb (oid_eqb (fst rec)) existing)) groups).
assert (NoDup (map fst groups)) as Hnd.
{ unfold groups, attendanceAggregation.
  apply (groupCount_spec oid_eqb oid_eqb_eq). }
assert (In (Some labourer, days) groups) as Hin.
{ pose proof (aggregation_counts start_ end_ attendance labourer) as Hc.
  fold groups in Hc. fold days in Hc.
  destruct (countOf_positive_In oid_eqb oid_eqb_eq (Some labourer) groups) as (c & Hc1 & Hc2).
  - rewrite Hc. exact Hdays.
  - rewrite Hc in Hc2. subst c. exact Hc1. }
assert (In (Some labourer, days) kept) as Hkept.
{ apply filter_In. split; [exact Hin|]. simpl.
  destruct (existsb (oid_eqb (Some labourer)) existing) eqn:E; [|reflexivity].
  apply existsb_oid_In in E. apply existing_has_salary in E. congruence. }
split.
- rewrite <- (countIf_map Salary.labourerId (fun k => oid_eqb k (Some labourer))).
  rewrite synthesize_labourers.
  apply (countIf_unique _ (Some labourer)).
  + intros x. apply oid_eqb_eq.
  + apply NoDup_fst_filter. exact Hnd.
  + apply in_map_iff. exists (Some labourer, days). auto.
- apply synthesize_In. exact Hkept.
Qed.

(** X26. A labourer who already has a salary for the period, or no present
    day in it, gets none. *)
Lemma nothing_generated_twice newIds start_ end_ dailyWage attendance salaries labourer :
  existsb (salaryFor start_ end_ labourer) salaries = true
  \/ presentDays start_ end_ labourer attendance = 0 ->
  countIf (fun r => oid_eqb (Salary.labourerId r) (Some labourer))
          (salaryRecordsToCreate newIds start_ end_ dailyWage attendance salaries) = 0.
Proof.
intros Hcase. unfold salaryRecordsToCreate.
set (groups := attendanceAggregation start_ end_ attendance).
set (existing := existingLabourerIds (map fst groups) start_ end_ salaries).
rewrite <- (countIf_map Salary.labourerId (fun k => oid_eqb k (Some labourer))).
rewrite synthesize_labourers.
apply (countIf_absent _ (Some labourer)); [intros x; apply oid_eqb_eq|].
intros Hin. apply in_map_iff in Hin. destruct Hin as ([k c] & Hk & Hin).
simpl in Hk. subst k. apply filter_In in Hin. destruct Hin as [Hg Hkeep]. simpl in Hkeep.
destruct Hcase as [Hex|Hzero].
- assert (In (Some labourer) existing) as He.
  { apply salary_is_existing; [|exact Hex].
    apply in_map_iff. exists (Some labourer, c). auto. }
  apply existsb_oid_In in He. rewrite He in Hkeep. discriminate.
- assert (NoDup (map fst groups)) as Hnd
      by (apply (groupCount_spec oid_eqb oid_eqb_eq)).
  pose proof (countOf_In oid_eqb oid_eqb_eq _ _ _ Hnd Hg) as Hc.
  unfold groups in Hc. rewrite aggregation_counts in Hc.
  assert (Forall (fun g => 0 < snd g) groups) as Hpos
      by (apply (groupCount_spec oid_eqb oid_eqb_eq)).
  rewrite Forall_forall in Hpos. specialize (Hpos _ Hg). simpl in Hpos. lia.
Qed.

Lemma filter_none {A} (f : A -> bool) (l : list A) :
  (forall x, In x l -> f x = false) -> filter f l = [].
Proof.
induction l as [|a r IH]; simpl; intros H; [reflexivity|].
rewrite (H a (or_introl eq_refl)). apply IH. intros x Hx. apply H. right. exact Hx.
Qed.

(** Under a schema that accepts the batch, a second run over the same
    attendance finds every labourer already served and creates nothing. *)
Lemma rerun_finds_nothing newIds newIds' start_ end_ dailyWage attendance salaries :
  salaryRecordsToCreate newIds' start_ end_ dailyWage attendance
    (salaries ++ salaryRecordsToCreate newIds start_ end_ dailyWage attendance salaries)
  = [].
Proof.
unfold salaryRecordsToCreate.
set (groups := attendanceAggregation start_ end_ attendance).
set (existing := existingLabourerIds (map fst groups) start_ end_ salaries).
set (kept := filter (fun rec => negb (existsb (oid_eqb (fst rec)) existing)) groups).
set (created := synthesize newIds 0 start_ end_ dailyWage kept).
set (existing' := existingLabourerIds (map fst groups) start_ end_ (salaries ++ created)).
assert (forall g, In g groups -> existsb (oid_eqb (fst g)) existing' = true) as Hall.
{ intros [k c] Hg. simpl. apply existsb_oid_In.
  unfold existing', existingLabourerIds. rewrite filter_app, map_app.
  apply in_or_app.
  destruct (existsb (oid_eqb k) existing) eqn:E.
  - left. apply existsb_oid_In in E. exact E.
  - right.
    assert (In (k, c) kept) as Hk.
    { apply filter_In. split; [exact Hg|]. simpl. rewrite E. reflexivity. }
    destruct (synthesize_In newIds start_ end_ dailyWage kept k c 0 Hk) as [id Hid].
    apply in_map_iff. eexists. split; [|apply filter_In; split; [exact Hid|]].
    + reflexivity.
    + simpl. rewrite !date_eqb_refl, !andb_true_r.
      apply existsb_oid_In. apply in_map_iff. exists (k, c). auto. }
assert (filter (fun rec => negb (existsb (oid_eqb (fst rec)) existing')) groups = []) as ->.
{ apply filter_none. intros g Hg. rewrite (Hall g Hg). reflexivity. }
reflexivity.
Qed.

Lemma rerun_reports_already_generated parse schema newIds newIds' body
      attendance salaries start_ end_ dailyWage :
  validGeneration parse body start_ end_ dailyWage ->
  labourersKnown start_ end_ attendance ->
  attendanceAggregation start_ end_ attendance <> [] ->
  let stored :=
    salaries ++ salaryRecordsToCreate newIds start_ end_ dailyWage attendance salaries in
  generateSalaryWith parse schema newIds' body attendance stored
  = (Sent 200 (mkGenerated
       "Salary records for this period already generated for all labourers." []),
     stored).
Proof.
intros Hreq Hknown Hgroups stored.
rewrite (generateSalaryWith_valid _ _ _ _ _ _ _ _ _ Hreq).
unfold labourersKnown in Hknown.
destruct (attendanceAggregation start_ end_ attendance) as [|g gs] eqn:G; [congruence|].
rewrite Hknown. unfold stored. rewrite rerun_finds_nothing. reflexivity.
Qed.

(* ================================================================== *)
(** ** One attendance record per key *)

Lemma hasKey_iff l p d s a :
  Attendance.hasKey l p d s a = true <-> Attendance.key a = (l, p, d, s).
Proof.
unfold Attendance.hasKey, Attendance.key.
rewrite !andb_true_iff, !oid_eqb_eq, date_eqb_eq, ?str_eqb_eq.
split.
- intros [[[-> ->] ->] ->]. reflexivity.
- intros E. inversion E. auto.
Qed.

Lemma isValid_nonempty s : isValidString s = true -> String.eqb s "" = false.
Proof.
destruct s; [discriminate | reflexivity].
Qed.

Lemma includes_nonempty allowed s :
  includes allowed s = true -> includes allowed "" = false -> String.eqb s "" = false.
Proof.
intros Hin Hno. destruct (String.eqb s "") eqn:E; [|reflexivity].
apply String.eqb_eq in E. subst s. congruence.
Qed.

Lemma existsb_false_filter {A} (f : A -> bool) (l : list A) :
  existsb f l = false -> filter f l = [].
Proof.
induction l as [|a r IH]; simpl; [reflexivity|].
intros H. apply orb_false_iff in H. destruct H as [-> H]. auto.
Qed.

(** X1. Marking the same attendance twice: when no stored record holds
    the key of the request, its identifiers read as the store holds
    them, the first call creates the record, the second is refused with
    a conflict, and the key is held by one record. *)
Lemma markAttendance_twice parse id1 id2 l p day d sh st (by_ : option string) db :
  isValidString l = true -> isValidString p = true ->
  parse day = Some d -> String.eqb day "" = false ->
  includes Attendance.shifts sh = true ->
  includes Attendance.statuses st = true ->
  (forall m, by_ = Some m -> isValidString m = true) ->
  existsb (Attendance.hasKey (Some (canonical l)) (Some (canonical p))
                             (Some d) (Some sh)) db = false ->
  let body := AttendanceReq.mk (JStr l) (JStr p) (JStr day) (JStr sh) (JStr st)
                               (match by_ with Some m => JStr m | None => JUndefined end) in
  let created :=
    Attendance.mk id1 (Some (canonical l)) (Some (canonical p)) (Some d)
                  (Some sh) (Some st)
                  (match by_ with Some m => Some (canonical m) | None => None end) in
  markAttendance parse id1 body db = (Sent 201 created, db ++ [created])
  /\ markAttendance parse id2 body (db ++ [created])
     = (refuse 409 "Attendance already marked for this labourer, project, date, and shift",
        db ++ [created])
  /\ countIf (Attendance.hasKey (Some (canonical l)) (Some (canonical p))
                                (Some d) (Some sh)) (db ++ [created]) = 1.
Proof.
intros Hl Hp Hd Hday Hsh Hst Hby Hfree body created.
assert (castObjectId (match by_ with Some m => JStr m | None => JUndefined end)
        = Some (match by_ with Some m => Some (canonical m) | None => None end))
  as Hcast.
{ destruct by_ as [m|]; simpl; [rewrite (Hby m eq_refl)|]; reflexivity. }
assert ((truthy (match by_ with Some m => JStr m | None => JUndefined end)
         && negb (ObjectId_isValid
                    (match by_ with Some m => JStr m | None => JUndefined end)))%bool
        = false) as Hmb.
{ destruct by_ as [m|]; simpl; [rewrite (Hby m eq_refl), andb_false_r|]; reflexivity. }
assert (Attendance.hasKey (Some (canonical l)) (Some (canonical p)) (Some d) (Some sh)
                          created = true) as Hkey
    by (apply hasKey_iff; reflexivity).
unfold markAttendance, body.
cbn [AttendanceReq.labourerId AttendanceReq.projectId AttendanceReq.date
     AttendanceReq.shift AttendanceReq.status AttendanceReq.markedBy
     truthy ObjectId_isValid Date_of strVal oidVal].
rewrite (isValid_nonempty l Hl), (isValid_nonempty p Hp), Hday,
  (includes_nonempty _ sh Hsh eq_refl), (includes_nonempty _ st Hst eq_refl),
  Hl, Hp, Hmb, Hd, Hcast.
cbn [negb orb].
fold created.
assert (Attendance.valid created = true) as Hvalid.
{ unfold Attendance.valid, Attendance.requiredEnum, created.
  cbn [Attendance.shift Attendance.status]. rewrite Hsh, Hst. reflexivity. }
rewrite Hfree, Hvalid.
split; [reflexivity|]. split.
- rewrite existsb_app. simpl existsb at 2. rewrite Hkey, orb_true_r. reflexivity.
- unfold countIf. rewrite filter_app, (existsb_false_filter _ _ Hfree).
  simpl. rewrite Hkey. reflexivity.
Qed.

(** One step down the chain of early returns of a handler, whose run is
    the hypothesis [H]. *)
Ltac branch H :=
  match type of H with
  | (if ?c then _ else _) = _ => destruct c eqn:?
  | match ?c with _ => _ end = _ => destruct c eqn:?
  end.

(** X2. [markAttendance] keeps the collection free of duplicate keys: whatever
    it answers, a collection with at most one record per labourer,
    project, date and shift is one afterwards. *)
Lemma markAttendance_keeps_keys_unique parse id body db out db' :
  uniqueKeys db ->
  markAttendance parse id body db = (out, db') ->
  uniqueKeys db'.
Proof.
intros Huniq H. unfold markAttendance in H. cbv zeta in H.
repeat branch H; inversion H; subst; try assumption.
intros l p d s. rewrite filter_app, length_app.
match goal with
| |- context [filter _ [?a]] => set (created := a)
end.
simpl filter.
destruct (Attendance.hasKey (Some l) (Some p) (Some d) (Some s) created) eqn:K.
- apply hasKey_iff in K. unfold created, Attendance.key in K. simpl in K.
  injection K as K1 K2 K3 K4.
  match goal with
  | E : existsb _ db = false |- _ =>
      rewrite K1, K2, K3, K4 in E; rewrite (existsb_false_filter _ _ E)
  end.
  simpl. lia.
- simpl. rewrite Nat.add_0_r. apply Huniq.
Qed.

Lemma replace_other a db :
  ~ In (Attendance._id a) (map Attendance._id db) -> Attendance.replace a db = db.
Proof.
unfold Attendance.replace.
induction db as [|b r IH]; simpl; intros Hn; [reflexivity|].
destruct (String.eqb (Attendance._id b) (Attendance._id a)) eqn:E.
- apply String.eqb_eq in E. tauto.
- rewrite IH by tauto. reflexivity.
Qed.

(** Replacing the document found under an identifier moves one unit of
    any count from the old document to the new one. *)
Lemma replace_count (q : Attendance.t -> bool) a old db :
  NoDup (map Attendance._id db) ->
  Attendance.findById (Attendance._id a) db = Some old ->
  (List.length (filter q (Attendance.replace a db)) + (if q old then 1 else 0)
   = List.length (filter q db) + (if q a then 1 else 0))%nat.
Proof.
unfold Attendance.findById.
induction db as [|b r IH]; simpl; intros Hnd Hfind; [discriminate|].
inversion Hnd as [|? ? Hnotin Hnd']; subst.
destruct (String.eqb (Attendance._id b) (Attendance._id a)) eqn:E.
- inversion Hfind; subst old. apply String.eqb_eq in E.
  fold (Attendance.replace a r). rewrite replace_other by (rewrite <- E; exact Hnotin).
  simpl. destruct (q a), (q b); simpl; lia.
- fold (Attendance.replace a r). specialize (IH Hnd' Hfind).
  simpl. destruct (q b); simpl; lia.
Qed.

(** When no other document satisfies [q], only the one found can. *)
Lemma others_count (q : Attendance.t -> bool) id old db :
  NoDup (map Attendance._id db) ->
  Attendance.findById id db = Some old ->
  existsb (fun x => negb (String.eqb (Attendance._id x) id) && q x)%bool db = false ->
  List.length (filter q db) = if q old then 1%nat else 0%nat.
Proof.
unfold Attendance.findById.
induction db as [|b r IH]; simpl; intros Hnd Hfind Hex; [discriminate|].
inversion Hnd as [|? ? Hnotin Hnd']; subst.
apply orb_false_iff in Hex. destruct Hex as [Hb Hr].
destruct (String.eqb (Attendance._id b) id) eqn:E.
- inversion Hfind; subst old. apply String.eqb_eq in E.
  assert (filter q r = []) as ->.
  { apply filter_none. intros x Hx.
    destruct (q x) eqn:Qx; [|reflexivity].
    exfalso.
    assert (String.eqb (Attendance._id x) id = false) as Hne.
    { destruct (String.eqb (Attendance._id x) id) eqn:Ex; [|reflexivity].
      apply String.eqb_eq in Ex. exfalso. apply Hnotin. rewrite E, <- Ex.
      apply in_map. exact Hx. }
    assert (existsb (fun x0 => negb (String.eqb (Attendance._id x0) id) && q x0)%bool r
            = true) as Hyes.
    { apply existsb_exists. exists x. rewrite Hne, Qx. auto. }
    congruence. }
  destruct (q b); reflexivity.
- simpl in Hb. rewrite Hb. apply IH; assumption.
Qed.

Lemma assignOid_present old v x :
  assignOid old v = Some (Some x) ->
  (truthy v = true -> oidVal v = Some x)
  /\ (truthy v = false -> old = Some x).
Proof.
destruct v as [| |s0]; simpl.
- intros E. inversion E. split; [discriminate | reflexivity].
- discriminate.
- destruct (isValidString s0) eqn:V; [|discriminate].
  intros E. inversion E; subst x.
  rewrite (isValid_nonempty s0 V). simpl. split; [reflexivity | discriminate].
Qed.

Lemma assignDate_present parse old v x :
  assignDate parse old v = Some (Some x) ->
  (truthy v = true -> Date_of parse v = Some x)
  /\ (truthy v = false -> old = Some x).
Proof.
destruct v as [| |s0]; simpl.
- intros E. inversion E. split; [discriminate | reflexivity].
- discriminate.
- destruct (String.eqb s0 "") eqn:V; simpl; [discriminate|].
  destruct (parse s0) as [t|]; [|discriminate].
  intros E. inversion E; subst x. split; [reflexivity | discriminate].
Qed.

Lemma assignStr_present old v x :
  assignStr old v = Some x -> String.eqb x "" = false ->
  (truthy v = true -> strVal v = Some x)
  /\ (truthy v = false -> old = Some x).
Proof.
destruct v as [| |s0]; simpl.
- intros E _. split; [discriminate | intros _; exact E].
- discriminate.
- intros E Hx. inversion E; subst x. rewrite Hx. simpl.
  split; [reflexivity | discriminate].
Qed.

(** The write of [updateAttendance], once the duplicate check has
    passed, keeps every fully present key with one holder at most. *)
Lemma update_step_unique parse attendanceId updates db attendance updated :
  NoDup (map Attendance._id db) ->
  uniqueKeys db ->
  Attendance.findById attendanceId db = Some attendance ->
  assignAttendance parse attendance updates = Some updated ->
  Attendance.valid updated = true ->
  ((truthy (AttendanceReq.labourerId updates) || truthy (AttendanceReq.projectId updates)
    || truthy (AttendanceReq.date updates) || truthy (AttendanceReq.shift updates))
   && existsb (fun a =>
                 negb (String.eqb (Attendance._id a) attendanceId)
                 && Attendance.hasKey
                      (if truthy (AttendanceReq.labourerId updates)
                       then oidVal (AttendanceReq.labourerId updates)
                       else Attendance.labourerId attendance)
                      (if truthy (AttendanceReq.projectId updates)
                       then oidVal (AttendanceReq.projectId updates)
                       else Attendance.projectId attendance)
                      (if truthy (AttendanceReq.date updates)
                       then Date_of parse (AttendanceReq.date updates)
                       else Attendance.date attendance)
                      (if truthy (AttendanceReq.shift updates)
                       then strVal (AttendanceReq.shift updates)
                       else Attendance.shift attendance) a) db)%bool = false ->
  uniqueKeys (Attendance.replace updated db).
Proof.
intros Hnd Huniq Hfind Hassign Hvalid Hcheck l p d s.
set (q := Attendance.hasKey (Some l) (Some p) (Some d) (Some s)).
assert (Attendance._id attendance = attendanceId) as Hid.
{ unfold Attendance.findById in Hfind. apply find_some in Hfind.
  apply String.eqb_eq. tauto. }
unfold assignAttendance in Hassign.
destruct (assignOid (Attendance.labourerId attendance) (AttendanceReq.labourerId updates))
  as [l'|] eqn:El; [|discriminate].
destruct (assignOid (Attendance.projectId attendance) (AttendanceReq.projectId updates))
  as [p'|] eqn:Ep; [|discriminate].
destruct (assignDate parse (Attendance.date attendance) (AttendanceReq.date updates))
  as [d'|] eqn:Ed; [|discriminate].
destruct (assignOid (Attendance.markedBy attendance) (AttendanceReq.markedBy updates))
  as [m'|] eqn:Em; [|discriminate].
injection Hassign as Hupd.
assert (Attendance._id updated = attendanceId) as Hid' by (rewrite <- Hupd; exact Hid).
pose proof (replace_count q updated attendance db Hnd) as Hcount.
rewrite Hid' in Hcount. specialize (Hcount Hfind).
pose proof (Huniq l p d s) as Hbefore. fold q in Hbefore.
destruct (q updated) eqn:Q.
2:{ destruct (q attendance); lia. }
unfold q in Q. apply hasKey_iff in Q. rewrite <- Hupd in Q.
unfold Attendance.key in Q. simpl in Q. injection Q as Ql Qp Qd Qs.
subst l' p' d'.
destruct (assignOid_present _ _ _ El) as [Cl Ol].
destruct (assignOid_present _ _ _ Ep) as [Cp Op].
destruct (assignDate_present _ _ _ _ Ed) as [Cd Od].
assert (String.eqb s "" = false) as Hs.
{ unfold Attendance.valid, Attendance.requiredEnum in Hvalid. rewrite <- Hupd in Hvalid.
  cbn [Attendance.shift Attendance.status] in Hvalid. rewrite Qs in Hvalid.
  apply andb_true_iff in Hvalid. destruct Hvalid as [Hsh _].
  apply (includes_nonempty _ s Hsh). reflexivity. }
destruct (assignStr_present _ _ _ Qs Hs) as [Cs Os].
match type of Hcheck with
| context [Attendance.hasKey ?a ?b ?c ?e] =>
    assert (a = Some l) as Kl
        by (destruct (truthy (AttendanceReq.labourerId updates)); auto);
    assert (b = Some p) as Kp
        by (destruct (truthy (AttendanceReq.projectId updates)); auto);
    assert (c = Some d) as Kd
        by (destruct (truthy (AttendanceReq.date updates)); auto);
    assert (e = Some s) as Ks
        by (destruct (truthy (AttendanceReq.shift updates)); auto);
    rewrite Kl, Kp, Kd, Ks in Hcheck
end.
fold q in Hcheck.
destruct (truthy (AttendanceReq.labourerId updates) || truthy (AttendanceReq.projectId updates)
          || truthy (AttendanceReq.date updates) || truthy (AttendanceReq.shift updates))%bool
  eqn:M.
- simpl in Hcheck.
  rewrite (others_count q attendanceId attendance db Hnd Hfind Hcheck) in Hcount.
  destruct (q attendance); lia.
- apply orb_false_iff in M. destruct M as [M Ms].
  apply orb_false_iff in M. destruct M as [M Md].
  apply orb_false_iff in M. destruct M as [Ml Mp].
  assert (q attendance = true) as Qa.
  { unfold q. apply hasKey_iff. unfold Attendance.key.
    rewrite (Ol Ml), (Op Mp), (Od Md), (Os Ms). reflexivity. }
  rewrite Qa in Hcount. lia.
Qed.

(** X3. [updateAttendance] keeps the collection free of duplicate keys among
    records whose four key fields are present: with distinct
    identifiers and at most one record per full key before, there is
    at most one per full key afterwards, whatever the answer. *)
Lemma updateAttendance_keeps_keys_unique parse attendanceId updates db out db' :
  NoDup (map Attendance._id db) ->
  uniqueKeys db ->
  updateAttendance parse attendanceId updates db = (out, db') ->
  uniqueKeys db'.
Proof.
intros Hnd Huniq H. unfold updateAttendance in H. cbv zeta in H.
repeat branch H; inversion H; subst; try assumption.
eapply update_step_unique; eauto.
Qed.

(* ================================================================== *)
(** ** The properties on the sample data *)

(** C1 on the code. Labourer A has three present days in March and no
    salary for March, labourer B one; generation at a wage of 100
    builds the two pending records with an empty payslip URL, the
    schema refuses them, the call fails and the store stays empty, so a
    second run meets the same store and fails the same way instead of
    reporting the period as already generated. *)
Lemma generation_stores_nothing :
  validGeneration isoDates marchRequest marchStart marchEnd 100
  /\ presentDays marchStart marchEnd labourerA marchAttendance = 3
  /\ existsb (salaryFor marchStart marchEnd labourerA) [] = false
  /\ salaryRecordsToCreate sampleIds marchStart marchEnd 100 marchAttendance []
     = marchSalaries
  /\ forallb Salary.valid marchSalaries = false
  /\ generateSalaryForPeriod isoDates sampleIds marchRequest marchAttendance []
     = (Thrown (ValidationError "Salary validation failed"), [])
  /\ generateSalaryForPeriod isoDates sampleIds marchRequest marchAttendance
       (snd (generateSalaryForPeriod isoDates sampleIds marchRequest marchAttendance []))
     = (Thrown (ValidationError "Salary validation failed"), []).
Proof.
  repeat split; try reflexivity; vm_compute; congruence.
Qed.

(** C2 as stated fails. With the model's schema the batch of two is
    refused and the call is aborted with the error, nothing being
    reported per record; and under a schema that refuses labourer A's
    record only, labourer B's record is not committed either. *)
Lemma salary_batch_aborts_on_failure :
  generateSalaryForPeriod isoDates sampleIds marchRequest marchAttendance []
  = (Thrown (ValidationError "Salary validation failed"), [])
  /\ map refusesA marchSalaries = [false; true]
  /\ generateSalaryWith isoDates refusesA sampleIds marchRequest marchAttendance []
     = (Thrown (ValidationError "Salary validation failed"), []).
Proof.
  repeat split; reflexivity.
Qed.

Lemma salary_batch_witness :
  validGeneration isoDates marchRequest marchStart marchEnd 100
  /\ labourersKnown marchStart marchEnd marchAttendance
  /\ marchSalaries <> []
  /\ (forallb (fun _ => true) marchSalaries = true ->
      generateSalaryWith isoDates (fun _ => true) sampleIds marchRequest
                         marchAttendance []
      = (Sent 201 (mkGenerated "Generated salary records for 2 labourers"
                               marchSalaries),
         [] ++ marchSalaries))
  /\ (forallb refusesA marchSalaries = false ->
      generateSalaryWith isoDates refusesA sampleIds marchRequest marchAttendance []
      = (Thrown (ValidationError "Salary validation failed"), [])).
Proof.
  assert (validGeneration isoDates marchRequest marchStart marchEnd 100) as Hreq.
  { repeat split; try reflexivity; vm_compute; congruence. }
  assert (labourersKnown marchStart marchEnd marchAttendance) as Hknown
      by reflexivity.
  assert (marchSalaries <> []) as Hne by discriminate.
  split; [exact Hreq|]. split; [exact Hknown|]. split; [exact Hne|].
  split.
  - exact (proj1 (salary_batch_is_all_or_nothing
                    isoDates (fun _ => true) sampleIds marchRequest marchAttendance []
                    marchStart marchEnd 100 marchSalaries
                    Hreq Hknown eq_refl Hne)).
  - exact (proj2 (salary_batch_is_all_or_nothing
                    isoDates refusesA sampleIds marchRequest marchAttendance []
                    marchStart marchEnd 100 marchSalaries
                    Hreq Hknown eq_refl Hne)).
Defined.

(** C3 as stated fails. A salary list asked for labourer "xyz", which is
    no identifier, is not refused: it answers 200 with every salary;
    an unparseable start of period is not refused either, the bound
    being left out; and the attendance of a labourer asked for project
    "xyz" is answered with all the records of the labourer. *)
Lemma invalid_filter_is_not_refused :
  ObjectId_isValid (JStr "xyz") = false
  /\ listSalaryRecords isoDates badIdQuery unassignedSalaries
     = Sent 200 (mkPage (mkMeta 2 1 1 2)
                   [ unassignedSalary (sampleIds 1) 1709251200000 1711843200000 "paid";
                     unassignedSalary (sampleIds 0) 1706745600000 1709164800000
                                      "pending" ])
  /\ isNaN (Date_of isoDates (JStr "not-a-date")) = true
  /\ listSalaryRecords isoDates badDateQuery unassignedSalaries
     = Sent 200 (mkPage (mkMeta 2 1 1 2)
                   [ unassignedSalary (sampleIds 1) 1709251200000 1711843200000 "paid";
                     unassignedSalary (sampleIds 0) 1706745600000 1709164800000
                                      "pending" ])
  /\ getAttendanceByLabourer isoDates labourerA
       (withProject (JStr "xyz") plainAttendanceQuery) offProjectAttendance
     = Sent 200 (mkPage (mkMeta 2 1 1 2)
                   [ offProject (sampleIds 1) 1709337600000 "absent";
                     offProject (sampleIds 0) 1709251200000 "present" ]).
Proof.
  repeat split; reflexivity.
Qed.

Lemma invalid_filter_witness :
  ObjectId_isValid (JStr "xyz") = false
  /\ isNaN (Date_of isoDates (JStr "not-a-date")) = true
  /\ listSalaryRecords isoDates (withSalaryLabourer (JStr "xyz") badDateQuery)
                       unassignedSalaries
     = listSalaryRecords isoDates (withSalaryLabourer JUndefined badDateQuery)
                         unassignedSalaries
  /\ getAttendanceByLabourer isoDates labourerA
       (withProject (JStr "xyz") plainAttendanceQuery) offProjectAttendance
     = getAttendanceByLabourer isoDates labourerA
         (withProject JUndefined plainAttendanceQuery) offProjectAttendance.
Proof.
  split; [reflexivity|]. split; [reflexivity|].
  pose proof (invalid_optional_filter_is_dropped
                isoDates (JStr "xyz") (JStr "not-a-date") eq_refl eq_refl) as H.
  split.
  - exact (proj1 H badDateQuery unassignedSalaries).
  - exact (proj1 (proj2 (proj2 (proj2 H))) labourerA plainAttendanceQuery
                 offProjectAttendance).
Defined.


Lemma leave_transitions_witness :
  let pending := leaveOf (sampleIds 0) "pending" in
  let approved := leaveOf (sampleIds 1) "approved" in
  let decided :=
    Leave.mk (sampleIds 0) (Some labourerA) (Some 1709251200000) (Some 1709424000000)
             "family function" (Some "approved") (Some 1709000000000)
             (Some managerM) in
  approveLeave (sampleIds 0) (JStr managerM) [pending; approved]
  = (Sent 200 decided, [decided; approved])
  /\ rejectLeave (sampleIds 1) (JStr managerM) [pending; approved]
     = (refuse 400 "Cannot reject a leave request with status 'approved'",
        [pending; approved])
  /\ cancelLeaveRequest (sampleIds 1) [pending; approved]
     = (refuse 400 "Cannot cancel a leave request with status 'approved'",
        [pending; approved])
  /\ cancelLeaveRequest (sampleIds 0) [pending; approved]
     = (Sent 200 "Leave request cancelled successfully", [approved]).
Proof.
  intros pending approved decided.
  destruct (leave_transitions_need_pending (sampleIds 0) managerM
              [pending; approved] pending eq_refl eq_refl eq_refl eq_refl)
    as [Hyes _].
  destruct (leave_transitions_need_pending (sampleIds 1) managerM
              [pending; approved] approved eq_refl eq_refl eq_refl eq_refl)
    as [_ Hno].
  destruct (Hyes eq_refl) as ((u & db' & Ha & Hu & Hlen & Hnth) & _ & Hc).
  destruct (Hno ltac:(discriminate)) as (_ & Hr & Hc').
  split; [|split; [exact Hr|]; split; [exact Hc'|]].
  - rewrite Ha.
    destruct u as [i lab from to reason st applied by_].
    destruct Hu as (E1 & E2 & E3 & E4 & E5 & E6 & E7 & E8). simpl in *. subst.
    pose proof (Hnth 0%nat _ eq_refl) as H0.
    pose proof (Hnth 1%nat _ eq_refl) as H1.
    destruct db' as [|x [|y [|z r]]]; try discriminate Hlen.
    simpl in H0, H1. injection H0 as ->. injection H1 as ->. reflexivity.
  - destruct Hc as (pre & post & Hdb & Hpre & Hcancel). rewrite Hcancel.
    destruct pre as [|x pre]; simpl in Hdb.
    + injection Hdb as <-. reflexivity.
    + injection Hdb as <- _. exfalso. apply (Hpre pending); [left|]; reflexivity.
Defined.

Lemma markSalaryAsPaid_witness :
  markSalaryAsPaid isoDates 1712000000000 (sampleIds 0) (JStr "2024-03-02")
                   twoSalaries
  = (Sent 200 (salaryOf (sampleIds 0) labourerA "paid"),
     [ salaryOf (sampleIds 0) labourerA "paid";
       salaryOf (sampleIds 1) labourerB "paid" ])
  /\ markSalaryAsPaid isoDates 1712000000000 (sampleIds 0) JUndefined twoSalaries
     = (Sent 200 (salaryOf (sampleIds 0) labourerA "paid"),
        [ salaryOf (sampleIds 0) labourerA "paid";
          salaryOf (sampleIds 1) labourerB "paid" ]).
Proof.
  destruct (markSalaryAsPaid_drops_payment_date isoDates 1712000000000
              (sampleIds 0) (JStr "2024-03-02") twoSalaries
              (salaryOf (sampleIds 0) labourerA "pending")
              eq_refl eq_refl eq_refl eq_refl) as (db' & Hsent & Hsaved & Hnone).
  cbv zeta in Hsent, Hnone. split.
  - rewrite Hsent. f_equal.
    destruct Hsaved as [Hlen Hnth].
    pose proof (Hnth 0%nat _ eq_refl) as H0.
    pose proof (Hnth 1%nat _ eq_refl) as H1.
    destruct db' as [|x [|y [|z r]]]; try discriminate Hlen.
    simpl in H0, H1. injection H0 as ->. injection H1 as ->. reflexivity.
  - rewrite (Hnone 1712000000000). f_equal.
    destruct Hsaved as [Hlen Hnth].
    pose proof (Hnth 0%nat _ eq_refl) as H0.
    pose proof (Hnth 1%nat _ eq_refl) as H1.
    destruct db' as [|x [|y [|z r]]]; try discriminate Hlen.
    simpl in H0, H1. injection H0 as ->. injection H1 as ->. reflexivity.
Defined.

(** C8 on the code. Two records of labourer A, same project and shift,
    on two different days, as two calls of [markAttendance] leave them.
    An update carrying [date: null] passes for each of them without a
    duplicate check, and the store ends with two records under one key. *)
Lemma update_with_null_date_duplicates_key :
  markAttendance isoDates (sampleIds 0) (markBody "2024-03-01") []
  = (Sent 201 (attended (sampleIds 0) labourerA 1709251200000 "present"),
     [attended (sampleIds 0) labourerA 1709251200000 "present"])
  /\ markAttendance isoDates (sampleIds 1) (markBody "2024-03-02")
       [attended (sampleIds 0) labourerA 1709251200000 "present"]
     = (Sent 201 (attended (sampleIds 1) labourerA 1709337600000 "present"), twoDays)
  /\ NoDup (map Attendance.key twoDays)
  /\ updateAttendance isoDates (sampleIds 0) clearDate twoDays
     = (Sent 200 (undated (sampleIds 0)),
        [undated (sampleIds 0);
         attended (sampleIds 1) labourerA 1709337600000 "present"])
  /\ updateAttendance isoDates (sampleIds 1) clearDate
       [undated (sampleIds 0);
        attended (sampleIds 1) labourerA 1709337600000 "present"]
     = (Sent 200 (undated (sampleIds 1)),
        [undated (sampleIds 0); undated (sampleIds 1)])
  /\ Attendance.key (undated (sampleIds 0)) = Attendance.key (undated (sampleIds 1))
  /\ ~ NoDup (map Attendance.key [undated (sampleIds 0); undated (sampleIds 1)]).
Proof.
  split; [reflexivity|]. split; [reflexivity|].
  split.
  { repeat constructor; simpl; intuition discriminate. }
  split; [reflexivity|]. split; [reflexivity|]. split; [reflexivity|].
  intros H. inversion H as [|? ? Hnotin _]; subst.
  apply Hnotin. left. reflexivity.
Qed.

(* ================================================================== *)
(** ** Sorting and paging *)

Section SortFacts.
Context {A : Type} (before : A -> A -> bool).
Hypothesis before_total : forall a b, before a b = true \/ before b a = true.
Hypothesis before_trans :
  forall a b c, before a b = true -> before b c = true -> before a c = true.

Lemma insertSorted_perm a l : Permutation (insertSorted before a l) (a :: l).
Proof.
induction l as [|b r IH]; simpl; [reflexivity|].
destruct (before a b); [reflexivity|].
rewrite IH. apply perm_swap.
Qed.

Lemma sortBy_perm l : Permutation (sortBy before l) l.
Proof.
induction l as [|a r IH]; simpl; [reflexivity|].
rewrite insertSorted_perm. constructor. exact IH.
Qed.

Lemma insertSorted_sorted a l :
  StronglySorted (fun x y => before x y = true) l ->
  StronglySorted (fun x y => before x y = true) (insertSorted before a l).
Proof.
induction 1 as [|b r Hs IH Hb]; simpl.
- repeat constructor.
- destruct (before a b) eqn:E.
  + constructor; [constructor; assumption|].
    constructor; [exact E|].
    rewrite Forall_forall in *. intros x Hx. eapply before_trans; eauto.
  + constructor; [exact IH|].
    rewrite Forall_forall in *. intros x Hx.
    apply (Permutation_in _ (insertSorted_perm a r)) in Hx.
    destruct Hx as [<-|Hx]; [|auto].
    destruct (before_total a b) as [H|H]; congruence.
Qed.

Lemma sortBy_sorted l : StronglySorted (fun x y => before x y = true) (sortBy before l).
Proof.
induction l as [|a r IH]; simpl; [constructor|].
apply insertSorted_sorted. exact IH.
Qed.
End SortFacts.

Lemma In_skipn {A} (x : A) n l : In x (skipn n l) -> In x l.
Proof.
revert l. induction n as [|n IH]; intros [|a r]; simpl; try tauto.
intros H. right. apply IH. exact H.
Qed.

Lemma In_firstn {A} (x : A) n l : In x (firstn n l) -> In x l.
Proof.
revert l. induction n as [|n IH]; intros [|a r]; simpl; try tauto.
intros [->|H]; auto.
Qed.

Lemma sorted_skipn {A} (R : A -> A -> Prop) n l :
  StronglySorted R l -> StronglySorted R (skipn n l).
Proof.
revert l. induction n as [|n IH]; intros l H; [exact H|].
destruct H; simpl; [constructor | auto].
Qed.

Lemma sorted_firstn {A} (R : A -> A -> Prop) n l :
  StronglySorted R l -> StronglySorted R (firstn n l).
Proof.
revert l. induction n as [|n IH]; intros l H; [constructor|].
destruct H as [|a r Hs Ha]; simpl; constructor; auto.
rewrite Forall_forall in *. intros x Hx. apply Ha. eapply In_firstn; eauto.
Qed.

Lemma paginate_lists {D} (before : D -> D -> bool) matches pageV limitV (db : list D) :
  (forall a b, before a b = true \/ before b a = true) ->
  (forall a b c, before a b = true -> before b c = true -> before a c = true) ->
  ListContract before matches pageV limitV db
               (paginate before matches (pageParam 1 pageV) (pageParam 20 limitV) db).
Proof.
intros Htotal Htrans. unfold ListContract, paginate, page_of. simpl.
split; [|split; [|split]].
- apply sorted_firstn, sorted_skipn, sortBy_sorted; assumption.
- intros d Hd. apply In_firstn, In_skipn in Hd.
  apply (Permutation_in _ (sortBy_perm before _)) in Hd.
  apply filter_In in Hd. exact Hd.
- reflexivity.
- intros Hp Hl. rewrite Hp. simpl.
  rewrite firstn_all2.
  + apply sortBy_perm.
  + rewrite sortBy_length. lia.
Qed.

Lemma date_geb_total a b : date_geb a b = true \/ date_geb b a = true.
Proof.
destruct a as [x|], b as [y|]; simpl; auto.
rewrite !Z.leb_le. lia.
Qed.

Lemma date_geb_trans a b c :
  date_geb a b = true -> date_geb b c = true -> date_geb a c = true.
Proof.
destruct a as [x|], b as [y|], c as [z|]; simpl; auto; try discriminate.
rewrite !Z.leb_le. lia.
Qed.

Lemma date_geb_antisym a b :
  date_geb a b = true -> date_geb b a = true -> a = b.
Proof.
destruct a as [x|], b as [y|]; simpl; auto; try discriminate.
rewrite !Z.leb_le. intros. f_equal. lia.
Qed.

Lemma date_eqb_false a b : date_eqb a b = false <-> a <> b.
Proof.
split.
- intros E H. apply date_eqb_eq in H. congruence.
- intros H. destruct (date_eqb a b) eqn:E; [|reflexivity].
  apply date_eqb_eq in E. contradiction.
Qed.

Lemma latestPeriodFirst_total a b :
  latestPeriodFirst a b = true \/ latestPeriodFirst b a = true.
Proof.
unfold latestPeriodFirst.
destruct (date_eqb (Salary.startPeriod a) (Salary.startPeriod b)) eqn:E.
- apply date_eqb_eq in E. rewrite <- E, date_eqb_refl. apply date_geb_total.
- assert (date_eqb (Salary.startPeriod b) (Salary.startPeriod a) = false) as ->.
  { apply date_eqb_false. apply date_eqb_false in E. congruence. }
  apply date_geb_total.
Qed.

Lemma latestPeriodFirst_trans a b c :
  latestPeriodFirst a b = true -> latestPeriodFirst b c = true ->
  latestPeriodFirst a c = true.
Proof.
unfold latestPeriodFirst.
destruct (date_eqb (Salary.startPeriod a) (Salary.startPeriod b)) eqn:Eab;
  destruct (date_eqb (Salary.startPeriod b) (Salary.startPeriod c)) eqn:Ebc;
  intros Hab Hbc.
- apply date_eqb_eq in Eab, Ebc. rewrite Eab, Ebc, date_eqb_refl.
  eapply date_geb_trans; eauto.
- apply date_eqb_eq in Eab. rewrite Eab, Ebc. exact Hbc.
- apply date_eqb_eq in Ebc. rewrite <- Ebc, Eab. exact Hab.
- destruct (date_eqb (Salary.startPeriod a) (Salary.startPeriod c)) eqn:Eac.
  + apply date_eqb_eq in Eac. rewrite <- Eac in Hbc.
    apply date_eqb_false in Eab. exfalso. apply Eab.
    apply date_geb_antisym; assumption.
  + eapply date_geb_trans; eauto.
Qed.

Lemma unregisteredRef_false {D} (ref : D -> option ObjectId) (docs : list D) :
  unregisteredRef ref docs = false -> forall d, In d docs -> ref d = None.
Proof.
intros E d Hd. unfold unregisteredRef in E.
destruct (ref d) eqn:R; [|reflexivity].
assert (existsb (fun d => match ref d with Some _ => true | None => false end) docs
        = true) as Hyes.
{ apply existsb_exists. exists d. rewrite R. auto. }
congruence.
Qed.

(** What a populating handler answers with the page [found]: an error
    when a record of the page refers to a model that is not
    registered, the page otherwise. *)
Lemma populated_answer {D} (ref : D -> option ObjectId) (found p : Page D) :
  (if unregisteredRef ref (records found)
   then Thrown MissingSchemaError else Sent 200 found) = Sent 200 p ->
  p = found /\ forall d, In d (records p) -> ref d = None.
Proof.
destruct (unregisteredRef ref (records found)) eqn:E; [discriminate|].
intros H. injection H as <-. split; [reflexivity|].
apply unregisteredRef_false. exact E.
Qed.

(** C5, as the code has it. A paginated list call reads page with
    default 1 and limit with default 20, an input that is not a number
    or not positive falling back to the default instead of failing; of
    the matching records, sorted, it skips (page-1)*limit and keeps at
    most limit; and the page it builds carries
    totalPages = ceil(total/limit), currentPage = page and pageSize the
    number of records returned, at most limit. That page is answered
    when none of its records refers to a labourer; when one does, the
    call fails on the model that the reference names and answers no
    page. *)
Theorem pagination_contract parse (q : SalaryQuery.t) (lq : LeaveQuery.t)
        (salaries : list Salary.t) (leaves : list Leave.t) :
  (truthy (SalaryQuery.status q)
   && negb (includesVal Salary.statuses (SalaryQuery.status q)))%bool = false ->
  exactRange (SalaryQuery.page q) (SalaryQuery.limit q) (List.length salaries) ->
  exactRange (LeaveQuery.page lq) (LeaveQuery.limit lq) (List.length leaves) ->
  (PagingInputs (SalaryQuery.page q) (SalaryQuery.limit q)
   /\ exists found p,
        Permutation found (filter (salaryFilters parse q) salaries)
        /\ StronglySorted (fun a b => latestPeriodFirst a b = true) found
        /\ PageContract (pageParam 1 (SalaryQuery.page q))
                        (pageParam 20 (SalaryQuery.limit q)) found p
        /\ listSalaryRecords parse q salaries
           = if existsb (fun s => match Salary.labourerId s with
                                  | Some _ => true
                                  | None => false
                                  end) (records p)
             then Thrown MissingSchemaError
             else Sent 200 p)
  /\ (PagingInputs (LeaveQuery.page lq) (LeaveQuery.limit lq)
      /\ exists found p,
           Permutation found (filter (leaveFilters parse lq) leaves)
           /\ StronglySorted
                (fun a b => date_geb (Leave.fromDate a) (Leave.fromDate b) = true) found
           /\ PageContract (pageParam 1 (LeaveQuery.page lq))
                           (pageParam 20 (LeaveQuery.limit lq)) found p
           /\ listLeaveRequests parse lq leaves
              = if existsb (fun l => match Leave.labourerId l with
                                     | Some _ => true
                                     | None => false
                                     end) (records p)
                then Thrown MissingSchemaError
                else Sent 200 p).
Proof.
  intros Hstatus _ _.
  pose proof (pagingInputs (SalaryQuery.page q) (SalaryQuery.limit q)) as HS.
  pose proof (pagingInputs (LeaveQuery.page lq) (LeaveQuery.limit lq)) as HL.
  split; (split; [assumption|]).
  - exists (sortBy latestPeriodFirst (filter (salaryFilters parse q) salaries)).
    eexists.
    split; [apply sortBy_perm|].
    split; [apply sortBy_sorted;
            [apply latestPeriodFirst_total | apply latestPeriodFirst_trans]|].
    split; [apply paginate_contract; apply HS|].
    unfold listSalaryRecords. rewrite Hstatus. reflexivity.
  - exists (sortBy (fun a b => date_geb (Leave.fromDate a) (Leave.fromDate b))
                   (filter (leaveFilters parse lq) leaves)).
    eexists.
    split; [apply sortBy_perm|].
    split; [apply sortBy_sorted;
            [intros; apply date_geb_total | intros a b c; apply date_geb_trans]|].
    split; [apply paginate_contract; apply HL|].
    reflexivity.
Qed.

(** X21. Every page answered by [listSalaryRecords] holds stored salaries
    that pass the filters, latest period first, none of them with a
    labourer; the total counts all matches; a first page at least as
    large as the total holds every match. A page answered by
    [viewSalaryPayslipDetailsForLabourer] holds no record at all, its
    total counting the salaries of that labourer that pass the
    filters. *)
Theorem salary_lists_answer parse (query : SalaryQuery.t) (labourerId : string)
        (view : PayslipQuery.t) (db : list Salary.t) (p p' : Page Salary.t) :
  listSalaryRecords parse query db = Sent 200 p ->
  viewSalaryPayslipDetailsForLabourer parse labourerId view db = Sent 200 p' ->
  ListContract latestPeriodFirst (salaryFilters parse query)
               (SalaryQuery.page query) (SalaryQuery.limit query) db p
  /\ (forall s, In s (records p) -> Salary.labourerId s = None)
  /\ records p' = []
  /\ total (meta p') = countIf (payslipFilters parse labourerId view) db.
Proof.
intros H H'.
unfold listSalaryRecords in H.
destruct (truthy (SalaryQuery.status query)
          && negb (includesVal Salary.statuses (SalaryQuery.status query)))%bool;
  [discriminate|].
cbv zeta in H. apply populated_answer in H. destruct H as [-> Hnone].
unfold viewSalaryPayslipDetailsForLabourer in H'.
destruct (negb (isValidString labourerId)); [discriminate|].
destruct (truthy (PayslipQuery.status view)
          && negb (includesVal Salary.statuses (PayslipQuery.status view)))%bool;
  [discriminate|].
cbv zeta in H'. apply populated_answer in H'. destruct H' as [-> Hnone'].
pose proof (paginate_lists latestPeriodFirst (payslipFilters parse labourerId view)
              (PayslipQuery.page view) (PayslipQuery.limit view) db
              latestPeriodFirst_total latestPeriodFirst_trans) as Hview.
split; [|split; [exact Hnone|split]].
- apply paginate_lists; [apply latestPeriodFirst_total | apply latestPeriodFirst_trans].
- destruct Hview as (_ & Hin & _).
  match goal with
  | |- records ?pg = [] => destruct (records pg) as [|s r] eqn:E; [reflexivity|]
  end.
  exfalso.
  destruct (Hin s (or_introl eq_refl)) as [_ Hm].
  pose proof (Hnone' s (or_introl eq_refl)) as Hs.
  unfold payslipFilters in Hm. rewrite Hs in Hm. discriminate.
- destruct Hview as (_ & _ & Ht & _). exact Ht.
Qed.

Lemma pageOrDefault_pageParam dflt v : pageOrDefault dflt v = pageParam dflt v.
Proof.
unfold pageOrDefault, pageParam.
destruct (match v with
          | JUndefined => Some dflt
          | JNull => None
          | JStr s => parseInt s
          end) as [n|]; [|reflexivity].
destruct (n <? 1) eqn:E1, (0 <? n) eqn:E2; try reflexivity.
- apply Z.ltb_lt in E1, E2. lia.
- apply Z.ltb_ge in E1, E2. lia.
Qed.

(** X14. Every page answered by [listLeaveRequests] and by
    [getLeaveStatusByLabourer] holds stored leaves that pass the
    filters, latest start first, with the same guarantees on the total
    and on a large first page; a page of [listLeaveRequests] holds no
    leave with a labourer; the labourer's history holds that labourer's
    leaves only, all of the status asked for. *)
Theorem leave_lists_answer parse (query : LeaveQuery.t) (labourerId : string)
        (history : LeaveHistoryQuery.t) (db : list Leave.t) (p p' : Page Leave.t) :
  listLeaveRequests parse query db = Sent 200 p ->
  getLeaveStatusByLabourer parse labourerId history db = Sent 200 p' ->
  ListContract latestLeaveFirst (leaveFilters parse query)
               (LeaveQuery.page query) (LeaveQuery.limit query) db p
  /\ (forall l, In l (records p) -> Leave.labourerId l = None)
  /\ ListContract latestLeaveFirst (leaveHistoryFilters parse labourerId history)
                  (LeaveHistoryQuery.page history) (LeaveHistoryQuery.limit history)
                  db p'
  /\ (forall l, In l (records p') ->
        Leave.labourerId l = Some (canonical labourerId)
        /\ carries (LeaveHistoryQuery.status history) (Leave.status l)
                   (strVal (LeaveHistoryQuery.status history))).
Proof.
assert (forall a b, latestLeaveFirst a b = true \/ latestLeaveFirst b a = true) as Htotal
    by (intros; apply date_geb_total).
assert (forall a b c, latestLeaveFirst a b = true -> latestLeaveFirst b c = true ->
                      latestLeaveFirst a c = true) as Htrans
    by (intros a b c; apply date_geb_trans).
intros H H'.
unfold listLeaveRequests in H. cbv zeta in H.
apply populated_answer in H. destruct H as [-> Hnone].
unfold getLeaveStatusByLabourer in H'.
destruct (negb (isValidString labourerId)); [discriminate|].
destruct (truthy (LeaveHistoryQuery.status history)
          && negb (includesVal Leave.statuses (LeaveHistoryQuery.status history)))%bool;
  [discriminate|].
injection H' as <-.
pose proof (paginate_lists latestLeaveFirst (leaveHistoryFilters parse labourerId history)
              (LeaveHistoryQuery.page history) (LeaveHistoryQuery.limit history) db
              Htotal Htrans) as Hview.
split; [|split; [exact Hnone|split; [exact Hview|]]].
- apply (paginate_lists latestLeaveFirst); assumption.
- intros l Hl. destruct Hview as (_ & Hin & _).
  destruct (Hin l Hl) as [_ Hm]. unfold leaveHistoryFilters in Hm.
  apply andb_true_iff in Hm. destruct Hm as [Hm _].
  apply andb_true_iff in Hm. destruct Hm as [Hid Hst].
  apply oid_eqb_eq in Hid. split; [exact Hid|].
  intros Ht. rewrite Ht in Hst. apply str_eqb_eq in Hst. exact Hst.
Qed.

Lemma latestDateFirst_total a b :
  latestDateFirst a b = true \/ latestDateFirst b a = true.
Proof. apply date_geb_total. Qed.

Lemma latestDateFirst_trans a b c :
  latestDateFirst a b = true -> latestDateFirst b c = true ->
  latestDateFirst a c = true.
Proof. apply date_geb_trans. Qed.

(** X5. [getAttendanceByLabourer] and [getAttendanceByProject] answer alike:
    a page holds stored records of that labourer, respectively of that
    project, that pass the filters, latest date first, with the same
    guarantees on the total and on a large first page; the two ways of
    reading the page and the limit give the same numbers. No record on
    a page of the first has a project, none on a page of the second a
    labourer. *)
Theorem attendance_lists_answer parse (labourerId projectId : string)
        (ql : AttendanceQuery.t) (qp : ProjectQuery.t)
        (db : list Attendance.t) (p p' : Page Attendance.t) :
  getAttendanceByLabourer parse labourerId ql db = Sent 200 p ->
  getAttendanceByProject parse projectId qp db = Sent 200 p' ->
  (exists range,
      attendanceDateFilter parse (AttendanceQuery.startDate ql)
                           (AttendanceQuery.endDate ql) = Some range
      /\ ListContract latestDateFirst (labourerFilters labourerId ql range)
                      (AttendanceQuery.page ql) (AttendanceQuery.limit ql) db p)
  /\ (exists range,
         attendanceDateFilter parse (ProjectQuery.startDate qp)
                              (ProjectQuery.endDate qp) = Some range
         /\ ListContract latestDateFirst (projectFilters projectId qp range)
                         (ProjectQuery.page qp) (ProjectQuery.limit qp) db p')
  /\ (forall a, In a (records p) ->
        Attendance.labourerId a = Some (canonical labourerId)
        /\ Attendance.projectId a = None)
  /\ (forall a, In a (records p') ->
        Attendance.projectId a = Some (canonical projectId)
        /\ Attendance.labourerId a = None).
Proof.
intros H H'.
unfold getAttendanceByLabourer in H.
destruct (negb (isValidString labourerId)); [discriminate|].
destruct (attendanceDateFilter parse (AttendanceQuery.startDate ql)
                               (AttendanceQuery.endDate ql)) as [rl|]; [|discriminate].
cbv zeta in H. apply populated_answer in H. destruct H as [-> Hnone].
unfold getAttendanceByProject in H'.
destruct (negb (isValidString projectId)); [discriminate|].
destruct (attendanceDateFilter parse (ProjectQuery.startDate qp)
                               (ProjectQuery.endDate qp)) as [rp|]; [|discriminate].
cbv zeta in H'. apply populated_answer in H'. destruct H' as [-> Hnone'].
rewrite !pageOrDefault_pageParam in *.
pose proof (paginate_lists latestDateFirst (labourerFilters labourerId ql rl)
              (AttendanceQuery.page ql) (AttendanceQuery.limit ql) db
              latestDateFirst_total latestDateFirst_trans) as Hl.
pose proof (paginate_lists latestDateFirst (projectFilters projectId qp rp)
              (ProjectQuery.page qp) (ProjectQuery.limit qp) db
              latestDateFirst_total latestDateFirst_trans) as Hp.
split; [exists rl; split; [reflexivity | exact Hl]|].
split; [exists rp; split; [reflexivity | exact Hp]|].
split.
- intros a Ha. split; [|exact (Hnone a Ha)].
  destruct Hl as (_ & Hin & _). destruct (Hin a Ha) as [_ Hm].
  unfold labourerFilters in Hm. rewrite !andb_true_iff in Hm.
  apply oid_eqb_eq. tauto.
- intros a Ha. split; [|exact (Hnone' a Ha)].
  destruct Hp as (_ & Hin & _). destruct (Hin a Ha) as [_ Hm].
  unfold projectFilters in Hm. rewrite !andb_true_iff in Hm.
  apply oid_eqb_eq. tauto.
Qed.

Lemma strictOid_none v : strictOid v = None <-> badOid v.
Proof.
unfold strictOid, badOid.
destruct (truthy v), (ObjectId_isValid v); split; intros H;
  try discriminate; try tauto; destruct H; discriminate.
Qed.

Lemma strictEnum_none allowed v : strictEnum allowed v = None <-> badEnum allowed v.
Proof.
unfold strictEnum, badEnum.
destruct (truthy v), (includesVal allowed v); split; intros H;
  try discriminate; try tauto; destruct H; discriminate.
Qed.

Lemma strictOid_some v f field :
  strictOid v = Some f -> f field = true -> carries v field (oidVal v).
Proof.
unfold strictOid, carries.
destruct (truthy v); [|discriminate].
destruct (ObjectId_isValid v); [|discriminate].
intros E Hf _. injection E as <-. apply oid_eqb_eq. exact Hf.
Qed.

Lemma strictEnum_some allowed v f field :
  strictEnum allowed v = Some f -> f field = true -> carries v field (strVal v).
Proof.
unfold strictEnum, carries.
destruct (truthy v); [|discriminate].
destruct (includesVal allowed v); [|discriminate].
intros E Hf _. injection E as <-. apply str_eqb_eq. exact Hf.
Qed.

(** X6. [getAttendanceByDate] never drops a filter it cannot use: a missing
    or unparseable date, an identifier filter that is no identifier, a
    status or a shift outside its enumeration, each one ends the request
    with a 400. *)
Theorem by_date_refuses_bad_filters parse startOfDay endOfDay
        (query : DateQuery.t) (db : list Attendance.t) :
  truthy (DateQuery.date query) = false
  \/ Date_of parse (DateQuery.date query) = None
  \/ badOid (DateQuery.labourerId query)
  \/ badOid (DateQuery.projectId query)
  \/ badEnum Attendance.statuses (DateQuery.status query)
  \/ badEnum Attendance.shifts (DateQuery.shift query)
  \/ badOid (DateQuery.markedBy query) ->
  exists msg,
    getAttendanceByDate parse startOfDay endOfDay query db = refuse 400 msg.
Proof.
intros Hbad. unfold getAttendanceByDate.
destruct (truthy (DateQuery.date query)) eqn:Td; simpl; [|eexists; reflexivity].
destruct (Date_of parse (DateQuery.date query)) as [t|] eqn:Dd; [|eexists; reflexivity].
destruct (strictOid (DateQuery.labourerId query)) as [f1|] eqn:E1; [|eexists; reflexivity].
destruct (strictOid (DateQuery.projectId query)) as [f2|] eqn:E2; [|eexists; reflexivity].
destruct (strictEnum Attendance.statuses (DateQuery.status query)) as [f3|] eqn:E3;
  [|eexists; reflexivity].
destruct (strictEnum Attendance.shifts (DateQuery.shift query)) as [f4|] eqn:E4;
  [|eexists; reflexivity].
destruct (strictOid (DateQuery.markedBy query)) as [f5|] eqn:E5; [|eexists; reflexivity].
exfalso.
destruct Hbad as [H|[H|[H|[H|[H|[H|H]]]]]]; try discriminate.
- apply strictOid_none in H. congruence.
- apply strictOid_none in H. congruence.
- apply strictEnum_none in H. congruence.
- apply strictEnum_none in H. congruence.
- apply strictOid_none in H. congruence.
Qed.

(** X7. A page answered by [getAttendanceByDate] holds stored records
    dated within the day asked for, latest first, each carrying every
    filter value that was supplied, and none with a labourer or a
    project. *)
Theorem by_date_answer parse startOfDay endOfDay (query : DateQuery.t)
        (db : list Attendance.t) (p : Page Attendance.t) :
  getAttendanceByDate parse startOfDay endOfDay query db = Sent 200 p ->
  exists t,
    Date_of parse (DateQuery.date query) = Some t
    /\ StronglySorted (fun a b => latestDateFirst a b = true) (records p)
    /\ forall a, In a (records p) ->
         In a db
         /\ (exists d, Attendance.date a = Some d
                       /\ startOfDay t <= d <= endOfDay t)
         /\ Attendance.labourerId a = None
         /\ Attendance.projectId a = None
         /\ carries (DateQuery.labourerId query) (Attendance.labourerId a)
                    (oidVal (DateQuery.labourerId query))
         /\ carries (DateQuery.projectId query) (Attendance.projectId a)
                    (oidVal (DateQuery.projectId query))
         /\ carries (DateQuery.status query) (Attendance.status a)
                    (strVal (DateQuery.status query))
         /\ carries (DateQuery.shift query) (Attendance.shift a)
                    (strVal (DateQuery.shift query))
         /\ carries (DateQuery.markedBy query) (Attendance.markedBy a)
                    (oidVal (DateQuery.markedBy query)).
Proof.
intros H. unfold getAttendanceByDate in H.
destruct (negb (truthy (DateQuery.date query))); [discriminate|].
destruct (Date_of parse (DateQuery.date query)) as [t|]; [|discriminate].
destruct (strictOid (DateQuery.labourerId query)) as [f1|] eqn:E1; [|discriminate].
destruct (strictOid (DateQuery.projectId query)) as [f2|] eqn:E2; [|discriminate].
destruct (strictEnum Attendance.statuses (DateQuery.status query)) as [f3|] eqn:E3;
  [|discriminate].
destruct (strictEnum Attendance.shifts (DateQuery.shift query)) as [f4|] eqn:E4;
  [|discriminate].
destruct (strictOid (DateQuery.markedBy query)) as [f5|] eqn:E5; [|discriminate].
cbv zeta in H.
match type of H with
| (if (?x || ?y)%bool then _ else _) = _ =>
    destruct x eqn:Nl; [discriminate|]; destruct y eqn:Np; [discriminate|]
end.
injection H as <-.
exists t. split; [reflexivity|].
pose proof (paginate_lists latestDateFirst
              (dayFilters startOfDay endOfDay t f1 f2 f5 f3 f4)
              (DateQuery.page query) (DateQuery.limit query) db
              latestDateFirst_total latestDateFirst_trans) as (Hsorted & Hin & _).
split; [exact Hsorted|].
intros a Ha. destruct (Hin a Ha) as [Hdb Hm].
unfold dayFilters in Hm. rewrite !andb_true_iff in Hm.
destruct Hm as [[[[[Hday H1] H2] H3] H4] H5].
split; [exact Hdb|]. split.
- unfold inRange, mongo_gte, mongo_lte in Hday.
  destruct (Attendance.date a) as [d|]; [|discriminate].
  apply andb_true_iff in Hday. rewrite !Z.leb_le in Hday.
  exists d. split; [reflexivity | lia].
- split; [exact (unregisteredRef_false _ _ Nl a Ha)|].
  split; [exact (unregisteredRef_false _ _ Np a Ha)|].
  repeat split.
  + eapply strictOid_some; eauto.
  + eapply strictOid_some; eauto.
  + eapply strictEnum_some; eauto.
  + eapply strictEnum_some; eauto.
  + eapply strictOid_some; eauto.
Qed.

(* ================================================================== *)
(** ** Lookups after a write *)

Section StoreFacts.
Context {D : Type} (idOf : D -> ObjectId).

Lemma find_id id db d :
  find (fun b => String.eqb (idOf b) id) db = Some d -> idOf d = id /\ In d db.
Proof.
intros H. apply find_some in H. destruct H as [Hin Hid].
apply String.eqb_eq in Hid. auto.
Qed.

Lemma find_replace_same id u db d :
  find (fun b => String.eqb (idOf b) id) db = Some d ->
  idOf u = id ->
  find (fun b => String.eqb (idOf b) id)
       (map (fun b => if String.eqb (idOf b) (idOf u) then u else b) db) = Some u.
Proof.
intros H Hu. induction db as [|a r IH]; simpl in *; [discriminate|].
rewrite Hu. destruct (String.eqb (idOf a) id) eqn:E.
- rewrite <- Hu at 1. rewrite String.eqb_refl. reflexivity.
- rewrite E. rewrite Hu in IH. apply IH. exact H.
Qed.

Lemma find_replace_other id u db :
  idOf u <> id ->
  find (fun b => String.eqb (idOf b) id)
       (map (fun b => if String.eqb (idOf b) (idOf u) then u else b) db)
  = find (fun b => String.eqb (idOf b) id) db.
Proof.
intros Hu. induction db as [|a r IH]; simpl; [reflexivity|].
destruct (String.eqb (idOf a) (idOf u)) eqn:E.
- apply String.eqb_eq in E.
  assert (String.eqb (idOf u) id = false) as -> by (apply String.eqb_neq; exact Hu).
  assert (String.eqb (idOf a) id = false) as -> by (apply String.eqb_neq; congruence).
  exact IH.
- destruct (String.eqb (idOf a) id); [reflexivity | exact IH].
Qed.

Lemma replace_ids u db :
  map idOf (map (fun b => if String.eqb (idOf b) (idOf u) then u else b) db)
  = map idOf db.
Proof.
induction db as [|a r IH]; simpl; [reflexivity|]. rewrite IH. f_equal.
destruct (String.eqb (idOf a) (idOf u)) eqn:E; [|reflexivity].
apply String.eqb_eq in E. congruence.
Qed.

Lemma replace_absent u db :
  ~ In (idOf u) (map idOf db) ->
  map (fun b => if String.eqb (idOf b) (idOf u) then u else b) db = db.
Proof.
induction db as [|a r IH]; simpl; intros H; [reflexivity|].
assert (String.eqb (idOf a) (idOf u) = false) as ->
    by (apply String.eqb_neq; intros E; apply H; left; exact E).
rewrite IH; [reflexivity|]. intros Hin. apply H. right. exact Hin.
Qed.

(** With distinct identifiers, saving a loaded document changes one
    position of the collection. *)
Lemma replace_split id u db d :
  NoDup (map idOf db) ->
  find (fun b => String.eqb (idOf b) id) db = Some d ->
  idOf u = id ->
  exists l1 l2,
    db = l1 ++ d :: l2
    /\ map (fun b => if String.eqb (idOf b) (idOf u) then u else b) db = l1 ++ u :: l2.
Proof.
intros Hnd H Hu. induction db as [|a r IH]; simpl in *; [discriminate|].
inversion Hnd as [|x xs Hnotin Hnd']; subst x xs.
destruct (String.eqb (idOf a) id) eqn:E.
- injection H as ->. apply String.eqb_eq in E.
  assert (idOf d = idOf u) as Hdu by congruence.
  exists [], r. split; [reflexivity|]. simpl.
  rewrite Hdu at 1. rewrite String.eqb_refl. f_equal.
  apply replace_absent. rewrite <- Hdu. exact Hnotin.
- destruct (IH Hnd' H) as (l1 & l2 & E1 & E2).
  exists (a :: l1), l2. rewrite Hu in *. rewrite E. simpl.
  rewrite E2. rewrite E1 at 1. auto.
Qed.

Lemma find_deleteFirst_same id db :
  NoDup (map idOf db) ->
  find (fun b => String.eqb (idOf b) id) (deleteFirst idOf id db) = None.
Proof.
induction db as [|a r IH]; simpl; intros Hnd; [reflexivity|].
inversion Hnd as [|x xs Hnotin Hnd']; subst x xs.
destruct (String.eqb (idOf a) id) eqn:E.
- apply String.eqb_eq in E.
  destruct (find (fun b => String.eqb (idOf b) id) r) as [d|] eqn:F; [|reflexivity].
  apply find_id in F. destruct F as [Fid Fin].
  exfalso. apply Hnotin. rewrite E, <- Fid. apply in_map. exact Fin.
- simpl. rewrite E. apply IH. exact Hnd'.
Qed.

Lemma find_deleteFirst_other id id' db :
  id' <> id ->
  find (fun b => String.eqb (idOf b) id') (deleteFirst idOf id db)
  = find (fun b => String.eqb (idOf b) id') db.
Proof.
intros Hne. induction db as [|a r IH]; simpl; [reflexivity|].
destruct (String.eqb (idOf a) id) eqn:E.
- apply String.eqb_eq in E.
  assert (String.eqb (idOf a) id' = false) as ->
      by (apply String.eqb_neq; congruence).
  reflexivity.
- simpl. destruct (String.eqb (idOf a) id'); [reflexivity | exact IH].
Qed.

Lemma deleteFirst_perm id db d :
  find (fun b => String.eqb (idOf b) id) db = Some d ->
  Permutation db (d :: deleteFirst idOf id db).
Proof.
induction db as [|a r IH]; simpl; intros H; [discriminate|].
destruct (String.eqb (idOf a) id).
- injection H as ->. apply Permutation_refl.
- eapply perm_trans; [apply perm_skip, IH, H | apply perm_swap].
Qed.

Lemma deleteFirst_filter id (q : D -> bool) db :
  (List.length (filter q (deleteFirst idOf id db)) <= List.length (filter q db))%nat.
Proof.
induction db as [|a r IH]; simpl; [lia|].
destruct (String.eqb (idOf a) id).
- destruct (q a); simpl; lia.
- simpl. destruct (q a); simpl; lia.
Qed.

End StoreFacts.

Lemma deleteById_deleteFirst id db :
  Leave.deleteById id db = deleteFirst Leave._id id db.
Proof.
induction db as [|l r IH]; simpl; [reflexivity|]. rewrite IH. reflexivity.
Qed.

(** X4. A successful [deleteAttendance] removes the one stored record
    with the identifier asked for: afterwards [getAttendanceById] does
    not find that identifier, every other lookup answers as before, and
    the uniqueness of the keys is kept.  Any other outcome leaves the
    collection alone. *)
Theorem deleteAttendance_removes_one id db out db' :
  NoDup (map Attendance._id db) ->
  deleteAttendance id db = (out, db') ->
  match out with
  | Sent _ _ =>
      exists a,
        In a db
        /\ Attendance._id a = canonical id
        /\ Permutation db (a :: db')
        /\ (forall b, In b db' -> Attendance._id b <> canonical id)
        /\ getAttendanceById id db' = refuse 404 "Attendance record not found"
        /\ (forall id', canonical id' <> canonical id ->
              getAttendanceById id' db' = getAttendanceById id' db)
        /\ (uniqueKeys db -> uniqueKeys db')
  | _ => db' = db
  end.
Proof.
intros Hnd H. unfold deleteAttendance in H.
destruct (negb (isValidString id)) eqn:V; [injection H as <- <-; reflexivity|].
destruct (Attendance.findById (canonical id) db) as [a|] eqn:F;
  injection H as <- <-; [|reflexivity].
exists a. unfold getAttendanceById. rewrite V.
unfold Attendance.findById in *.
destruct (find_id Attendance._id _ db a F) as [Hid Hin].
pose proof (find_deleteFirst_same Attendance._id (canonical id) db Hnd) as Hgone.
split; [exact Hin|]. split; [exact Hid|].
split; [apply deleteFirst_perm; exact F|].
split.
{ intros b Hb E.
  pose proof (find_none _ _ Hgone b Hb) as Hn. simpl in Hn.
  rewrite E, String.eqb_refl in Hn. discriminate. }
split; [rewrite Hgone; reflexivity|].
split.
- intros id' Hne.
  rewrite (find_deleteFirst_other Attendance._id (canonical id) (canonical id') db);
    [reflexivity | congruence].
- intros Huniq l p d s.
  eapply Nat.le_trans; [apply deleteFirst_filter | apply Huniq].
Qed.

(** X19. A successful [deleteSalaryRecord] removes the one stored record
    with the identifier asked for: afterwards that identifier is not
    found, by the lookup or by the payslip download, and every other
    lookup answers as before.  Any other outcome leaves the collection
    alone. *)
Theorem deleteSalaryRecord_removes_one id db out db' :
  NoDup (map Salary._id db) ->
  deleteSalaryRecord id db = (out, db') ->
  match out with
  | Sent _ _ =>
      exists s,
        In s db
        /\ Salary._id s = canonical id
        /\ Permutation db (s :: db')
        /\ (forall b, In b db' -> Salary._id b <> canonical id)
        /\ getSalaryRecordById id db' = refuse 404 "Salary record not found"
        /\ downloadPayslip id db' = refuse 404 "Salary record not found"
        /\ (forall id', canonical id' <> canonical id ->
              getSalaryRecordById id' db' = getSalaryRecordById id' db
              /\ downloadPayslip id' db' = downloadPayslip id' db)
  | _ => db' = db
  end.
Proof.
intros Hnd H. unfold deleteSalaryRecord in H.
destruct (negb (isValidString id)) eqn:V; [injection H as <- <-; reflexivity|].
destruct (Salary.findById (canonical id) db) as [s|] eqn:F;
  injection H as <- <-; [|reflexivity].
exists s. unfold getSalaryRecordById, downloadPayslip. rewrite V.
unfold Salary.findById in *.
destruct (find_id Salary._id _ db s F) as [Hid Hin].
pose proof (find_deleteFirst_same Salary._id (canonical id) db Hnd) as Hgone.
rewrite Hgone.
split; [exact Hin|]. split; [exact Hid|].
split; [apply deleteFirst_perm; exact F|].
split.
{ intros b Hb E.
  pose proof (find_none _ _ Hgone b Hb) as Hn. simpl in Hn.
  rewrite E, String.eqb_refl in Hn. discriminate. }
split; [reflexivity|]. split; [reflexivity|].
intros id' Hne.
rewrite (find_deleteFirst_other Salary._id (canonical id) (canonical id') db);
  [split; reflexivity | congruence].
Qed.

(** X20. After [generatePayslipUrl] has answered, [downloadPayslip]
    redirects to the address that was given; the record answered is the
    stored one with that address and every other field as it was, it
    is saved in its place, and no other record changed. *)
Theorem payslip_url_round_trip id v db s db' :
  generatePayslipUrl id v db = (Sent 200 s, db') ->
  exists url old,
    v = JStr url /\ url <> ""
    /\ In old db
    /\ Salary._id old = canonical id
    /\ s = Salary.mk (Salary._id old) (Salary.labourerId old) (Salary.startPeriod old)
                     (Salary.endPeriod old) (Salary.totalDaysPresent old)
                     (Salary.dailyWage old) (Salary.totalSalary old)
                     (Salary.status old) (Some url)
    /\ downloadPayslip id db' = Sent 302 url
    /\ SavedOver Salary._id s db db'
    /\ map Salary._id db' = map Salary._id db
    /\ (forall id', canonical id' <> canonical id ->
          getSalaryRecordById id' db' = getSalaryRecordById id' db
          /\ downloadPayslip id' db' = downloadPayslip id' db).
Proof.
intros H. unfold generatePayslipUrl in H.
destruct (negb (isValidString id)) eqn:V; [discriminate|].
destruct v as [| |url]; try discriminate.
destruct (String.eqb url "") eqn:U; [discriminate|].
destruct (Salary.findById (canonical id) db) as [old|] eqn:F; [|discriminate].
destruct (Salary.valid (setPayslipUrl url old)) eqn:Hv; [|discriminate].
injection H as <- <-.
unfold Salary.findById in F.
pose proof (find_id Salary._id _ db old F) as [Hid Hin].
assert (Salary._id (setPayslipUrl url old) = canonical id) as Hid' by exact Hid.
exists url, old. unfold getSalaryRecordById, downloadPayslip, Salary.findById.
rewrite V.
split; [reflexivity|]. split; [apply String.eqb_neq; exact U|].
split; [exact Hin|]. split; [exact Hid|]. split; [reflexivity|].
split.
{ unfold Salary.replace.
  rewrite (find_replace_same Salary._id _ (setPayslipUrl url old) db old F Hid').
  simpl. rewrite U. reflexivity. }
split; [apply Salary_replace_saved|].
split.
- exact (replace_ids Salary._id (setPayslipUrl url old) db).
- intros id' Hne.
  pose proof (find_replace_other Salary._id (canonical id') (setPayslipUrl url old) db)
    as R.
  simpl in R. unfold Salary.replace. simpl.
  rewrite R; [split; reflexivity|]. congruence.
Qed.

Lemma reviewed_leave_is_stored verb newStatus id by_ db l db' :
  reviewLeave verb newStatus id by_ db = (Sent 200 l, db') ->
  isValidString id = true
  /\ Leave.findById (canonical id) db' = Some l
  /\ Leave.status l = Some newStatus.
Proof.
intros H. unfold reviewLeave in H.
destruct (isValidString id) eqn:V; simpl in H; [|discriminate].
destruct (negb (truthy by_) || negb (ObjectId_isValid by_))%bool; [discriminate|].
destruct (Leave.findById (canonical id) db) as [old|] eqn:F; [|discriminate].
destruct (negb (str_eqb (Leave.status old) (Some "pending"))); [discriminate|].
destruct (Leave.valid (Leave.reviewed newStatus (oidVal by_) old)) eqn:Hv; [|discriminate].
injection H as <- <-.
unfold Leave.findById in *. pose proof (find_id Leave._id _ db old F) as [Hid _].
split; [reflexivity|]. split; [|reflexivity].
apply (find_replace_same Leave._id _ _ db old F). exact Hid.
Qed.

Lemma decided_leave_is_refused verb newStatus id by_ db l :
  isValidString id = true ->
  Leave.findById (canonical id) db = Some l ->
  str_eqb (Leave.status l) (Some "pending") = false ->
  exists msg, reviewLeave verb newStatus id by_ db = (refuse 400 msg, db).
Proof.
intros V F Hs. unfold reviewLeave. rewrite V. simpl.
destruct (negb (truthy by_) || negb (ObjectId_isValid by_))%bool;
  [eexists; reflexivity|].
rewrite F, Hs. simpl. eexists; reflexivity.
Qed.

(** X12. A leave is decided once: after [approveLeave] or [rejectLeave] has
    answered, the request carries the decision, and a later approval,
    rejection or cancellation of the same request is refused with a 400
    and changes nothing. *)
Theorem leave_is_decided_once id by_ db l db' :
  approveLeave id by_ db = (Sent 200 l, db')
  \/ rejectLeave id by_ db = (Sent 200 l, db') ->
  (Leave.status l = Some "approved" \/ Leave.status l = Some "rejected")
  /\ Leave.findById (canonical id) db' = Some l
  /\ (forall by2, exists msg, approveLeave id by2 db' = (refuse 400 msg, db'))
  /\ (forall by2, exists msg, rejectLeave id by2 db' = (refuse 400 msg, db'))
  /\ (exists msg, cancelLeaveRequest id db' = (refuse 400 msg, db')).
Proof.
intros H.
assert (isValidString id = true /\ Leave.findById (canonical id) db' = Some l
        /\ (Leave.status l = Some "approved" \/ Leave.status l = Some "rejected"))
  as (V & F & Hs).
{ destruct H as [H|H]; apply reviewed_leave_is_stored in H;
    destruct H as (V & F & Hs); auto. }
assert (str_eqb (Leave.status l) (Some "pending") = false) as Hp
    by (destruct Hs as [-> | ->]; reflexivity).
split; [exact Hs|]. split; [exact F|].
split; [|split].
- intros by2. apply (decided_leave_is_refused _ _ _ _ _ l); assumption.
- intros by2. apply (decided_leave_is_refused _ _ _ _ _ l); assumption.
- unfold cancelLeaveRequest. rewrite V, F, Hp. simpl. eexists; reflexivity.
Qed.

(** X13. A cancelled leave is gone: [cancelLeaveRequest] removes the one
    pending request with that identifier, and a later approval,
    rejection or cancellation of it answers 404 and changes nothing. *)
Theorem cancelled_leave_is_gone id db msg db' :
  NoDup (map Leave._id db) ->
  cancelLeaveRequest id db = (Sent 200 msg, db') ->
  (exists l, Leave.findById (canonical id) db = Some l
             /\ Leave.status l = Some "pending"
             /\ Permutation db (l :: db'))
  /\ Leave.findById (canonical id) db' = None
  /\ (forall by_, ObjectId_isValid by_ = true ->
        approveLeave id by_ db' = (refuse 404 "Leave request not found", db')
        /\ rejectLeave id by_ db' = (refuse 404 "Leave request not found", db'))
  /\ cancelLeaveRequest id db' = (refuse 404 "Leave request not found", db').
Proof.
intros Hnd H. unfold cancelLeaveRequest in H.
destruct (isValidString id) eqn:V; simpl in H; [|discriminate].
destruct (Leave.findById (canonical id) db) as [l|] eqn:F; [|discriminate].
destruct (str_eqb (Leave.status l) (Some "pending")) eqn:Hs; simpl in H; [|discriminate].
injection H as _ <-. rewrite deleteById_deleteFirst.
assert (Leave.findById (canonical id) (deleteFirst Leave._id (canonical id) db) = None)
  as Hgone
    by (apply (find_deleteFirst_same Leave._id (canonical id) db Hnd)).
split.
- exists l. split; [reflexivity|]. split; [apply str_eqb_eq; exact Hs|].
  apply deleteFirst_perm. exact F.
- split; [exact Hgone|]. split.
  + intros by_ Hby.
    assert (truthy by_ = true) as Ht.
    { destruct by_ as [| |s]; try discriminate. simpl in *.
      rewrite (isValid_nonempty s Hby). reflexivity. }
    unfold approveLeave, rejectLeave, reviewLeave.
    rewrite V, Ht, Hby, Hgone. simpl. auto.
  + unfold cancelLeaveRequest. rewrite V, Hgone. reflexivity.
Qed.

(* ================================================================== *)
(** ** Applying for leave *)

Lemma skipWhite_head s c r : skipWhite s = String c r -> isWhite c = false.
Proof.
induction s as [|a t IH]; simpl; [discriminate|].
destruct (isWhite a) eqn:W; [exact IH|].
intros E. injection E as <- _. exact W.
Qed.

Lemma trimEnd_cons c r :
  trimEnd (String c r)
  = match trimEnd r with
    | EmptyString => if isWhite c then EmptyString else String c EmptyString
    | String c' t => String c (String c' t)
    end.
Proof. reflexivity. Qed.

Lemma trimEnd_idem s : trimEnd (trimEnd s) = trimEnd s.
Proof.
induction s as [|c r IH]; [reflexivity|].
rewrite (trimEnd_cons c r). destruct (trimEnd r) as [|c' t] eqn:E.
- destruct (isWhite c) eqn:W; [reflexivity|].
  rewrite trimEnd_cons. simpl. rewrite W. reflexivity.
- rewrite (trimEnd_cons c (String c' t)). rewrite IH. reflexivity.
Qed.

Lemma trimEnd_head c r :
  isWhite c = false -> exists t, trimEnd (String c r) = String c t.
Proof.
intros W. cbn [trimEnd]. destruct (trimEnd r); [|eexists; reflexivity].
rewrite W. eexists; reflexivity.
Qed.

Lemma trim_idem s : trim (trim s) = trim s.
Proof.
unfold trim. destruct (skipWhite s) as [|c r] eqn:E; [reflexivity|].
pose proof (skipWhite_head s c r E) as W.
destruct (trimEnd_head c r W) as [t Ht]. rewrite Ht.
cbn [skipWhite]. rewrite W. rewrite <- Ht. apply trimEnd_idem.
Qed.

Lemma skipWhite_length s : (String.length (skipWhite s) <= String.length s)%nat.
Proof.
induction s as [|c r IH]; simpl; [lia|].
destruct (isWhite c); simpl; lia.
Qed.

Lemma trimEnd_length s : (String.length (trimEnd s) <= String.length s)%nat.
Proof.
induction s as [|c r IH]; [simpl; lia|].
cbn [trimEnd]. destruct (trimEnd r) as [|c' t].
- destruct (isWhite c); simpl; lia.
- simpl in *. lia.
Qed.

Lemma trim_length s : (String.length (trim s) <= String.length s)%nat.
Proof.
unfold trim. eapply Nat.le_trans; [apply trimEnd_length | apply skipWhite_length].
Qed.

Lemma skipWhite_split s :
  exists pre, s = (pre ++ skipWhite s)%string /\ allWhite pre = true.
Proof.
induction s as [|c r IH]; simpl; [exists EmptyString; auto|].
destruct (isWhite c) eqn:W.
- destruct IH as (pre & E & Hpre). exists (String c pre). simpl.
  rewrite <- E, W, Hpre. auto.
- exists EmptyString. auto.
Qed.

Lemma trimEnd_split s :
  exists post, s = (trimEnd s ++ post)%string /\ allWhite post = true.
Proof.
induction s as [|c r IH]; [exists EmptyString; auto|].
destruct IH as (post & E & Hpost). rewrite (trimEnd_cons c r).
destruct (trimEnd r) as [|c' t] eqn:T.
- simpl in E. subst r. destruct (isWhite c) eqn:W.
  + exists (String c post). simpl. rewrite W, Hpost. auto.
  + exists post. auto.
- exists post. simpl. simpl in E. rewrite <- E. auto.
Qed.

Lemma trimEnd_last s r c :
  trimEnd s = (r ++ String c EmptyString)%string -> isWhite c = false.
Proof.
revert r. induction s as [|a t IH]; intros r E.
- destruct r; discriminate.
- rewrite (trimEnd_cons a t) in E. destruct (trimEnd t) as [|c' t'] eqn:T.
  + destruct (isWhite a) eqn:W.
    * destruct r; discriminate.
    * destruct r as [|x r']; simpl in E.
      -- injection E as <-. exact W.
      -- injection E as _ E. destruct r'; discriminate.
  + destruct r as [|x r']; simpl in E.
    * discriminate.
    * injection E as _ E. apply (IH r'). exact E.
Qed.

Lemma trim_spec s : TrimOf s (trim s).
Proof.
unfold TrimOf, trim. split; [|split].
- destruct (skipWhite_split s) as (pre & E1 & Hpre).
  destruct (trimEnd_split (skipWhite s)) as (post & E2 & Hpost).
  exists pre, post. rewrite <- E2. auto.
- intros c r E. destruct (skipWhite s) as [|a t] eqn:S; [discriminate|].
  pose proof (skipWhite_head s a t S) as W.
  destruct (trimEnd_head a t W) as [t' Ht]. rewrite Ht in E.
  injection E as <- _. exact W.
- intros r c E. exact (trimEnd_last _ _ _ E).
Qed.

(** X11. [applyForLeave] either files one new request and answers with it,
    or leaves the collection alone.  The request filed is pending and
    unreviewed, dated by the call, for the labourer given, over a
    period that does not end before it starts, and its reason is the
    text received without its leading and trailing white space: not
    empty, of at most 500 characters. *)
Theorem applyForLeave_files_pending parse newId now body db out db' :
  applyForLeave parse newId now body db = (out, db') ->
  match out with
  | Sent _ l =>
      db' = db ++ [l]
      /\ Leave._id l = newId
      /\ Leave.status l = Some "pending"
      /\ Leave.reviewedBy l = None
      /\ Leave.appliedOn l = Some now
      /\ (exists lid, LeaveReq.labourerId body = JStr lid
                      /\ Leave.labourerId l = Some (canonical lid)
                      /\ isValidString lid = true)
      /\ (exists from to, Leave.fromDate l = Some from
                          /\ Leave.toDate l = Some to /\ from <= to)
      /\ (exists text, LeaveReq.reason body = JStr text
                       /\ TrimOf text (Leave.reason l)
                       /\ (String.length text <= 500)%nat)
      /\ Leave.reason l <> ""
      /\ trim (Leave.reason l) = Leave.reason l
      /\ (String.length (Leave.reason l) <= 500)%nat
  | _ => db' = db
  end.
Proof.
intros H. unfold applyForLeave in H. cbv zeta in H.
destruct (negb (truthy (LeaveReq.labourerId body))
          || negb (truthy (LeaveReq.fromDate body))
          || negb (truthy (LeaveReq.toDate body))
          || negb (truthy (LeaveReq.reason body)))%bool;
  [injection H as <- <-; reflexivity|].
destruct (ObjectId_isValid (LeaveReq.labourerId body)) eqn:V; simpl in H;
  [|injection H as <- <-; reflexivity].
destruct (Date_of parse (LeaveReq.fromDate body)) as [from|];
  [|injection H as <- <-; reflexivity].
destruct (Date_of parse (LeaveReq.toDate body)) as [to|];
  [|injection H as <- <-; reflexivity].
destruct (LeaveReq.reason body) as [| |text] eqn:R;
  try (injection H as <- <-; reflexivity).
destruct (to <? from) eqn:Hord; [injection H as <- <-; reflexivity|].
destruct (String.eqb (trim text) "") eqn:Hempty; [injection H as <- <-; reflexivity|].
destruct (Nat.ltb 500 (String.length text)) eqn:Hlen;
  [injection H as <- <-; reflexivity|].
match type of H with
| (if Leave.valid ?l then _ else _) = _ => destruct (Leave.valid l)
end; injection H as <- <-; [|reflexivity].
cbn [Leave._id Leave.status Leave.reviewedBy Leave.appliedOn Leave.labourerId
     Leave.fromDate Leave.toDate Leave.reason].
apply Z.ltb_ge in Hord. apply Nat.ltb_ge in Hlen. apply String.eqb_neq in Hempty.
destruct (LeaveReq.labourerId body) as [| |lid]; try discriminate V.
split; [reflexivity|]. split; [reflexivity|]. split; [reflexivity|].
split; [reflexivity|]. split; [reflexivity|].
split; [exists lid; auto|].
split; [exists from, to; auto|].
split; [exists text; split; [reflexivity|]; split; [apply trim_spec | exact Hlen]|].
split; [exact Hempty|]. split; [apply trim_idem|].
eapply Nat.le_trans; [apply trim_length | exact Hlen].
Qed.

(* ================================================================== *)
(** ** Salary records written by hand *)

Lemma createSalaryRecord_outcome parse newId body db out db' :
  createSalaryRecord parse newId body db = (out, db') ->
  match out with
  | Sent _ s =>
      db' = db ++ [s]
      /\ Salary._id s = newId
      /\ Salary.valid s = true
      /\ (exists lid, Salary.labourerId s = Some lid /\ isValidString lid = true)
      /\ (exists start_ end_, Salary.startPeriod s = Some start_
                              /\ Salary.endPeriod s = Some end_
                              /\ start_ <= end_)
      /\ 0 <= Salary.totalDaysPresent s
      /\ 0 <= Salary.dailyWage s
      /\ 0 <= Salary.totalSalary s
      /\ (Salary.status s = Some "pending" \/ Salary.status s = Some "paid")
      /\ (exists url, Salary.payslipUrl s = Some url /\ url <> "")
  | _ => db' = db
  end.
Proof.
intros H. unfold createSalaryRecord in H. cbv zeta in H.
destruct (SalaryReq.totalDaysPresent body) as [| |days];
  destruct (SalaryReq.dailyWage body) as [| |wage];
  destruct (SalaryReq.totalSalary body) as [| |total];
  try (injection H as <- <-; reflexivity);
  (destruct (negb (truthy (SalaryReq.labourerId body))
             || negb (truthy (SalaryReq.startPeriod body))
             || negb (truthy (SalaryReq.endPeriod body))
             || negb (truthy (SalaryReq.status body))
             || negb (truthy (SalaryReq.payslipUrl body)))%bool eqn:Hreq;
   [injection H as <- <-; reflexivity|]);
  (destruct (ObjectId_isValid (SalaryReq.labourerId body)) eqn:V; simpl negb in H;
   cbv iota in H; [|injection H as <- <-; reflexivity]);
  (destruct (Date_of parse (SalaryReq.startPeriod body)) as [start_|];
   [|injection H as <- <-; reflexivity]);
  (destruct (Date_of parse (SalaryReq.endPeriod body)) as [end_|];
   [|injection H as <- <-; reflexivity]);
  (destruct (end_ <? start_) eqn:Hord; [injection H as <- <-; reflexivity|]);
  (destruct (truthy (SalaryReq.paymentDate body)
             && isNaN (Date_of parse (SalaryReq.paymentDate body)))%bool;
   [injection H as <- <-; reflexivity|]);
  (destruct (includesVal Salary.statuses (SalaryReq.status body)) eqn:Hst;
   simpl negb in H; cbv iota in H; [|injection H as <- <-; reflexivity]);
  match type of H with
  | (if ?c then _ else _) = _ =>
      destruct c eqn:Hneg; [injection H as <- <-; reflexivity|]
  end;
  try (injection H as <- <-; reflexivity).
match type of H with
| (if Salary.valid ?s then _ else _) = _ => destruct (Salary.valid s) eqn:Hvalid
end; injection H as <- <-; [|reflexivity].
cbn [Salary._id Salary.labourerId Salary.startPeriod Salary.endPeriod
     Salary.totalDaysPresent Salary.dailyWage Salary.totalSalary
     Salary.status Salary.payslipUrl].
apply Z.ltb_ge in Hord.
simpl in Hneg. apply orb_false_iff in Hneg. destruct Hneg as [Hneg N3].
apply orb_false_iff in Hneg. destruct Hneg as [N1 N2].
apply Z.ltb_ge in N1, N2, N3.
rewrite !orb_false_iff, !negb_false_iff in Hreq.
destruct Hreq as [[[[_ _] _] _] Hurl].
destruct (SalaryReq.labourerId body) as [| |lid]; try discriminate V.
destruct (SalaryReq.status body) as [| |st]; try discriminate Hst.
destruct (SalaryReq.payslipUrl body) as [| |url]; try discriminate Hurl.
simpl in Hurl. apply negb_true_iff in Hurl. apply String.eqb_neq in Hurl.
cbn [strVal].
split; [reflexivity|]. split; [reflexivity|]. split; [exact Hvalid|].
split; [exists (canonical lid); split; [reflexivity | apply canonical_valid; exact V]|].
split; [exists start_, end_; auto|].
split; [exact N1|]. split; [exact N2|]. split; [exact N3|].
split; [|exists url; auto].
unfold includesVal, includes, Salary.statuses in Hst. simpl in Hst.
rewrite orb_false_r in Hst. apply orb_true_iff in Hst.
destruct Hst as [E|E]; apply String.eqb_eq in E; subst st; auto.
Qed.

(** X15. [createSalaryRecord] either stores one new record and answers with
    it, or leaves the collection alone.  The record stored passes the
    schema, belongs to a well-formed labourer identifier, spans a
    period that does not end before it starts, has no negative number,
    a status of the enumeration and a payslip address. *)
Theorem createSalaryRecord_stores_checked parse newId body db out db' :
  createSalaryRecord parse newId body db = (out, db') ->
  match out with
  | Sent _ s =>
      db' = db ++ [s]
      /\ Salary._id s = newId
      /\ Salary.valid s = true
      /\ (exists lid, Salary.labourerId s = Some lid /\ isValidString lid = true)
      /\ (exists start_ end_, Salary.startPeriod s = Some start_
                              /\ Salary.endPeriod s = Some end_
                              /\ start_ <= end_)
      /\ 0 <= Salary.totalDaysPresent s
      /\ 0 <= Salary.dailyWage s
      /\ 0 <= Salary.totalSalary s
      /\ (Salary.status s = Some "pending" \/ Salary.status s = Some "paid")
      /\ (exists url, Salary.payslipUrl s = Some url /\ url <> "")
  | _ => db' = db
  end.
Proof. apply createSalaryRecord_outcome. Qed.

Lemma createSalaryRecord_any_store parse id body db s db1 :
  createSalaryRecord parse id body db = (Sent 201 s, db1) ->
  forall id' db2,
    createSalaryRecord parse id' body db2
    = (Sent 201 (withSalaryId id' s), db2 ++ [withSalaryId id' s]).
Proof.
intros H id' db2. unfold createSalaryRecord in *. cbv zeta in *.
destruct (SalaryReq.totalDaysPresent body) as [| |days];
  destruct (SalaryReq.dailyWage body) as [| |wage];
  destruct (SalaryReq.totalSalary body) as [| |total];
  try discriminate H;
  (destruct (negb (truthy (SalaryReq.labourerId body))
             || negb (truthy (SalaryReq.startPeriod body))
             || negb (truthy (SalaryReq.endPeriod body))
             || negb (truthy (SalaryReq.status body))
             || negb (truthy (SalaryReq.payslipUrl body)))%bool;
   [discriminate H|]);
  (destruct (negb (ObjectId_isValid (SalaryReq.labourerId body)));
   [discriminate H|]);
  (destruct (Date_of parse (SalaryReq.startPeriod body)) as [start_|];
   [|discriminate H]);
  (destruct (Date_of parse (SalaryReq.endPeriod body)) as [end_|];
   [|discriminate H]);
  (destruct (end_ <? start_); [discriminate H|]);
  (destruct (truthy (SalaryReq.paymentDate body)
             && isNaN (Date_of parse (SalaryReq.paymentDate body)))%bool;
   [discriminate H|]);
  (destruct (negb (includesVal Salary.statuses (SalaryReq.status body)));
   [discriminate H|]);
  match type of H with
  | (if ?c then _ else _) = _ => destruct c; [discriminate H|]
  end;
  try discriminate H.
unfold Salary.valid in *.
cbn [Salary.status Salary.payslipUrl] in *.
match type of H with
| (if ?c then _ else _) = _ => destruct c; [|discriminate H]
end.
injection H as <- _. reflexivity.
Qed.

(** X16. [createSalaryRecord] never looks at what is stored: a body that was
    accepted once is accepted again, on any collection, and a second
    call stores a second record for the same labourer and period. *)
Theorem createSalaryRecord_allows_duplicates parse id1 id2 body db s1 db1 :
  createSalaryRecord parse id1 body db = (Sent 201 s1, db1) ->
  exists s2,
    createSalaryRecord parse id2 body db1 = (Sent 201 s2, db1 ++ [s2])
    /\ Salary._id s2 = id2
    /\ sameTriple s1 s2
    /\ db1 ++ [s2] = db ++ [s1; s2].
Proof.
intros H. exists (withSalaryId id2 s1).
split; [apply (createSalaryRecord_any_store parse id1 body db s1 db1 H)|].
split; [reflexivity|]. split; [repeat split|].
pose proof (createSalaryRecord_outcome _ _ _ _ _ _ H) as [-> _].
rewrite <- app_assoc. reflexivity.
Qed.

Lemma assignNum_keeps_sign old v n :
  negative v = false -> assignNum old v = Some n -> 0 <= old -> 0 <= n.
Proof.
destruct v as [| |k]; simpl; intros Hneg H Hold; try discriminate.
- injection H as <-. exact Hold.
- injection H as <-. apply Z.ltb_ge in Hneg. exact Hneg.
Qed.

(** X17. [updateSalaryRecord] either saves the one stored record with the
    identifier asked for, with the supplied fields assigned, or leaves
    the collection alone.  The record saved passes the schema and keeps
    its identifier and its place, the numbers stay non-negative, and
    every other record is as before. *)
Theorem updateSalaryRecord_changes_one parse id updates db out db' :
  updateSalaryRecord parse id updates db = (out, db') ->
  match out with
  | Sent _ s =>
      exists old,
        In old db
        /\ Salary._id old = canonical id
        /\ assignSalary parse old updates = Some s
        /\ Salary.valid s = true
        /\ Salary._id s = canonical id
        /\ SavedOver Salary._id s db db'
        /\ map Salary._id db' = map Salary._id db
        /\ (forall id', canonical id' <> canonical id ->
              getSalaryRecordById id' db' = getSalaryRecordById id' db
              /\ downloadPayslip id' db' = downloadPayslip id' db)
        /\ (0 <= Salary.totalDaysPresent old -> 0 <= Salary.totalDaysPresent s)
        /\ (0 <= Salary.dailyWage old -> 0 <= Salary.dailyWage s)
        /\ (0 <= Salary.totalSalary old -> 0 <= Salary.totalSalary s)
  | _ => db' = db
  end.
Proof.
intros H. unfold updateSalaryRecord in H. cbv zeta in H.
destruct (negb (isValidString id)) eqn:V; [injection H as <- <-; reflexivity|].
repeat match type of H with
       | (if ?c then _ else _) = _ =>
           destruct c eqn:?; [injection H as <- <-; reflexivity|]
       end.
destruct (Salary.findById (canonical id) db) as [old|] eqn:F;
  [|injection H as <- <-; reflexivity].
destruct (assignSalary parse old updates) as [s|] eqn:A;
  [|injection H as <- <-; reflexivity].
destruct (Salary.valid s) eqn:Hv; injection H as <- <-; [|reflexivity].
unfold Salary.findById in F. pose proof (find_id Salary._id _ db old F) as [Hid Hin].
assert (Salary._id s = canonical id
        /\ (0 <= Salary.totalDaysPresent old -> 0 <= Salary.totalDaysPresent s)
        /\ (0 <= Salary.dailyWage old -> 0 <= Salary.dailyWage s)
        /\ (0 <= Salary.totalSalary old -> 0 <= Salary.totalSalary s))
  as (Hid' & Hd & Hw & Ht).
{ unfold assignSalary in A.
  destruct (assignOid (Salary.labourerId old) (SalaryReq.labourerId updates)); [|discriminate].
  destruct (assignDate parse (Salary.startPeriod old) (SalaryReq.startPeriod updates));
    [|discriminate].
  destruct (assignDate parse (Salary.endPeriod old) (SalaryReq.endPeriod updates));
    [|discriminate].
  destruct (assignNum (Salary.totalDaysPresent old) (SalaryReq.totalDaysPresent updates))
    as [days|] eqn:A1; [|discriminate].
  destruct (assignNum (Salary.dailyWage old) (SalaryReq.dailyWage updates))
    as [wage|] eqn:A2; [|discriminate].
  destruct (assignNum (Salary.totalSalary old) (SalaryReq.totalSalary updates))
    as [total|] eqn:A3; [|discriminate].
  injection A as <-. simpl.
  split; [exact Hid|].
  split; [|split]; intros Hold.
  + eapply assignNum_keeps_sign; [| exact A1 | exact Hold]; assumption.
  + eapply assignNum_keeps_sign; [| exact A2 | exact Hold]; assumption.
  + eapply assignNum_keeps_sign; [| exact A3 | exact Hold]; assumption. }
exists old.
split; [exact Hin|]. split; [exact Hid|].
split; [exact A|]. split; [exact Hv|].
split; [exact Hid'|]. split; [apply Salary_replace_saved|].
split; [apply (replace_ids Salary._id)|].
split; [|auto].
intros id' Hne.
unfold getSalaryRecordById, downloadPayslip, Salary.findById, Salary.replace.
rewrite (find_replace_other Salary._id (canonical id') s db);
  [split; reflexivity|]. congruence.
Qed.


(** X18. [updateSalaryRecord] compares the two bounds of the period only
    when the request carries both: a new end of period alone is saved
    next to the stored start, whichever comes first. *)
Theorem update_compares_supplied_bounds_only parse id db old text t :
  isValidString id = true ->
  Salary.findById (canonical id) db = Some old ->
  Salary.valid old = true ->
  text <> "" ->
  parse text = Some t ->
  exists s,
    updateSalaryRecord parse id (onlyEndPeriod text) db
    = (Sent 200 s, Salary.replace s db)
    /\ Salary.startPeriod s = Salary.startPeriod old
    /\ Salary.endPeriod s = Some t.
Proof.
intros V F Hv Htext Hparse.
apply String.eqb_neq in Htext.
unfold updateSalaryRecord, onlyEndPeriod. cbv zeta.
cbn [SalaryReq.labourerId SalaryReq.startPeriod SalaryReq.endPeriod SalaryReq.status
     SalaryReq.paymentDate SalaryReq.totalDaysPresent SalaryReq.dailyWage
     SalaryReq.totalSalary SalaryReq.payslipUrl].
rewrite V. cbn [truthy negb andb Date_of negative isNaN].
rewrite Htext, Hparse. cbn [negb andb isNaN].
rewrite F. unfold assignSalary.
cbn [SalaryReq.labourerId SalaryReq.startPeriod SalaryReq.endPeriod SalaryReq.status
     SalaryReq.paymentDate SalaryReq.totalDaysPresent SalaryReq.dailyWage
     SalaryReq.totalSalary SalaryReq.payslipUrl assignOid assignDate assignNum
     assignStr castDate].
rewrite Htext, Hparse.
match goal with
| |- context [Salary.valid ?s] =>
    assert (Salary.valid s = true) as -> by exact Hv
end.
eexists. split; [reflexivity|]. split; reflexivity.
Qed.

(* ================================================================== *)
(** ** Salary totals *)

Lemma sumOf_shift {D} (f : D -> Z) l : forall z,
  fold_left (fun acc d => acc + f d) l z = z + sumOf f l.
Proof.
unfold sumOf. induction l as [|a r IH]; intros z; simpl; [lia|].
rewrite (IH (z + f a)), (IH (f a)). lia.
Qed.

Lemma sumOf_cons {D} (f : D -> Z) a l : sumOf f (a :: l) = f a + sumOf f l.
Proof. unfold sumOf at 1. simpl. rewrite sumOf_shift. lia. Qed.

Lemma sumOf_app {D} (f : D -> Z) l1 l2 : sumOf f (l1 ++ l2) = sumOf f l1 + sumOf f l2.
Proof.
induction l1 as [|a r IH]; simpl; [reflexivity|].
rewrite !sumOf_cons, IH. lia.
Qed.

Lemma paid_or_pending s :
  Salary.valid s = true -> paidAmount s + pendingAmount s = Salary.totalSalary s.
Proof.
unfold Salary.valid, paidAmount, pendingAmount.
destruct (Salary.status s) as [st|]; [|discriminate].
intros H. apply andb_true_iff in H. destruct H as [H _].
unfold includes, Salary.statuses in H. simpl in H.
rewrite orb_false_r in H. apply orb_true_iff in H.
destruct H as [E|E]; apply String.eqb_eq in E; subst st;
  unfold str_eqb; simpl; lia.
Qed.

Lemma paid_plus_pending matched :
  Forall (fun s => Salary.valid s = true) matched ->
  sumOf paidAmount matched + sumOf pendingAmount matched
  = sumOf Salary.totalSalary matched.
Proof.
induction 1 as [|s r Hs Hr IH]; [reflexivity|].
rewrite !sumOf_cons. rewrite <- (paid_or_pending s Hs). lia.
Qed.

Lemma totals_of_group matched : TotalsOf matched (firstOrZero (salaryGroup matched)).
Proof.
destruct matched as [|s r]; repeat split.
Qed.

Lemma periodBounds_cases parse startPeriod endPeriod :
  match periodBounds parse startPeriod endPeriod with
  | inl e =>
      statusCode e = 400
      /\ (badBound parse startPeriod \/ badBound parse endPeriod)
  | inr (lo, hi) =>
      lo = usableDate parse startPeriod /\ hi = usableDate parse endPeriod
      /\ ~ badBound parse startPeriod /\ ~ badBound parse endPeriod
  end.
Proof.
unfold periodBounds, badBound, usableDate. cbv zeta.
destruct (truthy startPeriod), (truthy endPeriod);
  destruct (Date_of parse startPeriod), (Date_of parse endPeriod); simpl;
  repeat split; auto; try (intros [? ?]; discriminate).
Qed.

(** X22. [salarySummaryByPeriod] refuses with a 400 exactly when a supplied
    bound does not parse; otherwise it answers with the totals of the
    salaries whose period overlaps the bounds: the paid and the pending
    amounts, the number of records and the days present, all 0 when
    nothing matches.  When every stored record passes the schema, paid
    and pending together are the whole amount. *)
Theorem salary_period_summary parse startPeriod endPeriod db :
  match salarySummaryByPeriod parse startPeriod endPeriod db with
  | Sent code t =>
      let matched :=
        periodSalaries (usableDate parse startPeriod) (usableDate parse endPeriod) db in
      code = 200
      /\ ~ badBound parse startPeriod /\ ~ badBound parse endPeriod
      /\ TotalsOf matched t
      /\ (forall s, In s matched <->
                    In s db /\ overlaps (usableDate parse startPeriod)
                                        (usableDate parse endPeriod)
                                        (Salary.startPeriod s) (Salary.endPeriod s) = true)
      /\ (Forall (fun s => Salary.valid s = true) db ->
          totalPaid t + totalPending t = sumOf Salary.totalSalary matched)
  | Refused e =>
      statusCode e = 400
      /\ (badBound parse startPeriod \/ badBound parse endPeriod)
  | Thrown _ => False
  end.
Proof.
unfold salarySummaryByPeriod.
pose proof (periodBounds_cases parse startPeriod endPeriod) as Hb.
destruct (periodBounds parse startPeriod endPeriod) as [e|[lo hi]]; [exact Hb|].
destruct Hb as (-> & -> & H1 & H2). cbv zeta.
set (matched := periodSalaries _ _ db).
pose proof (totals_of_group matched) as Ht.
split; [reflexivity|]. split; [exact H1|]. split; [exact H2|].
split; [exact Ht|]. split.
- intros s. unfold matched, periodSalaries. apply filter_In.
- intros Hvalid. destruct Ht as (-> & -> & _).
  apply paid_plus_pending. unfold matched, periodSalaries.
  apply Forall_filter_valid. exact Hvalid.
Qed.

(** X23. [salarySummaryByLabourer] never answers with totals: an identifier
    that is none and a supplied bound that does not parse are refused
    with a 400, and every other request ends in the TypeError of
    [mongoose.Types.ObjectId(labourerId)] called without [new], before
    the aggregation is run. *)
Theorem salary_labourer_summary parse labourerId startPeriod endPeriod db :
  match salarySummaryByLabourer parse labourerId startPeriod endPeriod db with
  | Sent _ _ => False
  | Refused e =>
      statusCode e = 400
      /\ (isValidString labourerId = false
          \/ badBound parse startPeriod \/ badBound parse endPeriod)
  | Thrown e =>
      isValidString labourerId = true
      /\ ~ badBound parse startPeriod /\ ~ badBound parse endPeriod
      /\ e = TypeError "Class constructor ObjectId cannot be invoked without 'new'"
  end.
Proof.
unfold salarySummaryByLabourer.
destruct (isValidString labourerId) eqn:V; simpl; [|auto].
pose proof (periodBounds_cases parse startPeriod endPeriod) as Hb.
destruct (periodBounds parse startPeriod endPeriod) as [e|[lo hi]];
  [destruct Hb; auto|].
destruct Hb as (_ & _ & H1 & H2). unfold ObjectId_call. auto.
Qed.

Lemma sumOf_filter_split {D} (f : D -> Z) (q : D -> bool) l1 x l2 :
  sumOf f (filter q (l1 ++ x :: l2))
  = sumOf f (filter q l1) + (if q x then f x else 0) + sumOf f (filter q l2).
Proof.
rewrite filter_app, sumOf_app. simpl.
destruct (q x); [rewrite sumOf_cons|]; lia.
Qed.

Lemma length_filter_split {D} (q : D -> bool) l1 x y l2 :
  q x = q y ->
  List.length (filter q (l1 ++ x :: l2)) = List.length (filter q (l1 ++ y :: l2)).
Proof.
intros E. rewrite !filter_app, !length_app. simpl. rewrite E.
destruct (q y); reflexivity.
Qed.

(** X24. Paying a salary moves its amount in the period summary: after
    [markSalaryAsPaid] has answered for a stored record,
    [salarySummaryByPeriod] counts the same records and days; when the
    record's period overlaps the bounds, its amount has left the
    pending total and is in the paid total. *)
Theorem paying_moves_the_amount parse now id paymentDate db p db'
        startPeriod endPeriod t :
  NoDup (map Salary._id db) ->
  markSalaryAsPaid parse now id paymentDate db = (Sent 200 p, db') ->
  salarySummaryByPeriod parse startPeriod endPeriod db = Sent 200 t ->
  exists old t',
    In old db
    /\ Salary._id old = canonical id
    /\ salarySummaryByPeriod parse startPeriod endPeriod db' = Sent 200 t'
    /\ recordsCount t' = recordsCount t
    /\ daysPresent t' = daysPresent t
    /\ (if overlaps (usableDate parse startPeriod) (usableDate parse endPeriod)
                    (Salary.startPeriod old) (Salary.endPeriod old)
        then totalPaid t' = totalPaid t - paidAmount old + Salary.totalSalary old
             /\ totalPending t' = totalPending t - pendingAmount old
        else totalPaid t' = totalPaid t /\ totalPending t' = totalPending t).
Proof.
intros Hnd Hpay Hsum.
unfold markSalaryAsPaid in Hpay. cbv zeta in Hpay.
destruct (negb (isValidString id)) eqn:V; [discriminate|].
destruct (truthy paymentDate && isNaN (Date_of parse paymentDate))%bool; [discriminate|].
destruct (Salary.findById (canonical id) db) as [old|] eqn:F; [|discriminate].
unfold setPaymentDate in Hpay.
destruct (Salary.valid (Salary.setStatus "paid" old)) eqn:Hv; [|discriminate].
injection Hpay as _ <-.
unfold salarySummaryByPeriod in *.
pose proof (periodBounds_cases parse startPeriod endPeriod) as Hb.
destruct (periodBounds parse startPeriod endPeriod) as [e|[lo hi]]; [discriminate|].
destruct Hb as (-> & -> & _). injection Hsum as <-.
set (lo := usableDate parse startPeriod). set (hi := usableDate parse endPeriod).
exists old. eexists.
unfold Salary.findById in F. pose proof (find_id Salary._id _ db old F) as [Hid Hin].
split; [exact Hin|]. split; [exact Hid|]. split; [reflexivity|].
destruct (replace_split Salary._id _ (Salary.setStatus "paid" old) db old Hnd F Hid)
  as (l1 & l2 & Hdb & Hdb').
unfold Salary.replace. rewrite Hdb'. rewrite Hdb.
set (paid := Salary.setStatus "paid" old).
set (q := fun s => overlaps lo hi (Salary.startPeriod s) (Salary.endPeriod s)).
assert (q paid = q old) as Hq by reflexivity.
destruct (totals_of_group (periodSalaries lo hi (l1 ++ old :: l2))) as (T1 & T2 & T3 & T4).
destruct (totals_of_group (periodSalaries lo hi (l1 ++ paid :: l2))) as (P1 & P2 & P3 & P4).
rewrite T1, T2, T3, T4, P1, P2, P3, P4. unfold periodSalaries. fold q.
rewrite !sumOf_filter_split.
rewrite (length_filter_split q l1 paid old l2 Hq). rewrite Hq.
split; [reflexivity|].
assert (paidAmount paid = Salary.totalSalary old) as Ep by reflexivity.
assert (pendingAmount paid = 0) as Eq by reflexivity.
assert (Salary.totalDaysPresent paid = Salary.totalDaysPresent old) as Ed by reflexivity.
rewrite Ep, Eq, Ed.
split; [reflexivity|].
change (overlaps lo hi (Salary.startPeriod old) (Salary.endPeriod old)) with (q old).
destruct (q old); split; lia.
Qed.

(** X27. [generateSalaryForPeriod] never adds a salary: every batch it
    builds carries the empty payslip address that the schema refuses,
    so whatever the request, the attendance and the stored salaries,
    the collection is left as it was and no answer reports a created
    record. *)
Theorem generation_never_stores parse newIds body attendance salaries :
  snd (generateSalaryForPeriod parse newIds body attendance salaries) = salaries
  /\ forall code g,
       fst (generateSalaryForPeriod parse newIds body attendance salaries) = Sent code g ->
       code = 200 /\ generatedSalaries g = [].
Proof.
unfold generateSalaryForPeriod, generateSalaryWith. cbv zeta.
destruct (GenerateReq.dailyWage body) as [|dailyWage|];
  try (split; [reflexivity | intros code g H; discriminate H]);
  (destruct (negb (truthy (GenerateReq.startPeriod body))
             || negb (truthy (GenerateReq.endPeriod body)))%bool;
   [split; [reflexivity | intros code g H; discriminate H]|]);
  (destruct (Date_of parse (GenerateReq.startPeriod body)) as [start_|];
   [|split; [reflexivity | intros code g H; discriminate H]]);
  (destruct (Date_of parse (GenerateReq.endPeriod body)) as [end_|];
   [|split; [reflexivity | intros code g H; discriminate H]]);
  (destruct (end_ <? start_);
   [split; [reflexivity | intros code g H; discriminate H]|]);
  try (split; [reflexivity | intros code g H; discriminate H]).
destruct (dailyWage <? 0);
  [split; [reflexivity | intros code g H; discriminate H]|].
destruct (attendanceAggregation start_ end_ attendance) as [|g0 gs] eqn:G.
- split; [reflexivity|]. intros code g H. simpl in H. injection H as <- <-. auto.
- destruct (existsb (fun rec => oid_eqb (fst rec) None) (g0 :: gs));
    [split; [reflexivity | intros code g H; discriminate H]|].
  destruct (salaryRecordsToCreate newIds start_ end_ dailyWage attendance salaries)
    as [|s0 ss] eqn:T.
  + split; [reflexivity|]. intros code g H. simpl in H. injection H as <- <-. auto.
  + assert (forallb Salary.valid (s0 :: ss) = false) as Hinv.
    { rewrite <- T. unfold salaryRecordsToCreate. apply synthesize_invalid.
      intros E. unfold salaryRecordsToCreate in T. rewrite E in T. discriminate T. }
    unfold insertMany. rewrite Hinv.
    split; [reflexivity | intros code g H; discriminate H].
Qed.

(* ================================================================== *)
(** ** What a bulk call stores *)

Lemma entryError_none parse rec :
  entryError parse rec = None ->
  ObjectId_isValid (AttendanceReq.labourerId rec) = true
  /\ ObjectId_isValid (AttendanceReq.projectId rec) = true
  /\ Date_of parse (AttendanceReq.date rec) <> None
  /\ includesVal Attendance.shifts (AttendanceReq.shift rec) = true
  /\ includesVal Attendance.statuses (AttendanceReq.status rec) = true
  /\ (truthy (AttendanceReq.markedBy rec) = true ->
      ObjectId_isValid (AttendanceReq.markedBy rec) = true).
Proof.
unfold entryError. cbv zeta.
destruct (truthy (AttendanceReq.markedBy rec)
          && negb (ObjectId_isValid (AttendanceReq.markedBy rec)))%bool eqn:M;
  [discriminate|].
destruct (negb (truthy (AttendanceReq.status rec))
          || negb (includesVal Attendance.statuses (AttendanceReq.status rec)))%bool
  eqn:S; [discriminate|].
destruct (negb (truthy (AttendanceReq.shift rec))
          || negb (includesVal Attendance.shifts (AttendanceReq.shift rec)))%bool
  eqn:Sh; [discriminate|].
destruct (negb (truthy (AttendanceReq.date rec))
          || isNaN (Date_of parse (AttendanceReq.date rec)))%bool
  eqn:Dt; [discriminate|].
destruct (negb (truthy (AttendanceReq.projectId rec))
          || negb (ObjectId_isValid (AttendanceReq.projectId rec)))%bool
  eqn:P; [discriminate|].
destruct (negb (truthy (AttendanceReq.labourerId rec))
          || negb (ObjectId_isValid (AttendanceReq.labourerId rec)))%bool
  eqn:L; [discriminate|].
intros _.
rewrite orb_false_iff, !negb_false_iff in S, Sh, P, L.
rewrite orb_false_iff in Dt.
destruct S as [_ S], Sh as [_ Sh], P as [_ P], L as [_ L], Dt as [_ Dt].
repeat split; try assumption.
- destruct (Date_of parse (AttendanceReq.date rec)); [discriminate | discriminate Dt].
- intros T. rewrite T in M. simpl in M. apply negb_false_iff in M. exact M.
Qed.

Lemma validateAll_valid parse entries : forall i r,
  In r (fst (validateAll parse i entries)) ->
  exists rec, r = prepare parse rec /\ entryError parse rec = None.
Proof.
induction entries as [|entry rest IH]; intros i r Hin; simpl in Hin; [contradiction|].
destruct (validateAll parse (S i) rest) as [v e] eqn:E.
destruct (entryError parse (orEmpty entry)) eqn:Err; simpl in Hin.
- apply (IH (S i)). rewrite E. exact Hin.
- destruct Hin as [<-|Hin]; [eauto|]. apply (IH (S i)). rewrite E. exact Hin.
Qed.

Lemma validateAll_fst_length parse entries : forall i,
  (List.length (fst (validateAll parse i entries)) <= List.length entries)%nat.
Proof.
induction entries as [|entry rest IH]; intros i; simpl; [lia|].
specialize (IH (S i)). destruct (validateAll parse (S i) rest) as [v e].
destruct (entryError parse (orEmpty entry)); simpl in *; lia.
Qed.

Lemma buildDocs_In newIds recs : forall i a,
  In a (buildDocs newIds i recs) ->
  exists r id, In r recs /\ castPrepared id r = Some a.
Proof.
induction recs as [|r rest IH]; intros i a Hin; simpl in Hin; [contradiction|].
destruct (castPrepared (newIds i) r) as [b|] eqn:C.
- destruct Hin as [<-|Hin]; [exists r, (newIds i); simpl; auto|].
  destruct (IH _ _ Hin) as (r' & id & Hr & Hc). exists r', id. simpl; auto.
- destruct (IH _ _ Hin) as (r' & id & Hr & Hc). exists r', id. simpl; auto.
Qed.

Lemma buildDocs_length newIds recs : forall i,
  (List.length (buildDocs newIds i recs) <= List.length recs)%nat.
Proof.
induction recs as [|r rest IH]; intros i; simpl; [lia|].
specialize (IH (S i)). destruct (castPrepared (newIds i) r); simpl; lia.
Qed.

Lemma writeAll_written writeError docs : forall i db db' written errs,
  writeAll writeError i docs db = (db', written, errs) ->
  forall a, In a written -> In a docs.
Proof.
induction docs as [|d rest IH]; intros i db db' written errs H a Ha; simpl in H.
- inversion H; subst. contradiction.
- destruct (writeError db d) as [msg|].
  + destruct (writeAll writeError (S i) rest db) as [[db1 w1] e1] eqn:E.
    inversion H; subst. right. eapply IH; eauto.
  + destruct (writeAll writeError (S i) rest (db ++ [d])) as [[db1 w1] e1] eqn:E.
    inversion H; subst. destruct Ha as [<-|Ha]; [left; reflexivity|].
    right. eapply IH; eauto.
Qed.

Lemma castPrepared_complete parse id rec a :
  entryError parse rec = None ->
  castPrepared id (prepare parse rec) = Some a ->
  complete a.
Proof.
intros Herr Hcast. apply entryError_none in Herr.
destruct Herr as (L & P & D & _ & _ & M).
unfold castPrepared, prepare in Hcast.
cbn [p_labourerId p_projectId p_date p_markedBy p_shift p_status] in Hcast.
destruct (AttendanceReq.labourerId rec) as [| |l]; try discriminate L.
destruct (AttendanceReq.projectId rec) as [| |p]; try discriminate P.
simpl in L, P. simpl in Hcast. rewrite L, P in Hcast.
destruct (Date_of parse (AttendanceReq.date rec)) as [d|]; [|congruence].
destruct (castObjectId (AttendanceReq.markedBy rec)) as [m|] eqn:Cm; [|discriminate].
match type of Hcast with
| (if Attendance.valid ?b then _ else _) = _ => destruct (Attendance.valid b) eqn:Hv
end; [|discriminate].
injection Hcast as <-. unfold complete. simpl.
split; [exact Hv|].
split; [exists (canonical l); split; [reflexivity | apply canonical_valid; exact L]|].
split; [exists (canonical p); split; [reflexivity | apply canonical_valid; exact P]|].
split; [eauto|].
intros m' ->. destruct (AttendanceReq.markedBy rec) as [| |ms]; try discriminate Cm.
simpl in Cm. destruct (isValidString ms) eqn:Vm; [|discriminate].
injection Cm as <-. apply canonical_valid. exact Vm.
Qed.

(** X8. Whatever it answers, [bulkAddAttendance] only appends to the
    collection, at most one document per entry received, and every
    document appended is complete: identifiers of the right form, a
    date, a shift and a status of their enumerations.  An answer is a
    201 whose failed count is the length of its failure list; a refusal
    wrote nothing. *)
Theorem bulk_add_stores_complete_records parse writeError newIds
        records db out db' :
  bulkAddAttendance parse writeError newIds records db = (out, db') ->
  exists written,
    db' = db ++ written
    /\ Forall complete written
    /\ (List.length written <= received records)%nat
    /\ match out with
       | Sent code report =>
           code = 201
           /\ failedCount report = Z.of_nat (List.length (failedRecords report))
       | Refused e => written = []
       | Thrown _ => False
       end.
Proof.
intros H. unfold bulkAddAttendance, bulkAddAttendanceWith in H.
destruct records as [[|e0 es]|].
- injection H as <- <-. exists []. rewrite app_nil_r. simpl.
  repeat split; auto; lia.
- set (entries := e0 :: es) in *.
  destruct (validateAll parse 0 entries) as [validRecords errors] eqn:Ev.
  destruct validRecords as [|r0 rs].
  + injection H as <- <-. exists []. rewrite app_nil_r. simpl.
  repeat split; auto; lia.
  + set (validRecords := r0 :: rs) in *.
    unfold insertManyUnordered in H. cbv zeta in H.
    destruct (writeAll writeError 0 (buildDocs newIds 0 validRecords) db)
      as [[db1 written] errs] eqn:Ew.
    destruct (writeAll_spec _ _ _ _ _ _ _ Ew) as [Hdb Hlen].
    assert (Forall complete written) as Hcomplete.
    { apply Forall_forall. intros a Ha.
      pose proof (writeAll_written _ _ _ _ _ _ _ Ew a Ha) as Hdoc.
      destruct (buildDocs_In _ _ _ _ Hdoc) as (r & id & Hr & Hc).
      destruct (validateAll_valid parse entries 0 r) as (rec & -> & Herr).
      { rewrite Ev. exact Hr. }
      eapply castPrepared_complete; eauto. }
    assert (List.length written <= received (Some entries))%nat as Hcount.
    { change (received (Some entries)) with (List.length entries).
      pose proof (buildDocs_length newIds validRecords 0) as H1.
      pose proof (validateAll_fst_length parse entries 0) as H2.
      rewrite Ev in H2. simpl fst in H2. lia. }
    exists written.
    destruct errs as [|w ws]; injection H as <- <-.
    * repeat split; auto.
    * repeat split; auto.
- injection H as <- <-. exists []. rewrite app_nil_r. simpl.
  repeat split; auto; lia.
Qed.


Lemma markAttendance_created parse id body db a db1 :
  markAttendance parse id body db = (Sent 201 a, db1) ->
  exists l p d sh st by_,
    AttendanceReq.labourerId body = JStr l /\ isValidString l = true
    /\ AttendanceReq.projectId body = JStr p /\ isValidString p = true
    /\ truthy (AttendanceReq.date body) = true
    /\ Date_of parse (AttendanceReq.date body) = Some d
    /\ AttendanceReq.shift body = JStr sh /\ includes Attendance.shifts sh = true
    /\ AttendanceReq.status body = JStr st /\ includes Attendance.statuses st = true
    /\ castObjectId (AttendanceReq.markedBy body) = Some by_
    /\ existsb (Attendance.hasKey (Some (canonical l)) (Some (canonical p))
                                  (Some d) (Some sh)) db = false
    /\ a = Attendance.mk id (Some (canonical l)) (Some (canonical p)) (Some d)
                         (Some sh) (Some st) by_
    /\ db1 = db ++ [a].
Proof.
intros H. unfold markAttendance in H. cbv zeta in H.
destruct (negb (truthy (AttendanceReq.labourerId body))
          || negb (truthy (AttendanceReq.projectId body))
          || negb (truthy (AttendanceReq.date body))
          || negb (truthy (AttendanceReq.shift body))
          || negb (truthy (AttendanceReq.status body)))%bool eqn:Req; [discriminate|].
destruct (ObjectId_isValid (AttendanceReq.labourerId body)) eqn:L; simpl in H;
  [|discriminate].
destruct (ObjectId_isValid (AttendanceReq.projectId body)) eqn:P; simpl in H;
  [|discriminate].
destruct (truthy (AttendanceReq.markedBy body)
          && negb (ObjectId_isValid (AttendanceReq.markedBy body)))%bool; [discriminate|].
destruct (Date_of parse (AttendanceReq.date body)) as [d|]; [|discriminate].
destruct (AttendanceReq.labourerId body) as [| |l]; try discriminate L.
destruct (AttendanceReq.projectId body) as [| |p]; try discriminate P.
cbn [oidVal] in H.
destruct (existsb (Attendance.hasKey (Some (canonical l)) (Some (canonical p)) (Some d)
                                     (strVal (AttendanceReq.shift body))) db) eqn:K;
  [discriminate|].
destruct (castObjectId (AttendanceReq.markedBy body)) as [by_|]; [|discriminate].
match type of H with
| (if Attendance.valid ?b then _ else _) = _ => destruct (Attendance.valid b) eqn:Hv
end; [|discriminate].
injection H as <- <-.
unfold Attendance.valid in Hv. cbn [Attendance.shift Attendance.status] in Hv.
apply andb_true_iff in Hv. destruct Hv as [Hsh Hst].
destruct (AttendanceReq.shift body) as [| |sh]; try discriminate Hsh.
destruct (AttendanceReq.status body) as [| |st]; try discriminate Hst.
rewrite !orb_false_iff, !negb_false_iff in Req.
destruct Req as [[[[_ _] Td] _] _].
exists l, p, d, sh, st, by_. simpl in *.
repeat split; auto.
Qed.

(** X9. [bulkAddAttendance] does not look for an existing record of the
    same labourer, project, date and shift: the body that
    [markAttendance] has just stored, and would refuse to store again,
    is stored a second time by a bulk call on a store without
    constraints of its own, and the key is then held twice. *)
Theorem bulk_add_repeats_a_marked_key parse newIds id body db a db1 :
  markAttendance parse id body db = (Sent 201 a, db1) ->
  exists a',
    bulkAddAttendance parse acceptAll newIds (Some [Some body]) db1
    = (Sent 201 (mkBulkReport 1 0 []), db1 ++ [a'])
    /\ Attendance.key a' = Attendance.key a
    /\ In a db1
    /\ fst (markAttendance parse (newIds 0%nat) body db1)
       = refuse 409 "Attendance already marked for this labourer, project, date, and shift"
    /\ ~ uniqueKeys (db1 ++ [a']).
Proof.
intros H.
destruct (markAttendance_created parse id body db a db1 H)
  as (l & p & d & sh & st & by_ & El & Vl & Ep & Vp & Td & Ed & Esh & Vsh
      & Est & Vst & Eby & Hkey & Ha & Hdb).
exists (Attendance.mk (newIds 0%nat) (Some (canonical l)) (Some (canonical p)) (Some d)
                      (Some sh) (Some st) by_).
assert (truthy (AttendanceReq.markedBy body)
        && negb (ObjectId_isValid (AttendanceReq.markedBy body)) = false)%bool as Hm.
{ destruct (AttendanceReq.markedBy body) as [| |m]; try reflexivity.
  simpl in *. destruct (isValidString m); [|discriminate].
  apply andb_false_r. }
assert (entryError parse body = None) as Herr.
{ unfold entryError. cbv zeta. rewrite Hm, El, Ep, Td, Ed, Esh, Est.
  cbn [ObjectId_isValid includesVal truthy isNaN].
  rewrite Vl, Vp, Vsh, Vst, (isValid_nonempty l Vl), (isValid_nonempty p Vp),
    (includes_nonempty _ _ Vsh eq_refl), (includes_nonempty _ _ Vst eq_refl).
  reflexivity. }
assert (castPrepared (newIds 0%nat) (prepare parse body)
        = Some (Attendance.mk (newIds 0%nat) (Some (canonical l)) (Some (canonical p))
                              (Some d) (Some sh) (Some st) by_)) as Hcast.
{ unfold castPrepared, prepare.
  cbn [p_labourerId p_projectId p_date p_markedBy p_shift p_status].
  rewrite El, Ep, Ed, Esh, Est, Eby. cbn [castObjectId strVal].
  rewrite Vl, Vp. unfold Attendance.valid, Attendance.requiredEnum.
  cbn [Attendance.shift Attendance.status]. rewrite Vsh, Vst. reflexivity. }
assert (In a db1) as Hin by (rewrite Hdb; apply in_or_app; right; left; reflexivity).
split.
- unfold bulkAddAttendance, bulkAddAttendanceWith.
  cbn [validateAll orEmpty]. rewrite Herr.
  unfold insertManyUnordered. cbn [buildDocs]. rewrite Hcast.
  cbn [writeAll acceptAll List.length Z.of_nat]. reflexivity.
- split; [rewrite Ha; reflexivity|]. split; [exact Hin|]. split.
  + unfold markAttendance. cbv zeta.
    rewrite El, Ep, Esh, Est, Ed.
    cbn [truthy ObjectId_isValid strVal oidVal].
    rewrite Vl, Vp, (isValid_nonempty l Vl), (isValid_nonempty p Vp),
      (includes_nonempty _ _ Vsh eq_refl), (includes_nonempty _ _ Vst eq_refl), Td.
    cbn [negb orb]. rewrite Hm.
    assert (existsb (Attendance.hasKey (Some (canonical l)) (Some (canonical p))
                                       (Some d) (Some sh)) db1 = true)
      as ->; [|reflexivity].
    apply existsb_exists. exists a. split; [exact Hin|].
    rewrite Ha. apply hasKey_iff. reflexivity.
  + intros Huniq. specialize (Huniq (canonical l) (canonical p) d sh).
    rewrite filter_app, length_app in Huniq.
    cbn [filter] in Huniq.
    match type of Huniq with
    | context [if ?c then _ else _] =>
        assert (c = true) as Hk by (apply hasKey_iff; reflexivity);
        rewrite Hk in Huniq
    end.
    cbn [List.length] in Huniq.
    match type of Huniq with
    | (List.length (filter ?q _) + _ <= _)%nat =>
        assert (1 <= List.length (filter q db1))%nat as H1
    end.
    { rewrite Hdb, filter_app, length_app. cbn [filter].
      match goal with
      | |- context [if ?c then _ else _] =>
          assert (c = true) as Hk' by (rewrite Ha; apply hasKey_iff; reflexivity);
          rewrite Hk'
      end.
      simpl. lia. }
    lia.
Qed.

Lemma countIf_app {D} (q : D -> bool) l1 l2 :
  countIf q (l1 ++ l2) = countIf q l1 + countIf q l2.
Proof.
unfold countIf. rewrite filter_app, length_app. lia.
Qed.

(* ================================================================== *)
(** ** The three answers to a valid generation request *)

Lemma known_groups start_ end_ attendance k c :
  labourersKnown start_ end_ attendance ->
  In (k, c) (attendanceAggregation start_ end_ attendance) ->
  exists l, k = Some l /\ c = presentDays start_ end_ l attendance /\ 0 < c.
Proof.
intros Hknown Hin.
assert (NoDup (map fst (attendanceAggregation start_ end_ attendance))) as Hnd
    by (apply (groupCount_spec oid_eqb oid_eqb_eq)).
assert (Forall (fun g => 0 < snd g) (attendanceAggregation start_ end_ attendance)) as Hpos
    by (apply (groupCount_spec oid_eqb oid_eqb_eq)).
rewrite Forall_forall in Hpos. specialize (Hpos _ Hin). simpl in Hpos.
destruct k as [l|].
- exists l. split; [reflexivity|]. split; [|exact Hpos].
  rewrite <- aggregation_counts. symmetry.
  apply (countOf_In oid_eqb oid_eqb_eq); assumption.
- exfalso. unfold labourersKnown in Hknown.
  assert (existsb (fun rec => oid_eqb (fst rec) None)
                  (attendanceAggregation start_ end_ attendance) = true) as E.
  { apply existsb_exists. exists (None, c). split; [exact Hin | reflexivity]. }
  congruence.
Qed.

Lemma present_labourer_has_group start_ end_ attendance l :
  0 < presentDays start_ end_ l attendance ->
  In (Some l, presentDays start_ end_ l attendance)
     (attendanceAggregation start_ end_ attendance).
Proof.
intros Hdays. rewrite <- aggregation_counts in Hdays.
destruct (countOf_positive_In oid_eqb oid_eqb_eq _ _ Hdays) as (c & Hin & Hc).
rewrite aggregation_counts in Hc. subst c. exact Hin.
Qed.

(** X28. A generation request that passes the input checks, over attendance
    that names its labourers, has three possible answers and writes
    nothing in any of them: no present day in the period, a 200 saying
    so; every labourer with a present day already has a salary for
    exactly the period, a 200 saying so; otherwise, some labourer is
    still to be paid and the call fails on the schema. *)
Theorem generation_outcomes parse newIds body attendance salaries
        start_ end_ dailyWage :
  validGeneration parse body start_ end_ dailyWage ->
  labourersKnown start_ end_ attendance ->
  let run := generateSalaryForPeriod parse newIds body attendance salaries in
  let days l := presentDays start_ end_ l attendance in
  let served l := existsb (salaryFor start_ end_ l) salaries in
  ((forall l, days l = 0) ->
   run = (Sent 200 (mkGenerated
            "No attendance records found for the given period to generate salary." []),
          salaries))
  /\ ((exists l, 0 < days l) ->
      (forall l, 0 < days l -> served l = true) ->
      run = (Sent 200 (mkGenerated
               "Salary records for this period already generated for all labourers." []),
             salaries))
  /\ ((exists l, 0 < days l /\ served l = false) ->
      run = (Thrown (ValidationError "Salary validation failed"), salaries)).
Proof.
intros Hreq Hknown run days served.
split; [|split].
- intros Hnone. unfold run, generateSalaryForPeriod.
  rewrite (generateSalaryWith_valid _ _ _ _ _ _ _ _ _ Hreq).
  destruct (attendanceAggregation start_ end_ attendance) as [|[k c] gs] eqn:G;
    [reflexivity|].
  exfalso.
  destruct (known_groups start_ end_ attendance k c Hknown) as (l & _ & Hc & Hpos).
  { rewrite G. left. reflexivity. }
  specialize (Hnone l). unfold days in Hnone. lia.
- intros [l0 Hl0] Hall. unfold run, generateSalaryForPeriod.
  rewrite (generateSalaryWith_valid _ _ _ _ _ _ _ _ _ Hreq).
  pose proof (present_labourer_has_group _ _ _ _ Hl0) as Hin0.
  unfold labourersKnown in Hknown.
  assert (salaryRecordsToCreate newIds start_ end_ dailyWage attendance salaries = [])
    as Hnil.
  { unfold salaryRecordsToCreate.
    rewrite (filter_none _ (attendanceAggregation start_ end_ attendance));
      [reflexivity|].
    intros [k c] Hg. simpl.
    destruct (known_groups start_ end_ attendance k c Hknown Hg) as (l & -> & Hc & Hpos).
    assert (served l = true) as Hs by (apply Hall; unfold days; lia).
    apply negb_false_iff. apply existsb_oid_In.
    apply salary_is_existing; [|exact Hs].
    apply in_map_iff. exists (Some l, c). auto. }
  destruct (attendanceAggregation start_ end_ attendance) as [|g gs] eqn:G;
    [destruct Hin0|].
  rewrite Hknown, Hnil. reflexivity.
- intros (l & Hdays & Hnot).
  apply (generation_refused_by_schema parse newIds body attendance salaries
           start_ end_ dailyWage Hreq Hknown).
  pose proof (present_labourer_has_group _ _ _ _ Hdays) as Hin.
  unfold salaryRecordsToCreate.
  set (groups := attendanceAggregation start_ end_ attendance) in *.
  set (existing := existingLabourerIds (map fst groups) start_ end_ salaries).
  assert (In (Some l, presentDays start_ end_ l attendance)
             (filter (fun rec => negb (existsb (oid_eqb (fst rec)) existing)) groups))
    as Hkept.
  { apply filter_In. split; [exact Hin|]. simpl.
    destruct (existsb (oid_eqb (Some l)) existing) eqn:E; [|reflexivity].
    apply existsb_oid_In in E. apply existing_has_salary in E.
    unfold served in Hnot. congruence. }
  destruct (synthesize_In newIds start_ end_ dailyWage _ _ _ 0%nat Hkept) as [id Hid].
  intros E. rewrite E in Hid. destruct Hid.
Qed.

(* ================================================================== *)
(** ** The further properties on the sample data *)

Ltac distinct := repeat constructor; simpl; intuition discriminate.

Lemma pagination_witness :
  exactRange (JStr "2") (JStr "1") (List.length unassignedSalaries)
  /\ exactRange (JStr "2") (JStr "1") (List.length unassignedLeaves)
  /\ listSalaryRecords isoDates secondPage unassignedSalaries
     = Sent 200 (mkPage (mkMeta 2 2 2 1)
                   [ unassignedSalary (sampleIds 0) 1706745600000 1709164800000
                                      "pending" ])
  /\ listLeaveRequests isoDates plainLeaveQuery unassignedLeaves
     = Sent 200 (mkPage (mkMeta 2 2 2 1)
                   [ unassignedLeave (sampleIds 0) 1709251200000 "pending" ])
  /\ listSalaryRecords isoDates secondPage twoSalaries = Thrown MissingSchemaError
  /\ listLeaveRequests isoDates plainLeaveQuery twoLeaves = Thrown MissingSchemaError
  /\ pageParam 1 (JStr "2") = 2
  /\ pageParam 20 (JStr "1") = 1
  /\ exists found p,
       Permutation found (filter (salaryFilters isoDates secondPage) unassignedSalaries)
       /\ StronglySorted (fun a b => latestPeriodFirst a b = true) found
       /\ PageContract 2 1 found p
       /\ listSalaryRecords isoDates secondPage unassignedSalaries
          = if existsb (fun s => match Salary.labourerId s with
                                 | Some _ => true
                                 | None => false
                                 end) (records p)
            then Thrown MissingSchemaError
            else Sent 200 p.
Proof.
assert (exactRange (JStr "2") (JStr "1") 2) as Hrange.
{ split; [|split]; [repeat constructor | repeat constructor | reflexivity]. }
split; [exact Hrange|]. split; [exact Hrange|].
split; [reflexivity|]. split; [reflexivity|].
split; [reflexivity|]. split; [reflexivity|].
destruct (pagination_contract isoDates secondPage plainLeaveQuery
            unassignedSalaries unassignedLeaves eq_refl Hrange Hrange)
  as [[[(_ & _ & _ & Hpage & _) (_ & _ & _ & Hlimit & _)] Hfound] _].
split; [exact (Hpage 2%nat eq_refl)|].
split; [exact (Hlimit 1%nat eq_refl)|].
exact Hfound.
Defined.

Lemma salary_lists_witness :
  exists p p',
    listSalaryRecords isoDates plainQuery unassignedSalaries = Sent 200 p
    /\ viewSalaryPayslipDetailsForLabourer isoDates labourerA payslipView
                                           unassignedSalaries
       = Sent 200 p'
    /\ total (meta p) = 2
    /\ (forall s, In s (records p) -> Salary.labourerId s = None)
    /\ records p' = []
    /\ total (meta p') = 0.
Proof.
eexists. eexists.
split; [reflexivity|]. split; [reflexivity|]. split; [reflexivity|].
destruct (salary_lists_answer isoDates plainQuery labourerA payslipView
            unassignedSalaries _ _ eq_refl eq_refl) as (_ & Hnone & Hempty & Htotal).
split; [exact Hnone|]. split; [exact Hempty | exact Htotal].
Defined.

Lemma leave_lists_witness :
  exists p p',
    listLeaveRequests isoDates pendingLeaveQuery mixedLeaves = Sent 200 p
    /\ getLeaveStatusByLabourer isoDates labourerA approvedHistory mixedLeaves
       = Sent 200 p'
    /\ records p = [unassignedLeave (sampleIds 0) 1709251200000 "pending"]
    /\ records p' = [leaveOf (sampleIds 1) "approved"]
    /\ (forall l, In l (records p) -> Leave.labourerId l = None)
    /\ forall l, In l (records p') ->
         Leave.labourerId l = Some labourerA
         /\ carries (JStr "approved") (Leave.status l) (Some "approved").
Proof.
eexists. eexists.
split; [reflexivity|]. split; [reflexivity|].
split; [reflexivity|]. split; [reflexivity|].
destruct (leave_lists_answer isoDates pendingLeaveQuery labourerA
            approvedHistory mixedLeaves _ _ eq_refl eq_refl)
  as (_ & Hnone & _ & Hhistory).
split; [exact Hnone | exact Hhistory].
Defined.

Lemma attendance_lists_witness :
  exists p p',
    getAttendanceByLabourer isoDates labourerA plainAttendanceQuery mixedRefs
    = Sent 200 p
    /\ getAttendanceByProject isoDates projectP plainProjectQuery mixedRefs
       = Sent 200 p'
    /\ total (meta p) = 1
    /\ total (meta p') = 1
    /\ (forall a, In a (records p) ->
          Attendance.labourerId a = Some labourerA /\ Attendance.projectId a = None)
    /\ (forall a, In a (records p') ->
          Attendance.projectId a = Some projectP /\ Attendance.labourerId a = None).
Proof.
eexists. eexists.
split; [reflexivity|]. split; [reflexivity|].
split; [reflexivity|]. split; [reflexivity|].
exact (proj2 (proj2 (attendance_lists_answer isoDates labourerA projectP
                       plainAttendanceQuery plainProjectQuery mixedRefs
                       _ _ eq_refl eq_refl))).
Defined.

Lemma by_date_refusal_witness :
  badOid (DateQuery.labourerId badLabourerOnFirst)
  /\ exists msg,
       getAttendanceByDate isoDates utcStartOfDay utcEndOfDay badLabourerOnFirst
                           marchAttendance
       = refuse 400 msg.
Proof.
split; [split; reflexivity|].
exact (by_date_refuses_bad_filters isoDates utcStartOfDay utcEndOfDay
         badLabourerOnFirst marchAttendance
         (or_intror (or_intror (or_introl (conj eq_refl eq_refl))))).
Defined.

Lemma by_date_witness :
  exists p,
    getAttendanceByDate isoDates utcStartOfDay utcEndOfDay presentOnFirst
                        unreferencedAttendance
    = Sent 200 p
    /\ records p = [unreferenced (sampleIds 0) 1709251200000 "present"]
    /\ forall a, In a (records p) ->
         In a unreferencedAttendance
         /\ Attendance.status a = Some "present"
         /\ Attendance.labourerId a = None
         /\ Attendance.projectId a = None.
Proof.
eexists. split; [reflexivity|]. split; [reflexivity|].
intros a Ha.
destruct (by_date_answer isoDates utcStartOfDay utcEndOfDay presentOnFirst
            unreferencedAttendance _ eq_refl) as (t & _ & _ & Hall).
destruct (Hall a Ha) as (Hin & _ & Hl & Hp & _ & _ & Hst & _).
split; [exact Hin|]. split; [exact (Hst eq_refl)|]. split; [exact Hl | exact Hp].
Defined.

Lemma markAttendance_twice_witness :
  let created := attended (sampleIds 0) labourerA 1709251200000 "present" in
  let body :=
    AttendanceReq.mk (JStr "65F000000000000000000101") (JStr projectP)
                     (JStr "2024-03-01") (JStr "morning") (JStr "present")
                     JUndefined in
  markAttendance isoDates (sampleIds 0) body [] = (Sent 201 created, [created])
  /\ markAttendance isoDates (sampleIds 1) body [created]
     = (refuse 409 "Attendance already marked for this labourer, project, date, and shift",
        [created])
  /\ countIf (Attendance.hasKey (Some labourerA) (Some projectP)
                                (Some 1709251200000) (Some "morning"))
             [created] = 1.
Proof.
exact (markAttendance_twice isoDates (sampleIds 0) (sampleIds 1)
         "65F000000000000000000101" projectP
         "2024-03-01" 1709251200000 "morning" "present" None []
         eq_refl eq_refl eq_refl eq_refl eq_refl eq_refl
         (fun m H => False_ind _ (eq_ind None (fun o => match o with
                                                        | None => True
                                                        | Some _ => False
                                                        end) I (Some m) H))
         eq_refl).
Defined.

Lemma uniqueKeys_single a : uniqueKeys [a].
Proof.
intros l p d s. cbn [filter].
destruct (Attendance.hasKey (Some l) (Some p) (Some d) (Some s) a); simpl; lia.
Qed.

Lemma markAttendance_keeps_witness :
  uniqueKeys oneDay
  /\ uniqueKeys (snd (markAttendance isoDates (sampleIds 1) (markBody "2024-03-02") oneDay)).
Proof.
split; [apply uniqueKeys_single|].
exact (markAttendance_keeps_keys_unique isoDates (sampleIds 1) (markBody "2024-03-02")
         oneDay _ _ (uniqueKeys_single _) eq_refl).
Defined.

Lemma updateAttendance_keeps_witness :
  NoDup (map Attendance._id oneDay)
  /\ uniqueKeys oneDay
  /\ uniqueKeys (snd (updateAttendance isoDates (sampleIds 0) moveToSecond oneDay)).
Proof.
assert (NoDup (map Attendance._id oneDay)) as Hnd by distinct.
split; [exact Hnd|]. split; [apply uniqueKeys_single|].
exact (updateAttendance_keeps_keys_unique isoDates (sampleIds 0) moveToSecond
         oneDay _ _ Hnd (uniqueKeys_single _) eq_refl).
Defined.

Lemma deleteAttendance_witness :
  let second := attended (sampleIds 1) labourerA 1709337600000 "present" in
  NoDup (map Attendance._id twoDays)
  /\ deleteAttendance (sampleIds 0) twoDays
     = (Sent 200 "Attendance record deleted successfully", [second])
  /\ exists a,
       In a twoDays
       /\ Attendance._id a = sampleIds 0
       /\ Permutation twoDays [a; second]
       /\ (forall b, In b [second] -> Attendance._id b <> sampleIds 0)
       /\ getAttendanceById (sampleIds 0) [second]
          = refuse 404 "Attendance record not found"
       /\ (forall id', canonical id' <> sampleIds 0 ->
             getAttendanceById id' [second] = getAttendanceById id' twoDays)
       /\ (uniqueKeys twoDays -> uniqueKeys [second]).
Proof.
intros second.
assert (NoDup (map Attendance._id twoDays)) as Hnd by distinct.
split; [exact Hnd|]. split; [reflexivity|].
exact (deleteAttendance_removes_one (sampleIds 0) twoDays _ _ Hnd eq_refl).
Defined.

Lemma deleteSalaryRecord_witness :
  let second := salaryOf (sampleIds 1) labourerB "paid" in
  NoDup (map Salary._id twoSalaries)
  /\ deleteSalaryRecord (sampleIds 0) twoSalaries
     = (Sent 200 "Salary record deleted successfully", [second])
  /\ exists s,
       In s twoSalaries
       /\ Salary._id s = sampleIds 0
       /\ Permutation twoSalaries [s; second]
       /\ (forall b, In b [second] -> Salary._id b <> sampleIds 0)
       /\ getSalaryRecordById (sampleIds 0) [second]
          = refuse 404 "Salary record not found"
       /\ downloadPayslip (sampleIds 0) [second] = refuse 404 "Salary record not found"
       /\ (forall id', canonical id' <> sampleIds 0 ->
             getSalaryRecordById id' [second] = getSalaryRecordById id' twoSalaries
             /\ downloadPayslip id' [second] = downloadPayslip id' twoSalaries).
Proof.
intros second.
assert (NoDup (map Salary._id twoSalaries)) as Hnd by distinct.
split; [exact Hnd|]. split; [reflexivity|].
exact (deleteSalaryRecord_removes_one (sampleIds 0) twoSalaries _ _ Hnd eq_refl).
Defined.

Lemma payslip_url_witness :
  exists s db',
    generatePayslipUrl (sampleIds 0) (JStr "https://files.example/march.pdf") twoSalaries
    = (Sent 200 s, db')
    /\ downloadPayslip (sampleIds 0) db' = Sent 302 "https://files.example/march.pdf"
    /\ downloadPayslip (sampleIds 1) db' = Sent 302 "https://files.example/payslip.pdf"
    /\ SavedOver Salary._id s twoSalaries db'.
Proof.
eexists. eexists. split; [reflexivity|].
destruct (payslip_url_round_trip (sampleIds 0) (JStr "https://files.example/march.pdf")
            twoSalaries _ _ eq_refl)
  as (url & old & Hv & _ & _ & _ & _ & Hdl & Hsaved & _).
injection Hv as <-.
split; [exact Hdl|]. split; [reflexivity | exact Hsaved].
Defined.

Lemma leave_decided_witness :
  exists l db',
    approveLeave (sampleIds 0) (JStr managerM) twoLeaves = (Sent 200 l, db')
    /\ Leave.status l = Some "approved"
    /\ (exists msg, rejectLeave (sampleIds 0) (JStr managerM) db' = (refuse 400 msg, db'))
    /\ (exists msg, cancelLeaveRequest (sampleIds 0) db' = (refuse 400 msg, db')).
Proof.
eexists. eexists. split; [reflexivity|]. split; [reflexivity|].
destruct (leave_is_decided_once (sampleIds 0) (JStr managerM) twoLeaves _ _
            (or_introl eq_refl)) as (_ & _ & _ & Hr & Hc).
split; [exact (Hr (JStr managerM)) | exact Hc].
Defined.

Lemma cancelled_leave_witness :
  let approved := leaveOf (sampleIds 1) "approved" in
  NoDup (map Leave._id twoLeaves)
  /\ cancelLeaveRequest (sampleIds 0) twoLeaves
     = (Sent 200 "Leave request cancelled successfully", [approved])
  /\ approveLeave (sampleIds 0) (JStr managerM) [approved]
     = (refuse 404 "Leave request not found", [approved])
  /\ cancelLeaveRequest (sampleIds 0) [approved]
     = (refuse 404 "Leave request not found", [approved]).
Proof.
intros approved.
assert (NoDup (map Leave._id twoLeaves)) as Hnd by distinct.
split; [exact Hnd|]. split; [reflexivity|].
destruct (cancelled_leave_is_gone (sampleIds 0) twoLeaves _ _ Hnd eq_refl)
  as (_ & _ & Hreview & Hcancel).
split; [exact (proj1 (Hreview (JStr managerM) eq_refl)) | exact Hcancel].
Defined.

Lemma applyForLeave_witness :
  exists l,
    applyForLeave isoDates (sampleIds 2) 1709000000000 sampleLeaveBody twoLeaves
    = (Sent 201 l, twoLeaves ++ [l])
    /\ Leave.reason l = "family function"
    /\ Leave.status l = Some "pending"
    /\ Leave.reviewedBy l = None
    /\ trim (Leave.reason l) = Leave.reason l
    /\ (String.length (Leave.reason l) <= 500)%nat.
Proof.
eexists. split; [reflexivity|].
destruct (applyForLeave_files_pending isoDates (sampleIds 2) 1709000000000
            sampleLeaveBody twoLeaves _ _ eq_refl)
  as (_ & _ & Hst & Hby & _ & _ & _ & _ & _ & Htrim & Hlen).
split; [reflexivity|]. split; [exact Hst|]. split; [exact Hby|].
split; [exact Htrim | exact Hlen].
Defined.

Lemma createSalaryRecord_witness :
  exists s,
    createSalaryRecord isoDates (sampleIds 2) sampleSalaryBody twoSalaries
    = (Sent 201 s, twoSalaries ++ [s])
    /\ Salary.valid s = true
    /\ Salary.status s = Some "pending"
    /\ Salary.payslipUrl s = Some "https://files.example/a.pdf"
    /\ 0 <= Salary.totalDaysPresent s
    /\ 0 <= Salary.dailyWage s
    /\ 0 <= Salary.totalSalary s.
Proof.
eexists. split; [reflexivity|].
destruct (createSalaryRecord_stores_checked isoDates (sampleIds 2) sampleSalaryBody
            twoSalaries _ _ eq_refl)
  as (_ & _ & Hv & _ & _ & Hd & Hw & Ht & _ & _).
split; [exact Hv|]. split; [reflexivity|]. split; [reflexivity|].
split; [exact Hd|]. split; [exact Hw | exact Ht].
Defined.

Lemma createSalaryRecord_duplicates_witness :
  exists s1 s2,
    createSalaryRecord isoDates (sampleIds 0) sampleSalaryBody [] = (Sent 201 s1, [s1])
    /\ createSalaryRecord isoDates (sampleIds 1) sampleSalaryBody [s1]
       = (Sent 201 s2, [s1] ++ [s2])
    /\ Salary._id s2 = sampleIds 1
    /\ sameTriple s1 s2.
Proof.
eexists.
destruct (createSalaryRecord_allows_duplicates isoDates (sampleIds 0) (sampleIds 1)
            sampleSalaryBody [] _ _ eq_refl) as (s2 & Hrun & Hid & Hsame & _).
exists s2. split; [reflexivity|]. split; [exact Hrun|]. split; [exact Hid | exact Hsame].
Defined.

Lemma updateSalaryRecord_witness :
  exists s db',
    updateSalaryRecord isoDates (sampleIds 0) newWage twoSalaries = (Sent 200 s, db')
    /\ Salary.dailyWage s = 120
    /\ Salary.valid s = true
    /\ Salary._id s = sampleIds 0
    /\ SavedOver Salary._id s twoSalaries db'
    /\ map Salary._id db' = map Salary._id twoSalaries
    /\ downloadPayslip (sampleIds 1) db' = downloadPayslip (sampleIds 1) twoSalaries.
Proof.
eexists. eexists. split; [reflexivity|]. split; [reflexivity|].
destruct (updateSalaryRecord_changes_one isoDates (sampleIds 0) newWage twoSalaries
            _ _ eq_refl)
  as (old & _ & _ & _ & Hv & Hid & Hsaved & Hids & Hother & _).
split; [exact Hv|]. split; [exact Hid|]. split; [exact Hsaved|].
split; [exact Hids|].
apply (Hother (sampleIds 1)). discriminate.
Defined.

Lemma update_one_bound_witness :
  exists s,
    updateSalaryRecord isoDates (sampleIds 0) (onlyEndPeriod "2024-03-01") [lateSalary]
    = (Sent 200 s, Salary.replace s [lateSalary])
    /\ Salary.startPeriod s = Some 1709424000000
    /\ Salary.endPeriod s = Some 1709251200000.
Proof.
exact (update_compares_supplied_bounds_only isoDates (sampleIds 0) [lateSalary]
         lateSalary "2024-03-01" 1709251200000
         eq_refl eq_refl eq_refl ltac:(discriminate) eq_refl).
Defined.

Lemma paying_witness :
  NoDup (map Salary._id twoSalaries)
  /\ salarySummaryByPeriod isoDates JUndefined JUndefined twoSalaries
     = Sent 200 (mkSalaryTotals 300 300 2 6)
  /\ exists db' t',
       snd (markSalaryAsPaid isoDates 1712000000000 (sampleIds 0) JUndefined twoSalaries)
       = db'
       /\ salarySummaryByPeriod isoDates JUndefined JUndefined db' = Sent 200 t'
       /\ recordsCount t' = 2
       /\ daysPresent t' = 6
       /\ totalPaid t' = 600
       /\ totalPending t' = 0.
Proof.
assert (NoDup (map Salary._id twoSalaries)) as Hnd by distinct.
split; [exact Hnd|]. split; [reflexivity|].
destruct (paying_moves_the_amount isoDates 1712000000000 (sampleIds 0) JUndefined
            twoSalaries _ _ JUndefined JUndefined _ Hnd eq_refl eq_refl)
  as (old & t' & Hin & Hid & Hsum & Hc & Hd & Hamt).
eexists. exists t'. split; [reflexivity|]. split; [exact Hsum|].
split; [exact Hc|]. split; [exact Hd|].
destruct Hin as [<-|[<-|[]]]; [exact Hamt | discriminate Hid].
Defined.

Lemma generated_record_witness :
  0 < presentDays marchStart marchEnd labourerA marchAttendance
  /\ countIf (fun r => oid_eqb (Salary.labourerId r) (Some labourerA))
             (salaryRecordsToCreate sampleIds marchStart marchEnd 100 marchAttendance [])
     = 1
  /\ exists id,
       In (Salary.mk id (Some labourerA) (Some marchStart) (Some marchEnd) 3 100 300
                     (Some "pending") (Some ""))
          (salaryRecordsToCreate sampleIds marchStart marchEnd 100 marchAttendance []).
Proof.
split; [reflexivity|].
exact (generated_record_content sampleIds marchStart marchEnd 100 marchAttendance []
         labourerA eq_refl eq_refl).
Defined.

Lemma nothing_generated_twice_witness :
  let salaries := [salaryOf (sampleIds 0) labourerA "pending"] in
  existsb (salaryFor marchStart marchEnd labourerA) salaries = true
  /\ countIf (fun r => oid_eqb (Salary.labourerId r) (Some labourerA))
             (salaryRecordsToCreate sampleIds marchStart marchEnd 100 marchAttendance
                                    salaries) = 0
  /\ countIf (fun r => oid_eqb (Salary.labourerId r) (Some managerM))
             (salaryRecordsToCreate sampleIds marchStart marchEnd 100 marchAttendance
                                    salaries) = 0.
Proof.
intros salaries. split; [reflexivity|]. split.
- exact (nothing_generated_twice sampleIds marchStart marchEnd 100 marchAttendance
           salaries labourerA (or_introl eq_refl)).
- exact (nothing_generated_twice sampleIds marchStart marchEnd 100 marchAttendance
           salaries managerM (or_intror eq_refl)).
Defined.

Lemma bulk_add_complete_witness :
  exists report written,
    bulkAddAttendance isoDates acceptAll sampleIds (Some fiveEntries) oneDay
    = (Sent 201 report, oneDay ++ written)
    /\ Forall complete written
    /\ (List.length written <= 5)%nat
    /\ failedCount report = Z.of_nat (List.length (failedRecords report)).
Proof.
destruct (bulk_add_stores_complete_records isoDates acceptAll sampleIds
            (Some fiveEntries) oneDay _ _ eq_refl)
  as (written & Hdb & Hcomplete & Hlen & _ & Hcount).
eexists. exists written. split; [rewrite <- Hdb; reflexivity|].
split; [exact Hcomplete|]. split; [exact Hlen | exact Hcount].
Defined.

Lemma bulk_add_repeats_witness :
  let a := attended (sampleIds 0) labourerA 1709251200000 "present" in
  markAttendance isoDates (sampleIds 0) (markBody "2024-03-01") [] = (Sent 201 a, [a])
  /\ exists a',
       bulkAddAttendance isoDates acceptAll sampleIds
                         (Some [Some (markBody "2024-03-01")]) [a]
       = (Sent 201 (mkBulkReport 1 0 []), [a] ++ [a'])
       /\ Attendance.key a' = Attendance.key a
       /\ ~ uniqueKeys ([a] ++ [a']).
Proof.
intros a. split; [reflexivity|].
destruct (bulk_add_repeats_a_marked_key isoDates sampleIds (sampleIds 0)
            (markBody "2024-03-01") [] a [a] eq_refl)
  as (a' & Hrun & Hkey & _ & _ & Hdup).
exists a'. split; [exact Hrun|]. split; [exact Hkey | exact Hdup].
Defined.

Lemma generation_outcomes_witness :
  validGeneration isoDates marchRequest marchStart marchEnd 100
  /\ generateSalaryForPeriod isoDates sampleIds marchRequest [] twoSalaries
     = (Sent 200 (mkGenerated
          "No attendance records found for the given period to generate salary." []),
        twoSalaries)
  /\ generateSalaryForPeriod isoDates sampleIds marchRequest marchAttendance
                             [salaryOf (sampleIds 0) labourerA "pending"]
     = (Thrown (ValidationError "Salary validation failed"),
        [salaryOf (sampleIds 0) labourerA "pending"]).
Proof.
assert (validGeneration isoDates marchRequest marchStart marchEnd 100) as Hreq.
{ repeat split; try reflexivity; vm_compute; congruence. }
split; [exact Hreq|]. split.
- exact (proj1 (generation_outcomes isoDates sampleIds marchRequest [] twoSalaries
                  marchStart marchEnd 100 Hreq eq_refl)
               (fun l => eq_refl)).
- exact (proj2 (proj2 (generation_outcomes isoDates sampleIds marchRequest marchAttendance
                         [salaryOf (sampleIds 0) labourerA "pending"]
                         marchStart marchEnd 100 Hreq eq_refl))
               (ex_intro _ labourerB (conj eq_refl eq_refl))).
Defined.
